(** * BorsdataAPI: a shallow embedding of [borsdata/borsdata_api.py]

    The client class [BorsdataAPI] is embedded as functions over an explicit
    session record (the attributes of [self]) and an explicit world (the
    clock, the requests put on the wire, standard output).  The HTTP
    transport, the passing of time and the scalar date conversion of pandas
    are the environment: they are given once, as a record [Env].

    Conventions of the embedding.
    - Python numbers are exact rationals ([Q]); [time.time()] readings are
      rationals as well.
    - A Python [dict] is an association list in insertion order; assigning
      to an existing key keeps its position.
    - A raised exception is an [outcome]; whatever was mutated before the
      [raise] stays mutated. *)

From Stdlib Require Import String Ascii List ZArith QArith Bool Lia Lqa.
From Stdlib Require Import DecimalString Sorted Permutation.
Import ListNotations.

Local Open Scope string_scope.
Local Open Scope list_scope.

Set Implicit Arguments.
Set Warnings "-register-all".

(* ------------------------------------------------------------------ *)
(** ** Python values that travel through keyword arguments *)

Inductive pyval : Type :=
| PNone
| PInt (n : Z)
| PStr (s : string)
| PList (ids : list Z).

Definition str_of_Z (n : Z) : string := NilZero.string_of_int (Z.to_int n).

(** [str(v)], as used by f-strings and by [",".join(str(x) for x in v)]. *)
Definition py_str (v : pyval) : string :=
  match v with
  | PNone => "None"
  | PInt n => str_of_Z n
  | PStr s => s
  | PList ids => ("[" ++ String.concat ", " (map str_of_Z ids) ++ "]")%string
  end.

Definition is_None (v : pyval) : bool :=
  match v with PNone => true | _ => false end.

Fixpoint chars (s : string) : list string :=
  match s with
  | EmptyString => []
  | String a s' => String a EmptyString :: chars s'
  end.

(** Exceptions the embedded code can raise. *)
Inductive exn : Type :=
| TypeError
| KeyError (key : string)
| ValueError
| AttributeError
| ZeroDivisionError
| JSONDecodeError.

(** [Unmodelled] marks an input on which the behaviour of pandas is outside
    the fragment described in this file; it is never used for the code of
    the client itself. *)
Inductive outcome (A : Type) : Type :=
| Ret (a : A)
| Raise (e : exn)
| Unmodelled.

Arguments Ret {A} a.
Arguments Raise {A} e.
Arguments Unmodelled {A}.

Definition obind {A B} (x : outcome A) (f : A -> outcome B) : outcome B :=
  match x with
  | Ret a => f a
  | Raise e => Raise e
  | Unmodelled => Unmodelled
  end.

(** The elements produced by iterating over a value ([for x in v]), already
    passed through [str]. *)
Definition iter_str (v : pyval) : outcome (list string) :=
  match v with
  | PList ids => Ret (map str_of_Z ids)
  | PStr s => Ret (chars s)
  | PNone | PInt _ => Raise TypeError
  end.

(* ------------------------------------------------------------------ *)
(** ** Dictionaries *)

Module Dict.
Section Dict.
Variable V : Type.

Definition t := list (string * V).

Fixpoint get (k : string) (d : t) : option V :=
  match d with
  | [] => None
  | (k', v) :: d' => if String.eqb k k' then Some v else get k d'
  end.

(** [d[k] = v] *)
Fixpoint set (k : string) (v : V) (d : t) : t :=
  match d with
  | [] => [(k, v)]
  | (k', v') :: d' =>
      if String.eqb k k' then (k, v) :: d' else (k', v') :: set k v d'
  end.

Definition keys (d : t) : list string := map fst d.

Definition mem (k : string) (d : t) : bool :=
  match get k d with Some _ => true | None => false end.
End Dict.
End Dict.

Abbreviation dict := Dict.t.
Definition kwargs := list (string * pyval).

(* ------------------------------------------------------------------ *)
(** ** JSON documents and HTTP messages *)

Inductive json : Type :=
| JNull
| JBool (b : bool)
| JNum (q : Q)
| JStr (s : string)
| JArr (items : list json)
| JObj (fields : list (string * json)).

Record Request : Type := {
  req_url : string;
  req_params : dict pyval
}.

(** [resp_json] is the decoded body, when the body is a JSON document. *)
Record Response : Type := {
  status_code : Z;
  resp_text : string;
  resp_json : option json
}.

(** What [_call_api] hands back: the decoded document, or the response
    object itself. *)
Inductive apiresult : Type :=
| Json (j : json)
| Resp (r : Response).

(** A line written by [print]. *)
Inductive output : Type :=
| OutStr (s : string)
| OutUrl (r : Request)
| OutResult (r : apiresult)
| OutJson (j : json).

(* ------------------------------------------------------------------ *)
(** ** Tables: the fragment of pandas the client relies on

    A [DataFrame] has column labels, rows, and an index.  [index_names = []]
    is the positional index a fresh frame has; the key of a row is then
    empty.  Missing values ([None], [NaN], [NaT]) are one cell, [NA].

    The fragment covers payload rows that are flat JSON objects with scalar
    fields, and frames whose column labels are pairwise distinct; anything
    else is [Unmodelled]. *)

Inductive cell : Type :=
| NA
| CBool (b : bool)
| CNum (q : Q)
| CStr (s : string)
| CTime (t : Z).

Definition is_NA (c : cell) : bool :=
  match c with NA => true | _ => false end.

Definition as_num (c : cell) : option Q :=
  match c with
  | CNum q => Some q
  | CBool b => Some (if b then 1 else 0)
  | _ => None
  end.

(** Equality of labels and of group keys ([True == 1] in Python). *)
Definition cell_eqb (a b : cell) : bool :=
  match a, b with
  | NA, NA => true
  | CStr x, CStr y => String.eqb x y
  | CTime x, CTime y => Z.eqb x y
  | _, _ =>
      match as_num a, as_num b with
      | Some x, Some y => Qeq_bool x y
      | _, _ => false
      end
  end.

Definition has_label (c : cell) (cols : list cell) : bool :=
  existsb (cell_eqb c) cols.

Fixpoint position (c : cell) (cols : list cell) : option nat :=
  match cols with
  | [] => None
  | c' :: cols' =>
      if cell_eqb c c' then Some O
      else option_map S (position c cols')
  end.

Fixpoint unique_labels (cols : list cell) : bool :=
  match cols with
  | [] => true
  | c :: cols' => negb (has_label c cols') && unique_labels cols'
  end.

Definition row : Type := (list cell * list cell)%type.

Record DataFrame : Type := {
  index_names : list string;
  columns : list cell;
  rows : list row
}.

Definition empty_frame : DataFrame :=
  {| index_names := []; columns := []; rows := [] |}.

Fixpoint omap {A B} (f : A -> outcome B) (l : list A) : outcome (list B) :=
  match l with
  | [] => Ret []
  | a :: l' => obind (f a) (fun b => obind (omap f l') (fun bs => Ret (b :: bs)))
  end.

Fixpoint traverse {A B} (f : A -> option B) (l : list A) : option (list B) :=
  match l with
  | [] => Some []
  | a :: l' =>
      match f a, traverse f l' with
      | Some b, Some bs => Some (b :: bs)
      | _, _ => None
      end
  end.

(** *** From JSON to frames *)

Definition record : Type := list (string * cell).

Definition scalar (j : json) : option cell :=
  match j with
  | JNull => Some NA
  | JBool b => Some (CBool b)
  | JNum q => Some (CNum q)
  | JStr s => Some (CStr s)
  | JArr _ | JObj _ => None
  end.

Definition flat_record (j : json) : option record :=
  match j with
  | JObj fields => traverse (fun kv => option_map (pair (fst kv)) (scalar (snd kv))) fields
  | _ => None
  end.

(** Keys in order of first appearance. *)
Fixpoint dedup (seen ks : list string) : list string :=
  match ks with
  | [] => []
  | k :: ks' =>
      if existsb (String.eqb k) seen then dedup seen ks'
      else k :: dedup (k :: seen) ks'
  end.

Definition union_keys (recs : list record) : list string :=
  dedup [] (concat (map (map fst) recs)).

Definition field (r : record) (k : string) : cell :=
  match Dict.get k r with Some c => c | None => NA end.

Definition frame_of_records (recs : list record) : DataFrame :=
  let ks := union_keys recs in
  {| index_names := [];
     columns := map CStr ks;
     rows := map (fun r => ([], map (field r) ks)) recs |}.

(** [pd.json_normalize(data)] *)
Definition json_normalize (data : json) : outcome DataFrame :=
  match data with
  | JArr items =>
      match traverse flat_record items with
      | Some recs => Ret (frame_of_records recs)
      | None => Unmodelled
      end
  | JObj _ =>
      match flat_record data with
      | Some r => Ret (frame_of_records [r])
      | None => Unmodelled
      end
  | _ => Unmodelled
  end.

(** The records under [record_path] of one parent object, and the parent's
    [meta] field. *)
Definition pull (record_path meta : string) (obj : json)
  : outcome (list record * cell) :=
  match obj with
  | JObj fields =>
      obind
        (match Dict.get record_path fields with
         | None => Raise (KeyError record_path)
         | Some (JArr items) =>
             match traverse flat_record items with
             | Some recs => Ret recs
             | None => Unmodelled
             end
         | Some JNull => Ret []
         | Some _ => Raise TypeError
         end)
        (fun recs =>
           match Dict.get meta fields with
           | None => Raise (KeyError meta)
           | Some v =>
               match scalar v with
               | Some c => Ret (recs, c)
               | None => Unmodelled
               end
           end)
  | _ => Unmodelled
  end.

(** [pd.json_normalize(data, record_path=record_path, meta=meta)] *)
Definition json_normalize_path (data : json) (record_path meta : string)
  : outcome DataFrame :=
  match data with
  | JArr [] => Ret empty_frame
  | JArr _ | JObj _ =>
      let parents := match data with JArr items => items | _ => [data] end in
      obind (omap (pull record_path meta) parents) (fun pulled =>
      let df := frame_of_records (concat (map fst pulled)) in
      let metas := concat (map (fun p => repeat (snd p) (length (fst p))) pulled) in
      if has_label (CStr meta) (columns df) then Raise ValueError
      else
        Ret {| index_names := [];
               columns := columns df ++ [CStr meta];
               rows := map (fun rm => (fst (fst rm), snd (fst rm) ++ [snd rm]))
                           (combine (rows df) metas) |})
  | _ => Unmodelled
  end.

(** *** Column labels *)

Definition set_columns (cols : list cell) (df : DataFrame) : outcome DataFrame :=
  if unique_labels cols
  then Ret {| index_names := index_names df; columns := cols; rows := rows df |}
  else Unmodelled.

Definition rename_label (m : list (string * string)) (c : cell) : cell :=
  match c with
  | CStr s => match Dict.get s m with Some s' => CStr s' | None => c end
  | _ => c
  end.

(** [df.rename(columns=m)] *)
Definition rename (m : list (string * string)) (df : DataFrame) : outcome DataFrame :=
  set_columns (map (rename_label m) (columns df)) df.

(** [x.replace("_", "")] *)
Fixpoint strip_underscores (s : string) : string :=
  match s with
  | EmptyString => EmptyString
  | String a s' =>
      if Ascii.eqb a "_"%char then strip_underscores s'
      else String a (strip_underscores s')
  end.

Definition replace_underscores (c : cell) : outcome cell :=
  match c with
  | CStr s => Ret (CStr (strip_underscores s))
  | _ => Raise AttributeError
  end.

(** [df.columns = [x.replace("_", "") for x in df.columns]] *)
Definition strip_column_names (df : DataFrame) : outcome DataFrame :=
  obind (omap replace_underscores (columns df)) (fun cols => set_columns cols df).

(** [str.lower], on the ASCII letters. *)
Definition lower_ascii (a : ascii) : ascii :=
  let n := nat_of_ascii a in
  if (65 <=? n)%nat && (n <=? 90)%nat then ascii_of_nat (n + 32) else a.

Fixpoint lower (s : string) : string :=
  match s with
  | EmptyString => EmptyString
  | String a s' => String (lower_ascii a) (lower s')
  end.

Definition lower_label (c : cell) : outcome cell :=
  match c with
  | CStr s => Ret (CStr (lower s))
  | _ => Raise TypeError
  end.

(** [df.rename(columns=str.lower)] *)
Definition rename_lower (df : DataFrame) : outcome DataFrame :=
  obind (omap lower_label (columns df)) (fun cols => set_columns cols df).

(** *** Cells of a column *)

Fixpoint map_at {A} (f : A -> outcome A) (i : nat) (l : list A) : outcome (list A) :=
  match l, i with
  | [], _ => Ret []
  | a :: l', O => obind (f a) (fun b => Ret (b :: l'))
  | a :: l', S i' => obind (map_at f i' l') (fun l'' => Ret (a :: l''))
  end.

Definition map_column (f : cell -> outcome cell) (i : nat) (df : DataFrame)
  : outcome DataFrame :=
  obind (omap (fun r : row => obind (map_at f i (snd r)) (fun v => Ret (fst r, v)))
              (rows df))
        (fun rs => Ret {| index_names := index_names df;
                          columns := columns df;
                          rows := rs |}).

(** [pd.to_datetime] on one cell of a column. *)
Definition convert (conv : cell -> option Z) (c : cell) : outcome cell :=
  match c with
  | NA => Ret NA
  | _ => match conv c with
         | Some t => Ret (CTime t)
         | None => Raise ValueError
         end
  end.

Definition _parse_date (conv : cell -> option Z) (df : DataFrame) (key : string)
  : outcome DataFrame :=
  match position (CStr key) (columns df) with
  | Some i => map_column (convert conv) i df
  | None => Ret df
  end.

(** [df[key] = df[key].apply(lambda x: x.replace("_", ""))] *)
Definition apply_replace (key : string) (df : DataFrame) : outcome DataFrame :=
  match position (CStr key) (columns df) with
  | Some i => map_column replace_underscores i df
  | None => Raise (KeyError key)
  end.

(** [df.fillna(0, inplace=True)] *)
Definition fillna0 (df : DataFrame) : DataFrame :=
  {| index_names := index_names df;
     columns := columns df;
     rows := map (fun r : row =>
                    (fst r, map (fun c => if is_NA c then CNum 0 else c) (snd r)))
                 (rows df) |}.

(** *** Index *)

Definition select (ps : list nat) (v : list cell) : list cell :=
  map (fun p => nth p v NA) ps.

Fixpoint drop_from (i : nat) (ps : list nat) (v : list cell) : list cell :=
  match v with
  | [] => []
  | c :: v' =>
      if existsb (Nat.eqb i) ps then drop_from (S i) ps v'
      else c :: drop_from (S i) ps v'
  end.

Definition drop_at (ps : list nat) (v : list cell) : list cell := drop_from 0 ps v.

Definition locate (cols : list cell) (k : string) : outcome nat :=
  match position (CStr k) cols with
  | Some i => Ret i
  | None => Raise (KeyError k)
  end.

(** [df.set_index(keys, inplace=True)] *)
Definition set_index (keys : list string) (df : DataFrame) : outcome DataFrame :=
  obind (omap (locate (columns df)) keys) (fun ps =>
  match keys with
  | [] => Raise ValueError
  | _ =>
      Ret {| index_names := keys;
             columns := drop_at ps (columns df);
             rows := map (fun r : row => (select ps (snd r), drop_at ps (snd r)))
                         (rows df) |}
  end).

Inductive kind : Type := KNum | KStr | KTime.

Definition kind_of (c : cell) : option kind :=
  match c with
  | NA => None
  | CBool _ | CNum _ => Some KNum
  | CStr _ => Some KStr
  | CTime _ => Some KTime
  end.

Definition kind_eqb (a b : kind) : bool :=
  match a, b with
  | KNum, KNum | KStr, KStr | KTime, KTime => true
  | _, _ => false
  end.

(** All values present in one index level can be ordered against each other. *)
Fixpoint homogeneous (seen : option kind) (cs : list cell) : bool :=
  match cs with
  | [] => true
  | c :: cs' =>
      match kind_of c, seen with
      | None, _ => homogeneous seen cs'
      | Some k, None => homogeneous (Some k) cs'
      | Some k, Some k' => kind_eqb k k' && homogeneous seen cs'
      end
  end.

Definition comparable (levels : nat) (ks : list (list cell)) : bool :=
  forallb (fun i => homogeneous None (map (fun k => nth i k NA) ks)) (seq 0 levels).

(** Order of two values of one index level; missing values go last. *)
Definition cell_leb (ascending : bool) (a b : cell) : bool :=
  match a, b with
  | _, NA => true
  | NA, _ => false
  | CStr x, CStr y => if ascending then String.leb x y else String.leb y x
  | CTime x, CTime y => if ascending then (x <=? y)%Z else (y <=? x)%Z
  | _, _ =>
      match as_num a, as_num b with
      | Some x, Some y => if ascending then Qle_bool x y else Qle_bool y x
      | _, _ => true
      end
  end.

Fixpoint key_leb (ascending : bool) (k1 k2 : list cell) : bool :=
  match k1, k2 with
  | a :: k1', b :: k2' =>
      if cell_eqb a b then key_leb ascending k1' k2' else cell_leb ascending a b
  | _, _ => true
  end.

Fixpoint insert_row (ascending : bool) (r : row) (l : list row) : list row :=
  match l with
  | [] => [r]
  | x :: l' =>
      if key_leb ascending (fst r) (fst x) then r :: l
      else x :: insert_row ascending r l'
  end.

Fixpoint sort_rows (ascending : bool) (l : list row) : list row :=
  match l with
  | [] => []
  | r :: l' => insert_row ascending r (sort_rows ascending l')
  end.

(** [df.sort_index(inplace=True, ascending=ascending)].  Rows with equal
    keys keep their relative order.  Where missing keys go in an index of
    several levels is outside the fragment. *)
Definition sort_index (ascending : bool) (df : DataFrame) : outcome DataFrame :=
  let ks := map fst (rows df) in
  let levels := length (index_names df) in
  if negb (comparable levels ks) then Raise TypeError
  else if (1 <? levels)%nat && existsb (existsb is_NA) ks then Unmodelled
  else Ret {| index_names := index_names df;
              columns := columns df;
              rows := sort_rows ascending (rows df) |}.

Inductive index_spec : Type :=
| One (name : string)
| Many (names : list string).

Definition _set_index (df : DataFrame) (index : index_spec) (ascending : bool)
  : outcome DataFrame :=
  match index with
  | Many names =>
      if forallb (fun idx => has_label (CStr idx) (columns df)) names
      then obind (set_index names df) (sort_index ascending)
      else Ret df
  | One name =>
      if has_label (CStr name) (columns df)
      then obind (set_index [name] df) (sort_index ascending)
      else Ret df
  end.

(** *** Pivot *)

Definition mean (xs : list Q) : Q :=
  Qred (fold_right Qplus 0 xs / inject_Z (Z.of_nat (length xs))).

Fixpoint key_eqb (k1 k2 : list cell) : bool :=
  match k1, k2 with
  | [], [] => true
  | a :: k1', b :: k2' => cell_eqb a b && key_eqb k1' k2'
  | _, _ => false
  end.

Fixpoint distinct_keys (seen ks : list (list cell)) : list (list cell) :=
  match ks with
  | [] => []
  | k :: ks' =>
      if existsb (key_eqb k) seen then distinct_keys seen ks'
      else k :: distinct_keys (k :: seen) ks'
  end.

Definition sorted_keys (ks : list (list cell)) : list (list cell) :=
  map fst (sort_rows true (map (fun k => (k, [])) (distinct_keys [] ks))).

Record observation : Type := {
  obs_key : list cell;
  obs_col : cell;
  obs_val : cell
}.

Definition observed (o : observation) : bool :=
  negb (existsb is_NA (obs_key o)) && negb (is_NA (obs_col o)).

Definition numeric_or_NA (c : cell) : bool :=
  match c with NA | CNum _ | CBool _ => true | _ => false end.

Definition group (obs : list observation) (k : list cell) (c : cell) : list Q :=
  flat_map (fun o =>
              if key_eqb (obs_key o) k && cell_eqb (obs_col o) c
              then match as_num (obs_val o) with Some q => [q] | None => [] end
              else [])
           obs.

Definition pivot_cell (obs : list observation) (k : list cell) (c : cell) : cell :=
  match group obs k c with
  | [] => NA
  | xs => CNum (mean xs)
  end.

(** [df.pivot_table(index=index, columns=cols, values=values)], with the
    default aggregation (the mean of each group) and the default sorting of
    the group keys (ascending). *)
Definition pivot_table (index : list string) (cols values : string) (df : DataFrame)
  : outcome DataFrame :=
  obind (locate (columns df) values) (fun vi =>
  obind (omap (locate (columns df)) index) (fun ips =>
  obind (locate (columns df) cols) (fun ci =>
  let obs := map (fun r : row =>
                    {| obs_key := select ips (snd r);
                       obs_col := nth ci (snd r) NA;
                       obs_val := nth vi (snd r) NA |}) (rows df) in
  let obs := filter observed obs in
  if negb (forallb (fun o => numeric_or_NA (obs_val o)) obs) then Unmodelled
  else
    let obs := filter (fun o => negb (is_NA (obs_val o))) obs in
    let ks := map obs_key obs in
    let cs := map (fun o => [obs_col o]) obs in
    if negb (comparable (length index) ks && comparable 1 cs) then Unmodelled
    else
      let labels := map (fun k => nth 0 k NA) (sorted_keys cs) in
      Ret {| index_names := index;
             columns := labels;
             rows := map (fun k => (k, map (pivot_cell obs k) labels))
                         (sorted_keys ks) |}))).

(** What an endpoint operation returns. *)
Inductive result : Type :=
| RNone
| RFrame (df : DataFrame)
| RFrames (dfs : list DataFrame)
| RCell (c : cell).

(* ------------------------------------------------------------------ *)
(** ** Session, world, environment *)

Record Session : Type := {
  _api_key : pyval;
  _url_root : string;
  _last_api_call : Q;
  _api_calls_per_second : Z;
  _params : dict pyval
}.

Definition __init__ (api_key : pyval) : Session :=
  {| _api_key := api_key;
     _url_root := "https://apiservice.borsdata.se/v1/";
     _last_api_call := 0;
     _api_calls_per_second := 10;
     _params := [("authKey", api_key);
                 ("maxYearCount", PInt 20);
                 ("maxR12QCount", PInt 40);
                 ("maxCount", PInt 20)] |}.

Record World : Type := {
  clock : Q;
  wire : list (Q * Request);
  stdout : list output
}.

Definition world0 (t : Q) : World :=
  {| clock := t; wire := []; stdout := [] |}.

(** The environment.  The [n]-th request (counting from 0) leaves
    [jitter n] seconds after the client asked for it, is answered with
    [respond n] and takes [latency n] seconds.  [to_datetime] is the scalar
    conversion behind [pd.to_datetime] on a value that is not missing;
    [None] stands for its [ValueError]. *)
Record Env : Type := {
  respond : nat -> Request -> Response;
  jitter : nat -> Q;
  latency : nat -> Q;
  to_datetime : cell -> option Z
}.

(** Computations of the client: they read and write the session and the
    world and may raise. *)
Definition M (A : Type) : Type := Session -> World -> outcome A * Session * World.

Definition ret {A} (a : A) : M A := fun s w => (Ret a, s, w).
Definition raise {A} (e : exn) : M A := fun s w => (Raise e, s, w).
Definition bind {A B} (m : M A) (f : A -> M B) : M B :=
  fun s w =>
    match m s w with
    | (Ret a, s', w') => f a s' w'
    | (Raise e, s', w') => (Raise e, s', w')
    | (Unmodelled, s', w') => (Unmodelled, s', w')
    end.
Definition lift {A} (x : outcome A) : M A := fun s w => (x, s, w).

Declare Scope py_scope.
Delimit Scope py_scope with py.
Notation "x <- m ;; k" := (bind m (fun x => k))
  (at level 100, m at next level, right associativity) : py_scope.
Notation "m ;;; k" := (bind m (fun _ => k))
  (at level 100, right associativity) : py_scope.
Local Open Scope py_scope.

Definition self : M Session := fun s w => (Ret s, s, w).
Definition print (o : output) : M unit :=
  fun s w => (Ret tt, s, {| clock := clock w; wire := wire w; stdout := stdout w ++ [o] |}).
Definition time_time : M Q := fun s w => (Ret (clock w), s, w).
Definition time_sleep (d : Q) : M unit :=
  fun s w => (Ret tt, s, {| clock := clock w + d; wire := wire w; stdout := stdout w |}).
Definition set_last_api_call (t : Q) : M unit :=
  fun s w => (Ret tt,
              {| _api_key := _api_key s; _url_root := _url_root s;
                 _last_api_call := t;
                 _api_calls_per_second := _api_calls_per_second s;
                 _params := _params s |}, w).
(** [self._params[k] = v] *)
Definition set_param (k : string) (v : pyval) : M unit :=
  fun s w => (Ret tt,
              {| _api_key := _api_key s; _url_root := _url_root s;
                 _last_api_call := _last_api_call s;
                 _api_calls_per_second := _api_calls_per_second s;
                 _params := Dict.set k v (_params s) |}, w).

Section Client.
Variable E : Env.

(** [requests.get(url, params)] *)
Definition requests_get (url : string) (params : dict pyval) : M Response :=
  fun s w =>
    let n := length (wire w) in
    let r := {| req_url := url; req_params := params |} in
    let start := clock w + jitter E n in
    (Ret (respond E n r), s,
     {| clock := start + latency E n;
        wire := wire w ++ [(start, r)];
        stdout := stdout w |}).

(** The body of the loop of [_get_params], for one keyword argument. *)
Definition get_params_step (params : dict pyval) (kv : string * pyval)
  : M (dict pyval) :=
  let (key, value) := kv in
  if is_None value then ret params
  else if key =? "from_date" then ret (Dict.set "from" value params)
  else if (key =? "to") || (key =? "date") then ret (Dict.set key value params)
  else if key =? "instList" then
    parts <- lift (iter_str value) ;;
    ret (Dict.set key (PStr (String.concat "," parts)) params)
  else
    print (OutStr ("BorsdataAPI >> Unknown param: " ++ key ++ "=" ++ py_str value)%string) ;;;
    ret params.

Fixpoint get_params_loop (kw : kwargs) (params : dict pyval) : M (dict pyval) :=
  match kw with
  | [] => ret params
  | kv :: kw' =>
      params' <- get_params_step params kv ;;
      get_params_loop kw' params'
  end.

Definition _get_params (kw : kwargs) : M (dict pyval) :=
  s <- self ;;
  get_params_loop kw (_params s).

Definition _call_api (url : string) (kw : kwargs) : M apiresult :=
  current_time <- time_time ;;
  s <- self ;;
  let time_delta := current_time - _last_api_call s in
  (if (_api_calls_per_second s =? 0)%Z then raise ZeroDivisionError
   else
     let interval := 1 / inject_Z (_api_calls_per_second s) in
     if Qlt_le_dec time_delta interval
     then time_sleep (interval - time_delta)
     else ret tt) ;;;
  params <- _get_params kw ;;
  response <- requests_get (_url_root s ++ url)%string params ;;
  print (OutUrl {| req_url := (_url_root s ++ url)%string; req_params := params |}) ;;;
  now <- time_time ;;
  set_last_api_call now ;;;
  if negb (status_code response =? 200)%Z then
    print (OutStr ("API-Error, status code: " ++ str_of_Z (status_code response))%string) ;;;
    ret (Resp response)
  else
    match resp_json response with
    | Some j => ret (Json j)
    | None => raise JSONDecodeError
    end.

Definition _get_base_params : M (dict pyval) :=
  s <- self ;;
  ret [("authKey", _api_key s);
       ("version", PInt 1);
       ("maxYearCount", PInt 20);
       ("maxR12QCount", PInt 40);
       ("maxCount", PInt 20)].

(** [json_data[key]] *)
Definition subscript (json_data : apiresult) (key : string) : outcome json :=
  match json_data with
  | Json (JObj fields) =>
      match Dict.get key fields with
      | Some v => Ret v
      | None => Raise (KeyError key)
      end
  | _ => Raise TypeError
  end.

Definition parse_date (df : DataFrame) (key : string) : outcome DataFrame :=
  _parse_date (to_datetime E) df key.

(** *** Instrument metadata *)

Definition get_branches : M result :=
  let url := "branches" in
  json_data <- _call_api url [] ;;
  data <- lift (subscript json_data "branches") ;;
  df <- lift (json_normalize data) ;;
  df <- lift (_set_index df (One "id") true) ;;
  ret (RFrame df).

Definition get_countries : M result :=
  let url := "countries" in
  json_data <- _call_api url [] ;;
  data <- lift (subscript json_data "countries") ;;
  df <- lift (json_normalize data) ;;
  df <- lift (_set_index df (One "id") true) ;;
  ret (RFrame df).

Definition get_markets : M result :=
  let url := "markets" in
  json_data <- _call_api url [] ;;
  data <- lift (subscript json_data "markets") ;;
  df <- lift (json_normalize data) ;;
  df <- lift (_set_index df (One "id") true) ;;
  ret (RFrame df).

Definition get_sectors : M result :=
  let url := "sectors" in
  json_data <- _call_api url [] ;;
  data <- lift (subscript json_data "sectors") ;;
  df <- lift (json_normalize data) ;;
  df <- lift (_set_index df (One "id") true) ;;
  ret (RFrame df).

Definition get_translation_metadata : M result :=
  let url := "translationmetadata" in
  json_data <- _call_api url [] ;;
  data <- lift (subscript json_data "translationMetadatas") ;;
  df <- lift (json_normalize data) ;;
  df <- lift (_set_index df (One "translationKey") true) ;;
  ret (RFrame df).

(** *** Instruments *)

Definition get_instruments : M result :=
  let url := "instruments" in
  json_data <- _call_api url [] ;;
  data <- lift (subscript json_data "instruments") ;;
  df <- lift (json_normalize data) ;;
  df <- lift (parse_date df "listingDate") ;;
  df <- lift (_set_index df (One "insId") true) ;;
  ret (RFrame df).

Definition get_instruments_updated : M result :=
  let url := "instruments/updated" in
  json_data <- _call_api url [] ;;
  print (OutResult json_data) ;;;
  data <- lift (subscript json_data "instruments") ;;
  df <- lift (json_normalize data) ;;
  df <- lift (parse_date df "updatedAt") ;;
  df <- lift (_set_index df (One "insId") true) ;;
  ret (RFrame df).

Definition get_instrument_descriptions (ins_ids : list Z) : M result :=
  if (50 <? length ins_ids)%nat then ret RNone
  else
    let url := "instruments/description" in
    json_data <- _call_api url [("instList", PList ins_ids)] ;;
    data <- lift (subscript json_data "list") ;;
    df <- lift (json_normalize data) ;;
    df <- lift (rename [("languageCode", "lang")] df) ;;
    df <- lift (_set_index df (Many ["insId"; "lang"]) true) ;;
    ret (RFrame df).

(** *** KPIs *)

Definition get_kpi_history (ins_id kpi_id report_type price_type max_count : pyval)
  : M result :=
  let url := ("instruments/" ++ py_str ins_id ++ "/kpis/" ++ py_str kpi_id ++ "/"
             ++ py_str report_type ++ "/" ++ py_str price_type ++ "/history")%string in
  params <- _get_base_params ;;
  let params :=
    if negb (is_None max_count) then Dict.set "maxCount" max_count params
    else params in
  json_data <- _call_api url [] ;;
  values <- lift (subscript json_data "values") ;;
  print (OutJson values) ;;;
  df <- lift (json_normalize values) ;;
  df <- lift (rename [("y", "year"); ("p", "period"); ("v", "kpiValue")] df) ;;
  df <- lift (_set_index df (Many ["year"; "period"]) false) ;;
  ret (RFrame df).

Definition get_kpi_summary (ins_id report_type max_count : pyval) : M result :=
  let url := ("instruments/" ++ py_str ins_id ++ "/kpis/" ++ py_str report_type
             ++ "/summary")%string in
  (if negb (is_None max_count) then set_param "maxCount" max_count else ret tt) ;;;
  json_data <- _call_api url [] ;;
  kpis <- lift (subscript json_data "kpis") ;;
  df <- lift (json_normalize_path kpis "values" "KpiId") ;;
  df <- lift (rename [("y", "year"); ("p", "period"); ("v", "kpiValue");
                      ("KpiId", "kpiId")] df) ;;
  df <- lift (pivot_table ["year"; "period"] "kpiId" "kpiValue" df) ;;
  df <- lift (_set_index df (Many ["year"; "period"]) false) ;;
  ret (RFrame df).

Definition get_kpi_data_instrument (ins_id kpi_id calc_group calc : pyval) : M result :=
  let url := ("instruments/" ++ py_str ins_id ++ "/kpis/" ++ py_str kpi_id ++ "/"
             ++ py_str calc_group ++ "/" ++ py_str calc)%string in
  json_data <- _call_api url [] ;;
  value <- lift (subscript json_data "value") ;;
  df <- lift (json_normalize value) ;;
  df <- lift (rename [("i", "insId"); ("n", "valueNum"); ("s", "valueStr")] df) ;;
  df <- lift (_set_index df (One "insId") true) ;;
  ret (RFrame df).

Definition get_kpi_data_all_instruments (kpi_id calc_group calc : pyval) : M result :=
  let url := ("instruments/kpis/" ++ py_str kpi_id ++ "/" ++ py_str calc_group ++ "/"
             ++ py_str calc)%string in
  json_data <- _call_api url [] ;;
  values <- lift (subscript json_data "values") ;;
  df <- lift (json_normalize values) ;;
  df <- lift (rename [("i", "insId"); ("n", "valueNum"); ("s", "valueStr")] df) ;;
  df <- lift (_set_index df (One "insId") true) ;;
  ret (RFrame df).

Definition get_updated_kpis : M result :=
  let url := "instruments/kpis/updated" in
  json_data <- _call_api url [] ;;
  updated <- lift (subscript json_data "kpisCalcUpdated") ;;
  match scalar updated with
  | Some c => t <- lift (convert (to_datetime E) c) ;; ret (RCell t)
  | None => lift Unmodelled
  end.

Definition get_kpi_metadata : M result :=
  let url := "instruments/kpis/metadata" in
  json_data <- _call_api url [] ;;
  data <- lift (subscript json_data "kpiHistoryMetadatas") ;;
  df <- lift (json_normalize data) ;;
  df <- lift (_set_index df (One "kpiId") true) ;;
  ret (RFrame df).

(** *** Reports *)

Definition report_frame (data : json) : outcome DataFrame :=
  obind (json_normalize data) (fun df =>
  obind (strip_column_names df) (fun df =>
  obind (parse_date df "reportStartDate") (fun df =>
  obind (parse_date df "reportEndDate") (fun df =>
  obind (parse_date df "reportDate") (fun df =>
  _set_index df (Many ["year"; "period"]) false))))).

Definition get_instrument_report (ins_id report_type max_count : pyval) : M result :=
  let url := ("instruments/" ++ py_str ins_id ++ "/reports/" ++ py_str report_type)%string in
  (if negb (is_None max_count) then set_param "maxCount" max_count else ret tt) ;;;
  json_data <- _call_api url [] ;;
  reports <- lift (subscript json_data "reports") ;;
  df <- lift (report_frame reports) ;;
  ret (RFrame df).

Fixpoint report_frames (json_data : apiresult) (report_types : list string)
  : outcome (list DataFrame) :=
  match report_types with
  | [] => Ret []
  | report_type :: rest =>
      obind (subscript json_data report_type) (fun data =>
      obind (report_frame data) (fun df =>
      obind (report_frames json_data rest) (fun dfs => Ret (df :: dfs))))
  end.

Definition get_instrument_reports (ins_id : pyval) : M result :=
  let url := ("instruments/" ++ py_str ins_id ++ "/reports")%string in
  json_data <- _call_api url [] ;;
  dfs <- lift (report_frames json_data ["reportsQuarter"; "reportsYear"; "reportsR12"]) ;;
  ret (RFrames dfs).

Definition report_list_frame (report_list : json) (record_path : string)
  : outcome DataFrame :=
  obind (json_normalize_path report_list record_path "instrument") (fun df =>
  obind (rename_lower df) (fun df =>
  obind (rename [("instrument", "stock_id")] df) (fun df =>
  obind (parse_date df "report_start_date") (fun df =>
  obind (parse_date df "report_end_date") (fun df =>
  parse_date df "report_date"))))).

Definition get_instrument_report_list (stock_id_list : list Z) : M result :=
  let url := "instruments/reports" in
  json_data <- _call_api url [("instList", PList stock_id_list)] ;;
  report_list <- lift (subscript json_data "reportList") ;;
  r12 <- lift (report_list_frame report_list "reportsR12") ;;
  report_list <- lift (subscript json_data "reportList") ;;
  quarter <- lift (report_list_frame report_list "reportsQuarter") ;;
  report_list <- lift (subscript json_data "reportList") ;;
  year <- lift (report_list_frame report_list "reportsYear") ;;
  ret (RFrames [quarter; year; r12]).

Definition get_reports_metadata : M result :=
  let url := "instruments/reports/metadata" in
  json_data <- _call_api url [] ;;
  data <- lift (subscript json_data "reportMetadatas") ;;
  df <- lift (json_normalize data) ;;
  df <- lift (rename [("reportPropery", "reportProperty")] df) ;;
  df <- lift (apply_replace "reportProperty" df) ;;
  df <- lift (_set_index df (One "reportProperty") true) ;;
  ret (RFrame df).

Definition get_report_calendar (ins_ids : list Z) : M result :=
  let url := "instruments/report/calendar" in
  json_data <- _call_api url [("instList", PList ins_ids)] ;;
  data <- lift (subscript json_data "list") ;;
  df <- lift (json_normalize_path data "values" "insId") ;;
  ret (RFrame df).

(** *** Stock prices *)

Definition get_instrument_stock_prices (ins_id from_date to_date max_count : pyval)
  : M result :=
  let url := ("instruments/" ++ py_str ins_id ++ "/stockprices")%string in
  json_data <- _call_api url [("from_date", from_date); ("to", to_date)] ;;
  data <- lift (subscript json_data "stockPricesList") ;;
  df <- lift (json_normalize data) ;;
  df <- lift (rename [("d", "date"); ("c", "close"); ("h", "high"); ("l", "low");
                      ("o", "open"); ("v", "volume")] df) ;;
  df <- lift (parse_date df "date") ;;
  df <- lift (_set_index df (One "date") false) ;;
  ret (RFrame df).

Definition get_instrument_stock_prices_list
  (stock_id_list : list Z) (from_date to_date : pyval) : M result :=
  let url := "instruments/stockprices" in
  json_data <- _call_api url [("from_date", from_date); ("to", to_date);
                              ("instList", PList stock_id_list)] ;;
  data <- lift (subscript json_data "stockPricesArrayList") ;;
  stock_prices <- lift (json_normalize_path data "stockPricesList" "instrument") ;;
  stock_prices <- lift (rename [("d", "date"); ("c", "close"); ("h", "high");
                                ("l", "low"); ("o", "open"); ("v", "volume");
                                ("instrument", "stock_id")] stock_prices) ;;
  ret (RFrame (fillna0 stock_prices)).

Definition get_instruments_stock_prices_last : M result :=
  let url := "instruments/stockprices/last" in
  json_data <- _call_api url [] ;;
  data <- lift (subscript json_data "stockPricesList") ;;
  df <- lift (json_normalize data) ;;
  df <- lift (rename [("d", "date"); ("i", "insId"); ("c", "close"); ("h", "high");
                      ("l", "low"); ("o", "open"); ("v", "volume")] df) ;;
  df <- lift (parse_date df "date") ;;
  df <- lift (_set_index df (One "date") false) ;;
  ret (RFrame df).

Definition get_stock_prices_date (date : pyval) : M result :=
  let url := "instruments/stockprices/date" in
  json_data <- _call_api url [("date", date)] ;;
  data <- lift (subscript json_data "stockPricesList") ;;
  df <- lift (json_normalize data) ;;
  df <- lift (rename [("d", "date"); ("i", "insId"); ("c", "close"); ("h", "high");
                      ("l", "low"); ("o", "open"); ("v", "volume")] df) ;;
  df <- lift (parse_date df "date") ;;
  df <- lift (_set_index df (One "insId") true) ;;
  ret (RFrame df).

(** *** Stock splits *)

Definition get_stock_splits : M result :=
  let url := "instruments/stocksplits" in
  json_data <- _call_api url [] ;;
  data <- lift (subscript json_data "stockSplitList") ;;
  df <- lift (json_normalize data) ;;
  df <- lift (rename [("instrumentId", "insId")] df) ;;
  df <- lift (parse_date df "splitDate") ;;
  df <- lift (_set_index df (One "insId") true) ;;
  ret (RFrame df).

End Client.

(* ------------------------------------------------------------------ *)
(** ** Vocabulary of the statements *)

Unset Implicit Arguments.

Definition session_of {A} (x : outcome A * Session * World) : Session := snd (fst x).
Definition world_of {A} (x : outcome A * Session * World) : World := snd x.
Definition outcome_of {A} (x : outcome A * Session * World) : outcome A := fst (fst x).

Definition say (w : World) (lines : list output) : World :=
  {| clock := clock w; wire := wire w; stdout := stdout w ++ lines |}.

(** *** Parameter builder *)

(** The last value other than [None] that [kw] gives to [k]. *)
Fixpoint given (k : string) (kw : kwargs) : option pyval :=
  match kw with
  | [] => None
  | (k', v) :: kw' =>
      match given k kw' with
      | Some v' => Some v'
      | None => if (k =? k')%string && negb (is_None v) then Some v else None
      end
  end.

Definition overlay (k : string) (kw : kwargs) (base : dict pyval) : option pyval :=
  match given k kw with
  | Some v => Some v
  | None => Dict.get k base
  end.

Definition recognized (k : string) : bool :=
  ((k =? "from_date") || (k =? "to") || (k =? "date") || (k =? "instList"))%string.

Definition unknown_param (kv : string * pyval) : bool :=
  negb (is_None (snd kv)) && negb (recognized (fst kv)).

Definition diagnostic (kv : string * pyval) : output :=
  OutStr ("BorsdataAPI >> Unknown param: " ++ fst kv ++ "=" ++ py_str (snd kv))%string.

Definition diagnostics (kw : kwargs) : list output :=
  map diagnostic (filter unknown_param kw).

Definition elements (v : pyval) : list string :=
  match v with
  | PList ids => map str_of_Z ids
  | PStr s => chars s
  | _ => []
  end.

Definition comma_joined (v : pyval) : pyval := PStr (String.concat "," (elements v)).

Definition iterable (v : pyval) : Prop :=
  match v with PInt _ => False | _ => True end.

(** The dictionary after one turn of the loop of [_get_params]. *)
Definition override (params : dict pyval) (kv : string * pyval) : dict pyval :=
  let (k, v) := kv in
  if is_None v then params
  else if (k =? "from_date")%string then Dict.set "from" v params
  else if ((k =? "to") || (k =? "date"))%string then Dict.set k v params
  else if (k =? "instList")%string then Dict.set k (comma_joined v) params
  else params.

(** Every value given to [instList] is [None], a string or a list of ids. *)
Definition well_typed (kw : kwargs) : Prop :=
  forall v, In ("instList", v) kw -> iterable v.

(** The builder in the words of the specification: the recognized override
    keys are [from_date], [to_date], [date] and [instList]. *)
Definition spec_recognized (k : string) : bool :=
  ((k =? "from_date") || (k =? "to_date") || (k =? "date") || (k =? "instList"))%string.

Definition spec_override (params : dict pyval) (kv : string * pyval) : dict pyval :=
  let (key, value) := kv in
  if is_None value then params
  else if (key =? "from_date")%string then Dict.set "from" value params
  else if ((key =? "to_date") || (key =? "date"))%string then Dict.set key value params
  else if (key =? "instList")%string then Dict.set key (comma_joined value) params
  else params.

Definition spec_build (base : dict pyval) (kw : kwargs) : dict pyval :=
  fold_left spec_override kw base.

Definition spec_diagnostics (kw : kwargs) : list output :=
  map diagnostic
      (filter (fun kv => negb (is_None (snd kv)) && negb (spec_recognized (fst kv))) kw).

Definition sample_kwargs : kwargs :=
  [("from_date", PStr "2022-01-01"); ("to", PStr "2023-01-01");
   ("to_date", PStr "2023-06-30"); ("date", PNone);
   ("instList", PList [2; 3; 4; 5]%Z)].

(** *** One call of the API *)

(** The clock when [_call_api] is done waiting. *)
Definition throttle_until (s : Session) (w : World) : Q :=
  let interval := 1 / inject_Z (_api_calls_per_second s) in
  let time_delta := clock w - _last_api_call s in
  if Qlt_le_dec time_delta interval
  then clock w + (interval - time_delta)
  else clock w.

Definition stamp (s : Session) (t : Q) : Session :=
  {| _api_key := _api_key s; _url_root := _url_root s;
     _last_api_call := t;
     _api_calls_per_second := _api_calls_per_second s;
     _params := _params s |}.

Definition request_for (s : Session) (url : string) (kw : kwargs) : Request :=
  {| req_url := (_url_root s ++ url)%string;
     req_params := fold_left override kw (_params s) |}.

Definition answer (r : Response) : outcome apiresult :=
  if negb (status_code r =? 200)%Z then Ret (Resp r)
  else match resp_json r with
       | Some j => Ret (Json j)
       | None => Raise JSONDecodeError
       end.

Definition api_error_lines (r : Response) : list output :=
  if negb (status_code r =? 200)%Z
  then [OutStr ("API-Error, status code: " ++ str_of_Z (status_code r))%string]
  else [].

(** Start of the next request, and the clock when its response is in. *)
Definition request_start (E : Env) (s : Session) (w : World) : Q :=
  throttle_until s w + jitter E (length (wire w)).

Definition request_end (E : Env) (s : Session) (w : World) : Q :=
  request_start E s w + latency E (length (wire w)).

Definition response_to (E : Env) (s : Session) (w : World) (url : string) (kw : kwargs)
  : Response :=
  respond E (length (wire w)) (request_for s url kw).

Definition after_call (E : Env) (s : Session) (w : World) (url : string) (kw : kwargs)
  : World :=
  {| clock := request_end E s w;
     wire := wire w ++ [(request_start E s w, request_for s url kw)];
     stdout := stdout w ++ diagnostics kw ++ [OutUrl (request_for s url kw)]
                        ++ api_error_lines (response_to E s w url kw) |}.

(** *** Sequences of calls *)

(** A call of the API by the program, [idle] seconds after the previous
    statement returned. *)
Record call : Type := {
  idle : Q;
  call_url : string;
  call_kwargs : kwargs
}.

(** The calls are made one after the other; whatever a call returns or
    raises, the program goes on to the next one. *)
Fixpoint run_calls (E : Env) (cs : list call) (s : Session) (w : World)
  : Session * World :=
  match cs with
  | [] => (s, w)
  | c :: cs' =>
      let x := (time_sleep (idle c) ;;; _call_api E (call_url c) (call_kwargs c)) s w in
      run_calls E cs' (session_of x) (world_of x)
  end.

Definition starts (w : World) : list Q := map fst (wire w).

(** No two of the times are less than [d] apart. *)
Definition spaced (d : Q) (ts : list Q) : Prop :=
  ForallOrdPairs (fun a b => a + d <= b) ts.

Definition pause (d : Q) (w : World) : World :=
  {| clock := clock w + d; wire := wire w; stdout := stdout w |}.

(** The requests sent so far are spaced, and none began after the
    timestamp of the session. *)
Record throttled (s : Session) (w : World) : Prop := {
  th_rate : _api_calls_per_second s = 10%Z;
  th_spaced : spaced (1 # 10) (starts w);
  th_past : Forall (fun t => t <= _last_api_call s) (starts w)
}.

(** Time does not run backwards in the environment. *)
Definition physical (E : Env) : Prop :=
  (forall n, 0 <= jitter E n) /\ (forall n, 0 <= latency E n).

Definition well_formed (c : call) : Prop :=
  0 <= idle c /\ well_typed (call_kwargs c).

Definition quiet_env (r : Response) : Env :=
  {| respond := fun _ _ => r;
     jitter := fun _ => 0;
     latency := fun _ => 0;
     to_datetime := fun _ => None |}.

Definition not_found : Response :=
  {| status_code := 404; resp_text := "Not Found"; resp_json := None |}.

Definition three_calls : list call :=
  [ {| idle := 0; call_url := "branches"; call_kwargs := [] |};
    {| idle := 1 # 20; call_url := "markets"; call_kwargs := [] |};
    {| idle := 1; call_url := "instruments/stockprices/date";
       call_kwargs := [("date", PStr "2020-09-25")] |} ].

(** *** The endpoint operations, as one family *)

Inductive op : Type :=
| GetBranches
| GetCountries
| GetMarkets
| GetSectors
| GetTranslationMetadata
| GetInstruments
| GetInstrumentsUpdated
| GetInstrumentDescriptions (ins_ids : list Z)
| GetKpiHistory (ins_id kpi_id report_type price_type max_count : pyval)
| GetKpiSummary (ins_id report_type max_count : pyval)
| GetKpiDataInstrument (ins_id kpi_id calc_group calc : pyval)
| GetKpiDataAllInstruments (kpi_id calc_group calc : pyval)
| GetUpdatedKpis
| GetKpiMetadata
| GetInstrumentReport (ins_id report_type max_count : pyval)
| GetInstrumentReports (ins_id : pyval)
| GetInstrumentReportList (stock_id_list : list Z)
| GetReportsMetadata
| GetReportCalendar (ins_ids : list Z)
| GetInstrumentStockPrices (ins_id from_date to_date max_count : pyval)
| GetInstrumentStockPricesList (stock_id_list : list Z) (from_date to_date : pyval)
| GetInstrumentsStockPricesLast
| GetStockPricesDate (date : pyval)
| GetStockSplits.

Definition run_op (E : Env) (o : op) : M result :=
  match o with
  | GetBranches => get_branches E
  | GetCountries => get_countries E
  | GetMarkets => get_markets E
  | GetSectors => get_sectors E
  | GetTranslationMetadata => get_translation_metadata E
  | GetInstruments => get_instruments E
  | GetInstrumentsUpdated => get_instruments_updated E
  | GetInstrumentDescriptions ins_ids => get_instrument_descriptions E ins_ids
  | GetKpiHistory ins_id kpi_id report_type price_type max_count =>
      get_kpi_history E ins_id kpi_id report_type price_type max_count
  | GetKpiSummary ins_id report_type max_count =>
      get_kpi_summary E ins_id report_type max_count
  | GetKpiDataInstrument ins_id kpi_id calc_group calc =>
      get_kpi_data_instrument E ins_id kpi_id calc_group calc
  | GetKpiDataAllInstruments kpi_id calc_group calc =>
      get_kpi_data_all_instruments E kpi_id calc_group calc
  | GetUpdatedKpis => get_updated_kpis E
  | GetKpiMetadata => get_kpi_metadata E
  | GetInstrumentReport ins_id report_type max_count =>
      get_instrument_report E ins_id report_type max_count
  | GetInstrumentReports ins_id => get_instrument_reports E ins_id
  | GetInstrumentReportList stock_id_list => get_instrument_report_list E stock_id_list
  | GetReportsMetadata => get_reports_metadata E
  | GetReportCalendar ins_ids => get_report_calendar E ins_ids
  | GetInstrumentStockPrices ins_id from_date to_date max_count =>
      get_instrument_stock_prices E ins_id from_date to_date max_count
  | GetInstrumentStockPricesList stock_id_list from_date to_date =>
      get_instrument_stock_prices_list E stock_id_list from_date to_date
  | GetInstrumentsStockPricesLast => get_instruments_stock_prices_last E
  | GetStockPricesDate date => get_stock_prices_date E date
  | GetStockSplits => get_stock_splits E
  end.

(** The operation returns before calling the API. *)
Definition rejected (o : op) : bool :=
  match o with
  | GetInstrumentDescriptions ins_ids => (50 <? length ins_ids)%nat
  | _ => false
  end.

Definition op_url (o : op) : string :=
  match o with
  | GetBranches => "branches"
  | GetCountries => "countries"
  | GetMarkets => "markets"
  | GetSectors => "sectors"
  | GetTranslationMetadata => "translationmetadata"
  | GetInstruments => "instruments"
  | GetInstrumentsUpdated => "instruments/updated"
  | GetInstrumentDescriptions _ => "instruments/description"
  | GetKpiHistory ins_id kpi_id report_type price_type _ =>
      "instruments/" ++ py_str ins_id ++ "/kpis/" ++ py_str kpi_id ++ "/"
      ++ py_str report_type ++ "/" ++ py_str price_type ++ "/history"
  | GetKpiSummary ins_id report_type _ =>
      "instruments/" ++ py_str ins_id ++ "/kpis/" ++ py_str report_type ++ "/summary"
  | GetKpiDataInstrument ins_id kpi_id calc_group calc =>
      "instruments/" ++ py_str ins_id ++ "/kpis/" ++ py_str kpi_id ++ "/"
      ++ py_str calc_group ++ "/" ++ py_str calc
  | GetKpiDataAllInstruments kpi_id calc_group calc =>
      "instruments/kpis/" ++ py_str kpi_id ++ "/" ++ py_str calc_group ++ "/"
      ++ py_str calc
  | GetUpdatedKpis => "instruments/kpis/updated"
  | GetKpiMetadata => "instruments/kpis/metadata"
  | GetInstrumentReport ins_id report_type _ =>
      "instruments/" ++ py_str ins_id ++ "/reports/" ++ py_str report_type
  | GetInstrumentReports ins_id => "instruments/" ++ py_str ins_id ++ "/reports"
  | GetInstrumentReportList _ => "instruments/reports"
  | GetReportsMetadata => "instruments/reports/metadata"
  | GetReportCalendar _ => "instruments/report/calendar"
  | GetInstrumentStockPrices ins_id _ _ _ =>
      "instruments/" ++ py_str ins_id ++ "/stockprices"
  | GetInstrumentStockPricesList _ _ _ => "instruments/stockprices"
  | GetInstrumentsStockPricesLast => "instruments/stockprices/last"
  | GetStockPricesDate _ => "instruments/stockprices/date"
  | GetStockSplits => "instruments/stocksplits"
  end%string.

Definition op_kwargs (o : op) : kwargs :=
  match o with
  | GetInstrumentDescriptions ins_ids => [("instList", PList ins_ids)]
  | GetInstrumentReportList stock_id_list => [("instList", PList stock_id_list)]
  | GetReportCalendar ins_ids => [("instList", PList ins_ids)]
  | GetInstrumentStockPrices _ from_date to_date _ =>
      [("from_date", from_date); ("to", to_date)]
  | GetInstrumentStockPricesList stock_id_list from_date to_date =>
      [("from_date", from_date); ("to", to_date); ("instList", PList stock_id_list)]
  | GetStockPricesDate date => [("date", date)]
  | _ => []
  end.

Definition with_params (s : Session) (params : dict pyval) : Session :=
  {| _api_key := _api_key s; _url_root := _url_root s;
     _last_api_call := _last_api_call s;
     _api_calls_per_second := _api_calls_per_second s;
     _params := params |}.

(** The session when the operation reaches [_call_api]. *)
Definition prepared (o : op) (s : Session) : Session :=
  match o with
  | GetKpiSummary _ _ max_count | GetInstrumentReport _ _ max_count =>
      if negb (is_None max_count)
      then with_params s (Dict.set "maxCount" max_count (_params s))
      else s
  | _ => s
  end.

(** A computation that leaves the session, the clock and the wire alone. *)
Definition local {A} (m : M A) : Prop :=
  forall s w, exists lines,
    session_of (m s w) = s /\ world_of (m s w) = say w lines.

(** A continuation of [_call_api] that cannot go on with a response
    object. *)
Definition needs_json {A} (k : apiresult -> M A) : Prop :=
  forall r s w, outcome_of (k (Resp r) s w) = Raise TypeError.

Definition ok_response (j : json) : Response :=
  {| status_code := 200; resp_text := ""; resp_json := Some j |}.

Definition fifty_one_ids : list Z := map Z.of_nat (seq 1 51).

(** *** Tables *)

(** Two rows are in the order of the index. *)
Definition row_le (ascending : bool) (r1 r2 : row) : Prop :=
  key_leb ascending (fst r1) (fst r2) = true.

Definition declared (index : index_spec) : list string :=
  match index with
  | One name => [name]
  | Many names => names
  end.

(** Some declared index column is not a column of the frame. *)
Definition absent (index : index_spec) (df : DataFrame) : Prop :=
  exists name, In name (declared index) /\ has_label (CStr name) (columns df) = false.

(** The new name of a column under a renaming. *)
Definition rn (m : list (string * string)) (k : string) : string :=
  match Dict.get k m with Some k' => k' | None => k end.

Fixpoint find_key (k : string) (ks : list string) : option nat :=
  match ks with
  | [] => None
  | k' :: ks' =>
      if (k =? k')%string then Some O else option_map S (find_key k ks')
  end.

Definition remove_key (k : string) (ks : list string) : list string :=
  filter (fun k' => negb (k' =? k)%string) ks.

Fixpoint update_at (i : nat) (g : cell -> cell) (v : list cell) : list cell :=
  match v, i with
  | [], _ => []
  | c :: v', O => g c :: v'
  | c :: v', S i' => c :: update_at i' g v'
  end.

(** The date a cell stands for, once [pd.to_datetime] accepted it. *)
Definition converted (conv : cell -> option Z) (c : cell) : cell :=
  match c with
  | NA => NA
  | _ => match conv c with Some t => CTime t | None => c end
  end.

Definition convertible (conv : cell -> option Z) (c : cell) : Prop :=
  c = NA \/ exists t, conv c = Some t.

Definition stripped (c : cell) : cell :=
  match c with CStr s => CStr (strip_underscores s) | _ => c end.

Definition is_string (c : cell) : Prop :=
  match c with CStr _ => True | _ => False end.

Definition is_number (c : cell) : Prop :=
  match c with CNum _ => True | _ => False end.

Definition is_date (c : cell) : Prop :=
  match c with CTime _ | NA => True | _ => False end.

(** The frame with one row per record: the row of [r] holds [cellf r k] for
    each key [k] of [ks], under the labels [labels]. *)
Definition table_of (labels ks : list string) (cellf : record -> string -> cell)
           (recs : list record) : DataFrame :=
  {| index_names := [];
     columns := map CStr labels;
     rows := map (fun r => ([], map (cellf r) ks)) recs |}.

(** The rows of the same records once the column of key [ki] is the index. *)
Definition keyed_rows (ki : string) (ks : list string)
           (cellf : record -> string -> cell) (recs : list record) : list row :=
  map (fun r => ([cellf r ki], map (cellf r) (remove_key ki ks))) recs.

(** [cellf], with [g] applied in the column of key [kt]. *)
Definition in_column (kt : string) (g : cell -> cell)
           (cellf : record -> string -> cell) (r : record) (k : string) : cell :=
  if (k =? kt)%string then g (cellf r k) else cellf r k.

(** *** Payloads *)

(** The request of this call is answered with status 200 and a document
    whose [envelope] field is an array of the flat records [recs]. *)
Definition served (E : Env) (s : Session) (w : World) (url : string) (kw : kwargs)
           (envelope : string) (recs : list record) : Prop :=
  status_code (response_to E s w url kw) = 200%Z
  /\ exists fields items,
       resp_json (response_to E s w url kw) = Some (JObj fields)
       /\ Dict.get envelope fields = Some (JArr items)
       /\ traverse flat_record items = Some recs.

(** No field of the payload already has one of the new names. *)
Definition fresh_for (m : list (string * string)) (recs : list record) : Prop :=
  forall k, In k (union_keys recs) -> ~ In k (map snd m).

Definition price_names : list (string * string) :=
  [("d", "date"); ("c", "close"); ("h", "high"); ("l", "low");
   ("o", "open"); ("v", "volume")].

Definition all_price_names : list (string * string) :=
  [("d", "date"); ("i", "insId"); ("c", "close"); ("h", "high"); ("l", "low");
   ("o", "open"); ("v", "volume")].

Definition list_price_names : list (string * string) :=
  [("d", "date"); ("c", "close"); ("h", "high"); ("l", "low");
   ("o", "open"); ("v", "volume"); ("instrument", "stock_id")].

(** Every [d] of the payload is missing or is accepted by [pd.to_datetime]. *)
Definition dated (E : Env) (recs : list record) : Prop :=
  forall r, In r recs -> convertible (to_datetime E) (field r "d").

(** Later dates first, missing dates last. *)
Definition date_desc (r1 r2 : row) : Prop :=
  match fst r1, fst r2 with
  | [CTime a], [CTime b] => (b <= a)%Z
  | [CTime _], [NA] => True
  | [NA], [NA] => True
  | _, _ => False
  end.

(** The cells of a record of prices, with the date converted. *)
Definition price_cell (E : Env) : record -> string -> cell :=
  in_column "d" (converted (to_datetime E)) field.

(** The table of the records [recs], renamed with [m], indexed by [date],
    latest first. *)
Record date_indexed (E : Env) (m : list (string * string)) (recs : list record)
       (df : DataFrame) : Prop := {
  di_index : index_names df = ["date"];
  di_columns : columns df = map CStr (map (rn m) (remove_key "d" (union_keys recs)));
  di_rows : Permutation (rows df)
                        (keyed_rows "d" (union_keys recs) (price_cell E) recs);
  di_sorted : Sorted date_desc (rows df)
}.

(** Every [i] of the payload is a number. *)
Definition numbered (recs : list record) : Prop :=
  forall r, In r recs -> is_number (field r "i").

(** The table of the records [recs], renamed with [m], with the dates
    converted, indexed by [insId] in ascending order. *)
Record instrument_indexed (E : Env) (m : list (string * string)) (recs : list record)
       (df : DataFrame) : Prop := {
  ii_index : index_names df = ["insId"];
  ii_columns : columns df = map CStr (map (rn m) (remove_key "i" (union_keys recs)));
  ii_rows : Permutation (rows df)
                        (keyed_rows "i" (union_keys recs) (price_cell E) recs);
  ii_sorted : Sorted (row_le true) (rows df)
}.

(** The request of this call is answered with status 200 and a document
    whose [envelope] field is a non-empty array of parents; [pulled] lists,
    for each parent, its flat records under [record_path] and its [meta]
    field. *)
Definition served_nested (E : Env) (s : Session) (w : World) (url : string) (kw : kwargs)
           (envelope record_path meta : string) (pulled : list (list record * cell))
  : Prop :=
  status_code (response_to E s w url kw) = 200%Z
  /\ exists fields items,
       resp_json (response_to E s w url kw) = Some (JObj fields)
       /\ Dict.get envelope fields = Some (JArr items)
       /\ items <> []
       /\ omap (pull record_path meta) items = Ret pulled.

(** Each record with the [meta] field of its parent. *)
Definition tagged (pulled : list (list record * cell)) : list (record * cell) :=
  flat_map (fun p => map (fun r => (r, snd p)) (fst p)) pulled.

Definition fill0 (c : cell) : cell := if is_NA c then CNum 0 else c.

(** The combined table of the prices of several instruments: renamed, not
    indexed, no value missing, the date as it came. *)
Record listed (pulled : list (list record * cell)) (df : DataFrame) : Prop := {
  li_index : index_names df = [];
  li_columns :
    columns df
    = map CStr (map (rn list_price_names) (union_keys (concat (map fst pulled)))
                ++ ["stock_id"]);
  li_rows :
    rows df
    = map (fun rm : record * cell =>
             ([], map fill0 (map (field (fst rm))
                                 (union_keys (concat (map fst pulled)))
                             ++ [snd rm])))
          (tagged pulled)
}.

Definition metadata_names : list (string * string) :=
  [("reportPropery", "reportProperty")].

(** Every [reportPropery] of the payload is a string. *)
Definition propertied (recs : list record) : Prop :=
  forall r, In r recs -> is_string (field r "reportPropery").

(** The cells of a record of report metadata, with the underscores of the
    property name stripped. *)
Definition metadata_cell : record -> string -> cell :=
  in_column "reportPropery" stripped field.

(** The table of report metadata: the misspelt column renamed, its values
    without underscores, and the index on it. *)
Record property_indexed (recs : list record) (df : DataFrame) : Prop := {
  pi_index : index_names df = ["reportProperty"];
  pi_columns : columns df = map CStr (remove_key "reportPropery" (union_keys recs));
  pi_rows : Permutation (rows df)
                        (keyed_rows "reportPropery" (union_keys recs) metadata_cell recs);
  pi_sorted : Sorted (row_le true) (rows df)
}.

(** Every [kpiId] of the payload is a number. *)
Definition kpi_numbered (recs : list record) : Prop :=
  forall r, In r recs -> is_number (field r "kpiId").

(** The table of KPI metadata: the payload as it came, indexed by [kpiId]. *)
Record kpi_indexed (recs : list record) (df : DataFrame) : Prop := {
  ki_index : index_names df = ["kpiId"];
  ki_columns : columns df = map CStr (remove_key "kpiId" (union_keys recs));
  ki_rows : Permutation (rows df) (keyed_rows "kpiId" (union_keys recs) field recs);
  ki_sorted : Sorted (row_le true) (rows df)
}.

(** *** Sample data of the examples *)

Definition digit (a : ascii) : option Z :=
  let n := Z.of_nat (nat_of_ascii a) in
  if ((48 <=? n) && (n <=? 57))%Z then Some (n - 48)%Z else None.

Fixpoint day_number (s : string) (acc : Z) : option Z :=
  match s with
  | EmptyString => Some acc
  | String a s' =>
      if Ascii.eqb a "-"%char then day_number s' acc
      else match digit a with
           | Some d => day_number s' (acc * 10 + d)%Z
           | None => None
           end
  end.

(** A stand-in for [pd.to_datetime] in the examples: the digits of an ISO
    date, read as one number. *)
Definition iso_day (c : cell) : option Z :=
  match c with
  | CStr s => day_number s 0
  | _ => None
  end.

(** An environment that answers every request with the document [j]. *)
Definition serving (j : json) : Env :=
  {| respond := fun _ _ => ok_response j;
     jitter := fun _ => 0;
     latency := fun _ => 0;
     to_datetime := iso_day |}.

Definition fresh_session : Session := __init__ (PStr "key").

Definition price (i : Z) (d : string) (c : Z) : json :=
  JObj [("i", JNum (inject_Z i)); ("d", JStr d); ("c", JNum (inject_Z c))].

Definition sample_prices : json :=
  JObj [("stockPricesList",
         JArr [price 3 "2020-09-24" 101; price 2 "2020-09-25" 99])].

Definition sample_price_records : list record :=
  [ [("i", CNum 3); ("d", CStr "2020-09-24"); ("c", CNum 101)];
    [("i", CNum 2); ("d", CStr "2020-09-25"); ("c", CNum 99)] ].

Definition sample_price_list : json :=
  JObj [("stockPricesArrayList",
         JArr [JObj [("instrument", JNum 2);
                     ("stockPricesList",
                      JArr [JObj [("d", JStr "2020-09-24"); ("c", JNum 10)];
                            JObj [("d", JStr "2020-09-25"); ("h", JNum 12)]])]])].

Definition sample_pulled : list (list record * cell) :=
  [ ([ [("d", CStr "2020-09-24"); ("c", CNum 10)];
       [("d", CStr "2020-09-25"); ("h", CNum 12)] ], CNum 2) ].

Definition sample_report_metadata : json :=
  JObj [("reportMetadatas",
         JArr [JObj [("reportPropery", JStr "net_income"); ("nameEn", JStr "Net income")]])].

Definition sample_kpi_metadata : json :=
  JObj [("kpiHistoryMetadatas",
         JArr [JObj [("kpiId", JNum 1); ("reportPropery", JStr "net_income")]])].

Definition kpi_values (kpi : Z) (values : list (Z * Z * Z)) : json :=
  JObj [("KpiId", JNum (inject_Z kpi));
        ("values",
         JArr (map (fun v => JObj [("y", JNum (inject_Z (fst (fst v))));
                                    ("p", JNum (inject_Z (snd (fst v))));
                                    ("v", JNum (inject_Z (snd v)))]) values))].

(** The example of the specification: one period, two KPIs. *)
Definition summary_one_period : json :=
  JObj [("kpis", JArr [kpi_values 10 [(2020, 1, 5)%Z]; kpi_values 11 [(2020, 1, 7)%Z]])].

(** Two periods of one KPI. *)
Definition summary_two_periods : json :=
  JObj [("kpis", JArr [kpi_values 10 [(2020, 1, 5)%Z; (2019, 1, 1)%Z]])].

Definition sample_frame : DataFrame :=
  {| index_names := [];
     columns := [CStr "year"; CStr "kpiValue"];
     rows := [([], [CNum 2020; CNum 5]); ([], [CNum 2019; CNum 1])] |}.

Definition sample_metadata_records : list record :=
  [ [("reportPropery", CStr "net_income"); ("nameEn", CStr "Net income")] ].

Definition sample_kpi_records : list record :=
  [ [("kpiId", CNum 1); ("reportPropery", CStr "net_income")] ].

(* ------------------------------------------------------------------ *)
(** ** Further vocabulary: the operations after the call *)

(** The [maxCount] an operation writes into the session, if any. *)
Definition own_max_count (o : op) : option pyval :=
  match o with
  | GetKpiSummary _ _ max_count | GetInstrumentReport _ _ max_count =>
      if negb (is_None max_count) then Some max_count else None
  | _ => None
  end.

(** The first key of the decoded document an operation reads. *)
Definition op_envelope (o : op) : string :=
  match o with
  | GetBranches => "branches"
  | GetCountries => "countries"
  | GetMarkets => "markets"
  | GetSectors => "sectors"
  | GetTranslationMetadata => "translationMetadatas"
  | GetInstruments => "instruments"
  | GetInstrumentsUpdated => "instruments"
  | GetInstrumentDescriptions _ => "list"
  | GetKpiHistory _ _ _ _ _ => "values"
  | GetKpiSummary _ _ _ => "kpis"
  | GetKpiDataInstrument _ _ _ _ => "value"
  | GetKpiDataAllInstruments _ _ _ => "values"
  | GetUpdatedKpis => "kpisCalcUpdated"
  | GetKpiMetadata => "kpiHistoryMetadatas"
  | GetInstrumentReport _ _ _ => "reports"
  | GetInstrumentReports _ => "reportsQuarter"
  | GetInstrumentReportList _ => "reportList"
  | GetReportsMetadata => "reportMetadatas"
  | GetReportCalendar _ => "list"
  | GetInstrumentStockPrices _ _ _ _ => "stockPricesList"
  | GetInstrumentStockPricesList _ _ _ => "stockPricesArrayList"
  | GetInstrumentsStockPricesLast => "stockPricesList"
  | GetStockPricesDate _ => "stockPricesList"
  | GetStockSplits => "stockSplitList"
  end.

(** The operations that hand back one table made of the array under their
    envelope key, and accept that array empty. *)
Definition tabular (o : op) : bool :=
  match o with
  | GetKpiSummary _ _ _ | GetUpdatedKpis | GetInstrumentReports _
  | GetInstrumentReportList _ | GetReportsMetadata => false
  | _ => true
  end.

(** An operation called by the program, [before] seconds after the previous
    statement returned. *)
Record invocation : Type := {
  before : Q;
  operation : op
}.

(** The operations are called one after the other; whatever one returns or
    raises, the program goes on to the next. *)
Fixpoint run_ops (E : Env) (l : list invocation) (s : Session) (w : World)
  : Session * World :=
  match l with
  | [] => (s, w)
  | i :: l' =>
      let x := (time_sleep (before i) ;;; run_op E (operation i)) s w in
      run_ops E l' (session_of x) (world_of x)
  end.

Definition sent (o : op) : nat := if rejected o then 0%nat else 1%nat.

Definition requests_of (l : list invocation) : nat :=
  fold_right (fun i n => (sent (operation i) + n)%nat) 0%nat l.

(** All the keyword arguments are [None]. *)
Definition all_None (kw : kwargs) : Prop :=
  forall k v, In (k, v) kw -> v = PNone.

Definition server_keys : list string := ["from"; "to"; "date"; "instList"].

(** Every declared index column is a column of the frame. *)
Definition present (index : index_spec) (df : DataFrame) : Prop :=
  forall name, In name (declared index) -> has_label (CStr name) (columns df) = true.

(** The rows of [df] once the columns at positions [ps] are the index. *)
Definition rekeyed (ps : list nat) (df : DataFrame) : list row :=
  map (fun r : row => (select ps (snd r), drop_at ps (snd r))) (rows df).

(** Two rows agree outside the cell at position [i]. *)
Definition same_but (i : nat) (r r' : row) : Prop :=
  fst r' = fst r
  /\ length (snd r') = length (snd r)
  /\ forall j, j <> i -> nth j (snd r') NA = nth j (snd r) NA.

Definition no_missing (df : DataFrame) : Prop :=
  forall r c, In r (rows df) -> In c (snd r) -> c <> NA.

Definition fifty_ids : list Z := map Z.of_nat (seq 1 50).

Definition empty_payload (envelope : string) : json :=
  JObj [(envelope, JArr [])].

Definition two_ops : list invocation :=
  [ {| before := 0; operation := GetInstrumentDescriptions fifty_one_ids |};
    {| before := 0; operation := GetBranches |};
    {| before := 1 # 100; operation := GetStockPricesDate (PStr "2020-09-25") |} ].

Definition mixed_frame : DataFrame :=
  {| index_names := [];
     columns := [CStr "date"; CStr "close"];
     rows := [([], [CStr "2020-09-24"; CNum 10]); ([], [NA; CNum 11]);
              ([], [CStr "2020-09-25"; CNum 12])] |}.



Definition sample_report_list : json :=
  JObj [("reportList",
         JArr [JObj [("instrument", JNum 3);
                     ("reportsYear",
                      JArr [JObj [("year", JNum 2019); ("period", JNum 5);
                                  ("Revenues", JNum 7)];
                            JObj [("year", JNum 2020); ("period", JNum 5);
                                  ("Revenues", JNum 9)]]);
                     ("reportsQuarter",
                      JArr [JObj [("year", JNum 2020); ("period", JNum 1);
                                  ("Revenues", JNum 2)]]);
                     ("reportsR12",
                      JArr [JObj [("year", JNum 2020); ("period", JNum 1);
                                  ("Revenues", JNum 8)]])]])].

(* ------------------------------------------------------------------ *)
(** ** Dictionaries: reading after writing *)

Lemma dict_get_set_eq {V : Type} (k : string) (v : V) (d : dict V) :
  Dict.get k (Dict.set k v d) = Some v.
Proof.
  induction d as [|[k' v'] d IH]; simpl.
  - now rewrite String.eqb_refl.
  - destruct (String.eqb k k') eqn:Hk; simpl; rewrite ?String.eqb_refl, ?Hk; auto.
Qed.

Lemma dict_get_set_ne {V : Type} (k k' : string) (v : V) (d : dict V) :
  k <> k' -> Dict.get k' (Dict.set k v d) = Dict.get k' d.
Proof.
  intros Hne. induction d as [|[k0 v0] d IH]; simpl.
  - destruct (String.eqb_spec k' k); congruence.
  - destruct (String.eqb_spec k k0) as [->|Hk0]; simpl.
    + destruct (String.eqb_spec k' k0); congruence.
    + destruct (String.eqb_spec k' k0); auto.
Qed.

Lemma dict_keys_set {V : Type} (k : string) (v : V) (d : dict V) :
  Dict.keys (Dict.set k v d) =
  if Dict.mem k d then Dict.keys d else Dict.keys d ++ [k].
Proof.
  unfold Dict.mem.
  induction d as [|[k' v'] d IH]; simpl; auto.
  destruct (String.eqb_spec k k') as [->|Hne]; simpl; auto.
  rewrite IH. now destruct (Dict.get k d).
Qed.

(* ------------------------------------------------------------------ *)
(** ** The parameter builder *)

Lemma say_nil (w : World) : say w [] = w.
Proof. destruct w; unfold say; simpl. now rewrite app_nil_r. Qed.

Lemma say_say (w : World) (l1 l2 : list output) : say (say w l1) l2 = say w (l1 ++ l2).
Proof. unfold say; simpl. now rewrite app_assoc. Qed.

Lemma iter_str_elements (v : pyval) :
  is_None v = false -> iterable v -> iter_str v = Ret (elements v).
Proof. destruct v; simpl; intros; try easy. Qed.

#[local] Arguments String.eqb : simpl never.

Ltac string_cases :=
  repeat match goal with
         | |- context [String.eqb ?a ?b] =>
             destruct (String.eqb_spec a b); subst; simpl; try congruence
         end.

(** One turn of the loop: what it returns, and what it prints. *)
Lemma get_params_step_spec (params : dict pyval) (k : string) (v : pyval)
      (s : Session) (w : World) :
  (k = "instList" -> iterable v) ->
  get_params_step params (k, v) s w =
  (Ret (override params (k, v)), s, say w (diagnostics [(k, v)])).
Proof.
  intros Hty.
  unfold get_params_step, override, diagnostics, unknown_param, recognized; simpl.
  destruct (is_None v) eqn:HN; simpl.
  { now rewrite say_nil. }
  destruct (String.eqb_spec k "from_date") as [->|H1]; simpl.
  { now rewrite say_nil. }
  destruct (String.eqb_spec k "to") as [->|H2]; simpl.
  { now rewrite say_nil. }
  destruct (String.eqb_spec k "date") as [->|H3]; simpl.
  { now rewrite say_nil. }
  destruct (String.eqb_spec k "instList") as [->|H4]; simpl.
  { unfold bind, lift. rewrite iter_str_elements by auto.
    unfold ret, comma_joined. now rewrite say_nil. }
  reflexivity.
Qed.

Lemma diagnostics_cons (kv : string * pyval) (kw : kwargs) :
  diagnostics (kv :: kw) = diagnostics [kv] ++ diagnostics kw.
Proof. unfold diagnostics; simpl. now destruct (unknown_param kv). Qed.

(** Reading one key after one override. *)
Lemma override_get (params : dict pyval) (k : string) (v : pyval) (k0 : string) :
  Dict.get k0 (override params (k, v)) =
  if is_None v then Dict.get k0 params
  else if (k =? "from_date")%string
       then (if (k0 =? "from")%string then Some v else Dict.get k0 params)
  else if ((k =? "to") || (k =? "date"))%string
       then (if (k0 =? k)%string then Some v else Dict.get k0 params)
  else if (k =? "instList")%string
       then (if (k0 =? "instList")%string then Some (comma_joined v)
             else Dict.get k0 params)
  else Dict.get k0 params.
Proof.
  unfold override. destruct (is_None v); auto.
  destruct (String.eqb_spec k "from_date") as [->|H1].
  { destruct (String.eqb_spec k0 "from") as [->|];
      [apply dict_get_set_eq | apply dict_get_set_ne; congruence]. }
  destruct (String.eqb_spec k "to") as [->|H2]; simpl.
  { destruct (String.eqb_spec k0 "to") as [->|];
      [apply dict_get_set_eq | apply dict_get_set_ne; congruence]. }
  destruct (String.eqb_spec k "date") as [->|H3]; simpl.
  { destruct (String.eqb_spec k0 "date") as [->|];
      [apply dict_get_set_eq | apply dict_get_set_ne; congruence]. }
  destruct (String.eqb_spec k "instList") as [->|H4]; simpl; auto.
  destruct (String.eqb_spec k0 "instList") as [->|];
    [apply dict_get_set_eq | apply dict_get_set_ne; congruence].
Qed.

Lemma get_params_loop_run (kw : kwargs) :
  well_typed kw ->
  forall (params : dict pyval) (s : Session) (w : World),
    get_params_loop kw params s w =
    (Ret (fold_left override kw params), s, say w (diagnostics kw)).
Proof.
  induction kw as [|[k v] kw IH]; intros Hty params s w.
  - simpl. now rewrite say_nil.
  - assert (Hty' : well_typed kw) by (intros v' Hin; apply Hty; now right).
    assert (Hkv : k = "instList" -> iterable v)
      by (intros ->; apply Hty; now left).
    cbn [get_params_loop fold_left]. unfold bind at 1.
    rewrite (get_params_step_spec params k v s w Hkv), (IH Hty').
    now rewrite say_say, <- diagnostics_cons.
Qed.

Lemma given_cons (k0 k : string) (v : pyval) (kw : kwargs) :
  given k0 ((k, v) :: kw) =
  match given k0 kw with
  | Some v' => Some v'
  | None => if (k0 =? k)%string && negb (is_None v) then Some v else None
  end.
Proof. reflexivity. Qed.

(** Reading the built dictionary, key by key. *)
Lemma overrides_get (kw : kwargs) :
  forall params : dict pyval,
    let params' := fold_left override kw params in
    Dict.get "from" params' =
       match given "from_date" kw with
       | Some v => Some v
       | None => Dict.get "from" params
       end
    /\ (forall k, k = "to" \/ k = "date" -> Dict.get k params' = overlay k kw params)
    /\ Dict.get "instList" params' =
       match given "instList" kw with
       | Some v => Some (comma_joined v)
       | None => Dict.get "instList" params
       end
    /\ (forall k, k <> "from" -> k <> "to" -> k <> "date" -> k <> "instList" ->
                  Dict.get k params' = Dict.get k params).
Proof.
  induction kw as [|[k v] kw IH]; intros params; cbn zeta.
  - unfold overlay; simpl; auto.
  - cbn [fold_left].
    destruct (IH (override params (k, v))) as (Hfrom & Htd & Hil & Hother).
    cbn zeta in *. unfold overlay in *. rewrite !given_cons.
    repeat split.
    + rewrite Hfrom. destruct (given "from_date" kw); auto.
      rewrite override_get. destruct (is_None v); simpl.
      * now rewrite andb_false_r.
      * rewrite andb_true_r. string_cases.
    + intros k0 Hk0. rewrite (Htd k0 Hk0), given_cons. destruct (given k0 kw); auto.
      rewrite override_get. destruct (is_None v); simpl.
      * now rewrite andb_false_r.
      * rewrite andb_true_r. destruct Hk0; subst; string_cases.
    + rewrite Hil. destruct (given "instList" kw); auto.
      rewrite override_get. destruct (is_None v); simpl.
      * now rewrite andb_false_r.
      * rewrite andb_true_r. string_cases.
    + intros k0 N1 N2 N3 N4. rewrite (Hother k0 N1 N2 N3 N4).
      rewrite override_get. destruct (is_None v); simpl; auto.
      string_cases.
Qed.

Lemma get_params_run (kw : kwargs) (s : Session) (w : World) :
  well_typed kw ->
  _get_params kw s w =
  (Ret (fold_left override kw (_params s)), s, say w (diagnostics kw)).
Proof.
  intros Hty. unfold _get_params, bind, self.
  now apply get_params_loop_run.
Qed.

(** C1, as amended.  For every keyword mapping whose [instList] value, if
    any, can be iterated, the parameter builder returns the base parameters
    with the overrides applied: a [from_date] that is not [None] is stored
    under the server key [from]; [to] and [date] are stored verbatim; an
    [instList] is stored as its elements joined with commas, in their
    order; no other key of the result differs from the base parameters (so
    [from_date] itself, [to_date] and every other key are left out); and one
    diagnostic line is printed, in order, for each key outside
    [from_date], [to], [date], [instList] whose value is not [None].  The
    session is not changed. *)
Theorem get_params_overlay (kw : kwargs) (s : Session) (w : World) :
  well_typed kw ->
  exists params,
    _get_params kw s w = (Ret params, s, say w (diagnostics kw))
    /\ Dict.get "from" params =
       match given "from_date" kw with
       | Some v => Some v
       | None => Dict.get "from" (_params s)
       end
    /\ (forall k, k = "to" \/ k = "date" ->
                  Dict.get k params = overlay k kw (_params s))
    /\ Dict.get "instList" params =
       match given "instList" kw with
       | Some v => Some (comma_joined v)
       | None => Dict.get "instList" (_params s)
       end
    /\ (forall k, k <> "from" -> k <> "to" -> k <> "date" -> k <> "instList" ->
                  Dict.get k params = Dict.get k (_params s)).
Proof.
  intros Hty. exists (fold_left override kw (_params s)).
  split; [now apply get_params_run|].
  apply (overrides_get kw (_params s)).
Qed.

Lemma sample_kwargs_well_typed : well_typed sample_kwargs.
Proof.
  intros v Hin. unfold sample_kwargs in Hin. simpl in Hin.
  repeat (destruct Hin as [Hin|Hin]; [inversion Hin; subst; simpl; auto|]).
  destruct Hin.
Qed.

Lemma get_params_overlay_witness :
  exists params,
    _get_params sample_kwargs (__init__ (PStr "key")) (world0 0) =
    (Ret params, __init__ (PStr "key"), say (world0 0) (diagnostics sample_kwargs))
    /\ Dict.get "from" params = Some (PStr "2022-01-01")
    /\ Dict.get "instList" params = Some (PStr "2,3,4,5")
    /\ Dict.get "to_date" params = None
    /\ Dict.get "from_date" params = None.
Proof.
  destruct (get_params_overlay sample_kwargs (__init__ (PStr "key")) (world0 0)
              sample_kwargs_well_typed)
    as (params & Hrun & Hfrom & _ & Hil & Hother).
  exists params. split; [exact Hrun|].
  split; [exact Hfrom|].
  split; [exact Hil|].
  split; apply Hother; discriminate.
Defined.

(** C1, as stated, fails: a [to_date] override is not used verbatim.  The
    builder prints the diagnostic and returns the base parameters, where the
    specification's builder stores the value under [to_date]. *)
Lemma get_params_to_date_counterexample :
  let kw := [("to_date", PStr "2023-01-01")] in
  let s := __init__ (PStr "key") in
  _get_params kw s (world0 0) = (Ret (_params s), s, say (world0 0) [diagnostic ("to_date", PStr "2023-01-01")])
  /\ Dict.get "to_date" (spec_build (_params s) kw) = Some (PStr "2023-01-01")
  /\ spec_diagnostics kw = []
  /\ _get_params kw s (world0 0)
     <> (Ret (spec_build (_params s) kw), s, say (world0 0) (spec_diagnostics kw)).
Proof.
  cbv zeta. repeat split; try reflexivity.
  intros H. vm_compute in H. discriminate H.
Qed.

(* ------------------------------------------------------------------ *)
(** ** One call of the API *)

(** [_call_api] in closed form: it waits, builds the parameters, sends one
    request, stamps the session with the clock read after the response, and
    hands back the decoded document or the response. *)
Lemma call_api_run (E : Env) (url : string) (kw : kwargs) (s : Session) (w : World) :
  _api_calls_per_second s <> 0%Z ->
  well_typed kw ->
  _call_api E url kw s w =
  (answer (response_to E s w url kw),
   stamp s (request_end E s w),
   after_call E s w url kw).
Proof.
  intros Hcps Hty.
  unfold _call_api, after_call, response_to, request_end, request_start,
    throttle_until, request_for, answer, api_error_lines.
  unfold bind at 1. unfold time_time at 1.
  unfold bind at 1. unfold self at 1.
  destruct (Z.eqb_spec (_api_calls_per_second s) 0) as [H0|_]; [contradiction|].
  unfold bind at 1.
  destruct (Qlt_le_dec (clock w - _last_api_call s)
                       (1 / inject_Z (_api_calls_per_second s))) as [Hlt|Hge].
  - unfold time_sleep. unfold bind at 1.
    rewrite get_params_run by assumption.
    unfold bind, requests_get, print, time_time, set_last_api_call, say, stamp, ret, raise;
      simpl.
    destruct (negb (status_code _ =? 200)%Z); simpl.
    + now rewrite <- !app_assoc.
    + destruct (resp_json _); simpl; now rewrite <- !app_assoc, ?app_nil_r.
  - unfold ret at 1. unfold bind at 1.
    rewrite get_params_run by assumption.
    unfold bind, requests_get, print, time_time, set_last_api_call, say, stamp, ret, raise;
      simpl.
    destruct (negb (status_code _ =? 200)%Z); simpl.
    + now rewrite <- !app_assoc.
    + destruct (resp_json _); simpl; now rewrite <- !app_assoc, ?app_nil_r.
Qed.

(* ------------------------------------------------------------------ *)
(** ** Throttling *)

Lemma throttle_until_clock (s : Session) (w : World) :
  _api_calls_per_second s = 10%Z -> clock w <= throttle_until s w.
Proof.
  intros H. unfold throttle_until. rewrite H.
  change (1 / inject_Z 10) with (1 # 10).
  destruct (Qlt_le_dec _ _); lra.
Qed.

Lemma throttle_until_last (s : Session) (w : World) :
  _api_calls_per_second s = 10%Z ->
  _last_api_call s + (1 # 10) <= throttle_until s w.
Proof.
  intros H. unfold throttle_until. rewrite H.
  change (1 / inject_Z 10) with (1 # 10).
  destruct (Qlt_le_dec _ _); lra.
Qed.

Lemma spaced_snoc (d : Q) (ts : list Q) (x : Q) :
  spaced d ts -> Forall (fun t => t + d <= x) ts -> spaced d (ts ++ [x]).
Proof.
  unfold spaced. induction 1 as [|a l Ha Hl IH]; intros Hx; simpl.
  - constructor; constructor.
  - inversion Hx; subst. constructor; auto.
    apply Forall_app; split; auto.
Qed.

(** One well-formed call of a sequence. *)
Lemma call_step (E : Env) (c : call) (s : Session) (w : World) :
  _api_calls_per_second s <> 0%Z ->
  well_formed c ->
  (time_sleep (idle c) ;;; _call_api E (call_url c) (call_kwargs c)) s w =
  (answer (response_to E s (pause (idle c) w) (call_url c) (call_kwargs c)),
   stamp s (request_end E s (pause (idle c) w)),
   after_call E s (pause (idle c) w) (call_url c) (call_kwargs c)).
Proof.
  intros Hcps [_ Hty]. unfold bind at 1, time_sleep at 1.
  now apply call_api_run.
Qed.

Lemma call_keeps_throttled (E : Env) (c : call) (s : Session) (w : World) :
  physical E -> well_formed c -> throttled s w ->
  let w1 := pause (idle c) w in
  throttled (stamp s (request_end E s w1))
            (after_call E s w1 (call_url c) (call_kwargs c))
  /\ clock w <= request_end E s w1
  /\ _last_api_call s + (1 # 10) <= request_end E s w1.
Proof.
  intros [Hj Hl] [Hidle _] [Hrate Hsp Hpast]. cbv zeta.
  pose proof (throttle_until_clock s (pause (idle c) w) Hrate) as H1.
  pose proof (throttle_until_last s (pause (idle c) w) Hrate) as H2.
  pose proof (Hj (length (wire (pause (idle c) w)))) as H3.
  pose proof (Hl (length (wire (pause (idle c) w)))) as H4.
  simpl in H1, H3, H4.
  split; [constructor|split].
  - exact Hrate.
  - unfold starts, after_call, request_start; simpl. rewrite map_app; simpl.
    apply spaced_snoc; auto.
    eapply Forall_impl; [|exact Hpast]. simpl. intros t Ht. lra.
  - unfold starts, after_call, request_end, request_start; simpl.
    rewrite map_app; simpl.
    apply Forall_app; split.
    + eapply Forall_impl; [|exact Hpast]. simpl. intros t Ht. lra.
    + constructor; [lra|constructor].
  - unfold request_end, request_start; simpl. lra.
  - unfold request_end, request_start; simpl. lra.
Qed.

Lemma of_nat_succ (n : nat) :
  inject_Z (Z.of_nat (S n)) == inject_Z (Z.of_nat n) + 1.
Proof. rewrite Nat2Z.inj_succ, <- Z.add_1_r, inject_Z_plus. reflexivity. Qed.

Lemma run_calls_throttled (E : Env) (cs : list call) :
  physical E -> Forall well_formed cs ->
  forall (s : Session) (w : World),
    throttled s w ->
    let x := run_calls E cs s w in
    throttled (fst x) (snd x)
    /\ length (wire (snd x)) = (length (wire w) + length cs)%nat
    /\ (cs <> [] ->
        _last_api_call (fst x) = clock (snd x)
        /\ clock w + (inject_Z (Z.of_nat (length cs)) - 1) * (1 # 10) <= clock (snd x)
        /\ _last_api_call s + inject_Z (Z.of_nat (length cs)) * (1 # 10)
           <= clock (snd x)).
Proof.
  intros HE. induction 1 as [|c cs Hc Hcs IH]; intros s w Hth; cbv zeta.
  - simpl. split; [exact Hth|]. split; [lia|]. intros H. now elim H.
  - cbn [run_calls].
    assert (Hcps : _api_calls_per_second s <> 0%Z)
      by (rewrite (th_rate s w Hth); discriminate).
    rewrite (call_step E c s w Hcps Hc).
    unfold session_of, world_of. cbn [fst snd].
    destruct (call_keeps_throttled E c s w HE Hc Hth) as (Hth1 & Hclock & Hlast).
    cbv zeta in Hth1, Hclock, Hlast.
    set (w1 := pause (idle c) w) in *.
    set (s' := stamp s (request_end E s w1)) in *.
    set (w' := after_call E s w1 (call_url c) (call_kwargs c)) in *.
    destruct (IH s' w' Hth1) as (Hth2 & Hlen & Hrest). cbv zeta in Hth2, Hlen, Hrest.
    split; [exact Hth2|]. split.
    + rewrite Hlen. subst w' w1. simpl. rewrite length_app. simpl. lia.
    + intros _. cbn [length]. rewrite of_nat_succ.
      destruct cs as [|c' cs'].
      * simpl. subst s' w'. simpl. change (inject_Z 0) with 0.
        repeat split; lra.
      * destruct Hrest as (Hstamp & _ & Hfar); [discriminate|].
        split; [exact Hstamp|].
        assert (Hs' : _last_api_call s' = request_end E s w1) by reflexivity.
        rewrite Hs' in Hfar.
        split; lra.
Qed.

(** C9.  Time is read off the world's clock, in exact arithmetic, and the
    environment never makes it run backwards.  For every sequence of N
    calls of the API on a session with [_api_calls_per_second = 10], started
    with no request on the wire: no two requests begin less than 1/10
    second apart; exactly N requests are sent; the clock advances by at
    least (N-1)/10 seconds over the sequence; and after each call of the
    sequence the last-call timestamp of the session is the clock. *)
Theorem throttle_spacing (E : Env) (cs : list call) (s : Session) (w : World) :
  physical E ->
  Forall well_formed cs ->
  _api_calls_per_second s = 10%Z ->
  wire w = [] ->
  let x := run_calls E cs s w in
  spaced (1 # 10) (starts (snd x))
  /\ length (wire (snd x)) = length cs
  /\ (inject_Z (Z.of_nat (length cs)) - 1) * (1 # 10) <= clock (snd x) - clock w
  /\ (forall cs1 c cs2, cs = cs1 ++ c :: cs2 ->
       let y := run_calls E (cs1 ++ [c]) s w in
       _last_api_call (fst y) = clock (snd y)).
Proof.
  intros HE Hcs Hrate Hwire. cbv zeta.
  assert (Hth : throttled s w).
  { constructor; auto; unfold starts; rewrite Hwire; simpl; constructor. }
  destruct (run_calls_throttled E cs HE Hcs s w Hth) as (Hth' & Hlen & Hrest).
  cbv zeta in Hth', Hlen, Hrest.
  split; [apply Hth'|]. split; [rewrite Hlen, Hwire; reflexivity|]. split.
  - destruct cs as [|c cs'].
    + simpl. change (inject_Z 0) with 0. lra.
    + destruct Hrest as (_ & Hfar & _); [discriminate|]. lra.
  - intros cs1 c cs2 Heq.
    assert (Hpre : Forall well_formed (cs1 ++ [c])).
    { rewrite Heq in Hcs. apply Forall_app in Hcs. destruct Hcs as [H1 H2].
      apply Forall_app; split; auto. inversion H2; subst. constructor; auto. }
    destruct (run_calls_throttled E (cs1 ++ [c]) HE Hpre s w Hth) as (_ & _ & Hlast).
    apply Hlast. destruct cs1; discriminate.
Qed.

Lemma throttle_spacing_witness :
  let x := run_calls (quiet_env not_found) three_calls (__init__ (PStr "key")) (world0 0) in
  spaced (1 # 10) (starts (snd x))
  /\ length (wire (snd x)) = 3%nat
  /\ (inject_Z 3 - 1) * (1 # 10) <= clock (snd x) - 0
  /\ _last_api_call (fst x) = clock (snd x).
Proof.
  assert (HE : physical (quiet_env not_found)).
  { split; intros n; simpl; lra. }
  assert (Hcs : Forall well_formed three_calls).
  { unfold three_calls.
    repeat constructor; simpl; try lra;
      intros v Hin; simpl in Hin;
      repeat (destruct Hin as [Hin|Hin]; [discriminate Hin|]); destruct Hin. }
  destruct (throttle_spacing (quiet_env not_found) three_calls
              (__init__ (PStr "key")) (world0 0) HE Hcs eq_refl eq_refl)
    as (H1 & H2 & H3 & H4).
  cbv zeta. split; [exact H1|]. split; [exact H2|]. split; [exact H3|].
  exact (H4 [ {| idle := 0; call_url := "branches"; call_kwargs := [] |};
              {| idle := 1 # 20; call_url := "markets"; call_kwargs := [] |} ]
            {| idle := 1; call_url := "instruments/stockprices/date";
               call_kwargs := [("date", PStr "2020-09-25")] |}
            [] eq_refl).
Defined.

(* ------------------------------------------------------------------ *)
(** ** Every operation is one call of the API and a local continuation *)

Lemma local_ret {A} (a : A) : local (ret a).
Proof. intros s w. exists []. now rewrite say_nil. Qed.

Lemma local_lift {A} (x : outcome A) : local (lift x).
Proof. intros s w. exists []. now rewrite say_nil. Qed.

Lemma local_print (o : output) : local (print o).
Proof. intros s w. exists [o]. auto. Qed.

Lemma local_bind {A B} (m : M A) (f : A -> M B) :
  local m -> (forall a, local (f a)) -> local (bind m f).
Proof.
  intros Hm Hf s w. destruct (Hm s w) as (l1 & Hs & Hw).
  unfold bind, session_of, world_of in *.
  destruct (m s w) as [[[a|e|] s1] w1]; simpl in *; subst.
  - destruct (Hf a s (say w l1)) as (l2 & Hs2 & Hw2).
    exists (l1 ++ l2). unfold session_of, world_of in *.
    now rewrite Hs2, Hw2, say_say.
  - now exists l1.
  - now exists l1.
Qed.

Ltac local_steps :=
  repeat first
    [ apply local_ret | apply local_lift | apply local_print
    | apply local_bind; [|intro]
    | match goal with
      | |- local (match ?x with _ => _ end) => destruct x
      end ].

(** What an operation does once [_call_api] is reached. *)
Lemma bind_call_api {A} (E : Env) (url : string) (kw : kwargs)
      (k : apiresult -> M A) (s : Session) (w : World) :
  _api_calls_per_second s <> 0%Z ->
  well_typed kw ->
  (forall a, local (k a)) ->
  let x := bind (_call_api E url kw) k s w in
  session_of x = stamp s (request_end E s w)
  /\ clock (world_of x) = request_end E s w
  /\ wire (world_of x) = wire w ++ [(request_start E s w, request_for s url kw)]
  /\ (needs_json k ->
      status_code (response_to E s w url kw) <> 200%Z ->
      outcome_of x = Raise TypeError).
Proof.
  intros Hcps Hty Hk. cbv zeta. unfold bind.
  rewrite call_api_run by assumption.
  unfold answer.
  destruct (Z.eqb_spec (status_code (response_to E s w url kw)) 200) as [H200|H200];
    simpl.
  - destruct (resp_json (response_to E s w url kw)) as [j|]; simpl.
    + destruct (Hk (Json j) (stamp s (request_end E s w)) (after_call E s w url kw))
        as (lines & Hs & Hw).
      rewrite Hs, Hw. simpl. repeat split; auto. intros _ H; contradiction.
    + repeat split; auto. intros _ H; contradiction.
  - destruct (Hk (Resp (response_to E s w url kw)) (stamp s (request_end E s w))
                 (after_call E s w url kw)) as (lines & Hs & Hw).
    rewrite Hs, Hw. simpl. repeat split; auto.
Qed.

Lemma op_kwargs_well_typed (o : op) : well_typed (op_kwargs o).
Proof.
  intros v Hin. destruct o; simpl in Hin;
    repeat (destruct Hin as [Hin|Hin]; [inversion Hin; subst; exact I|]);
    destruct Hin.
Qed.

Lemma prepared_rate (o : op) (s : Session) :
  _api_calls_per_second (prepared o s) = _api_calls_per_second s.
Proof. destruct o; simpl; auto; destruct (negb (is_None max_count)); auto. Qed.

Ltac well_typed_literal :=
  let v := fresh "v" in
  let Hin := fresh "Hin" in
  intros v Hin; simpl in Hin;
  repeat (destruct Hin as [Hin|Hin]; [inversion Hin; subst; exact I|]);
  destruct Hin.

Ltac after_call_api :=
  match goal with
  | Hcps : _api_calls_per_second ?s <> 0%Z
    |- context [bind (_call_api ?E ?url ?kw) ?k ?s ?w] =>
      let Hty := fresh "Hty" in
      let Hk := fresh "Hk" in
      assert (Hty : well_typed kw) by well_typed_literal;
      assert (Hk : forall a, local (k a)) by (intro; local_steps);
      destruct (bind_call_api E url kw k s w Hcps Hty Hk) as (Hs & Hc & Hw & Ho);
      repeat split;
      [ exact Hs | exact Hc | exact Hw
      | apply Ho; intros r s0 w0; reflexivity ]
  end.

Lemma with_params_rate (s : Session) (params : dict pyval) :
  _api_calls_per_second s <> 0%Z ->
  _api_calls_per_second (with_params s params) <> 0%Z.
Proof. auto. Qed.

(** The shape of every operation: a rejected batch returns [None] at once;
    any other operation prepares the session, calls the API once, and goes
    on locally; it cannot go on with anything but a decoded document. *)
Lemma op_run (E : Env) (o : op) (s : Session) (w : World) :
  _api_calls_per_second s <> 0%Z ->
  if rejected o then run_op E o s w = (Ret RNone, s, w)
  else
    let s1 := prepared o s in
    let x := run_op E o s w in
    session_of x = stamp s1 (request_end E s1 w)
    /\ clock (world_of x) = request_end E s1 w
    /\ wire (world_of x) =
       wire w ++ [(request_start E s1 w, request_for s1 (op_url o) (op_kwargs o))]
    /\ (status_code (response_to E s1 w (op_url o) (op_kwargs o)) <> 200%Z ->
        outcome_of x = Raise TypeError).
Proof.
  intros Hcps.
  destruct o; cbn [rejected run_op prepared op_url op_kwargs]; cbv zeta.
  all: try (unfold get_branches, get_countries, get_markets, get_sectors,
           get_translation_metadata, get_instruments, get_instruments_updated,
           get_kpi_data_instrument, get_kpi_data_all_instruments,
           get_updated_kpis, get_kpi_metadata, get_instrument_reports,
           get_instrument_report_list, get_reports_metadata, get_report_calendar,
           get_instrument_stock_prices, get_instrument_stock_prices_list,
           get_instruments_stock_prices_last, get_stock_prices_date,
           get_stock_splits;
         cbv zeta; after_call_api).
  - (* descriptions *)
    unfold get_instrument_descriptions.
    destruct (50 <? length ins_ids)%nat; [reflexivity|].
    cbv zeta. after_call_api.
  - (* KPI history: the local parameters are built and dropped *)
    unfold get_kpi_history. cbv zeta.
    unfold bind at 1. unfold _get_base_params at 1. unfold bind at 1, self at 1, ret at 1.
    after_call_api.
  - (* KPI summary *)
    unfold get_kpi_summary. cbv zeta. unfold bind at 1.
    destruct (negb (is_None max_count)); unfold set_param, ret at 1;
      [apply (with_params_rate s (Dict.set "maxCount" max_count (_params s))) in Hcps|];
      after_call_api.
  - (* report *)
    unfold get_instrument_report. cbv zeta. unfold bind at 1.
    destruct (negb (is_None max_count)); unfold set_param, ret at 1;
      [apply (with_params_rate s (Dict.set "maxCount" max_count (_params s))) in Hcps|];
      after_call_api.
Qed.

(** The session after an operation: only the timestamp and, through
    [prepared], the [maxCount] entry of the parameters can differ. *)
Lemma op_frame (E : Env) (o : op) (s : Session) (w : World) :
  _api_calls_per_second s <> 0%Z ->
  let s' := session_of (run_op E o s w) in
  _api_key s' = _api_key s
  /\ _url_root s' = _url_root s
  /\ _api_calls_per_second s' = _api_calls_per_second s
  /\ _params s' = (if rejected o then _params s else _params (prepared o s)).
Proof.
  intros Hcps. pose proof (op_run E o s w Hcps) as H. cbv zeta in *.
  destruct (rejected o).
  - rewrite H. simpl. auto.
  - destruct H as (Hs & _). rewrite Hs.
    destruct o; simpl; auto; destruct (negb (is_None max_count)); simpl; auto.
Qed.

(** C3.  What the code does with [max_count]: [get_kpi_summary] and
    [get_instrument_report] write it into the parameters of the session,
    where it stays.  On a fresh session the [maxCount] entry is [n]
    afterwards, not 20. *)
Theorem max_count_persists (E : Env) (key ins_id report_type : pyval) (n : Z) (w : World) :
  let s := __init__ key in
  let persisted := [("authKey", key); ("maxYearCount", PInt 20);
                    ("maxR12QCount", PInt 40); ("maxCount", PInt n)] in
  _params (session_of (get_kpi_summary E ins_id report_type (PInt n) s w)) = persisted
  /\ _params (session_of (get_instrument_report E ins_id report_type (PInt n) s w))
     = persisted.
Proof.
  cbv zeta.
  assert (Hcps : _api_calls_per_second (__init__ key) <> 0%Z) by discriminate.
  split.
  - destruct (op_frame E (GetKpiSummary ins_id report_type (PInt n)) (__init__ key) w Hcps)
      as (_ & _ & _ & H). exact H.
  - destruct (op_frame E (GetInstrumentReport ins_id report_type (PInt n)) (__init__ key) w Hcps)
      as (_ & _ & _ & H). exact H.
Qed.

(** C2.  What the code does with a batch of more than 50 ids:
    [get_instrument_descriptions] returns [None] without a request, and
    [get_report_calendar] sends the request with all the ids. *)
Theorem report_calendar_unchecked (E : Env) (ins_ids : list Z) (s : Session) (w : World) :
  _api_calls_per_second s <> 0%Z ->
  (50 < length ins_ids)%nat ->
  get_instrument_descriptions E ins_ids s w = (Ret RNone, s, w)
  /\ wire (world_of (get_report_calendar E ins_ids s w)) =
     wire w ++ [(request_start E s w,
                 request_for s "instruments/report/calendar"
                             [("instList", PList ins_ids)])]
  /\ Dict.get "instList"
       (req_params (request_for s "instruments/report/calendar"
                                [("instList", PList ins_ids)]))
     = Some (PStr (String.concat "," (map str_of_Z ins_ids))).
Proof.
  intros Hcps Hlen. split; [|split].
  - pose proof (op_run E (GetInstrumentDescriptions ins_ids) s w Hcps) as H.
    cbn [rejected] in H. apply Nat.ltb_lt in Hlen. rewrite Hlen in H. exact H.
  - pose proof (op_run E (GetReportCalendar ins_ids) s w Hcps) as H.
    cbn [rejected] in H. cbv zeta in H. apply H.
  - unfold request_for. cbn [req_params fold_left override is_None].
    string_cases. apply dict_get_set_eq.
Qed.

Lemma report_calendar_unchecked_witness :
  (50 < length fifty_one_ids)%nat
  /\ get_instrument_descriptions (quiet_env not_found) fifty_one_ids
       (__init__ (PStr "key")) (world0 0)
     = (Ret RNone, __init__ (PStr "key"), world0 0)
  /\ length (wire (world_of (get_report_calendar (quiet_env not_found) fifty_one_ids
                              (__init__ (PStr "key")) (world0 0)))) = 1%nat.
Proof.
  assert (Hlen : (50 < length fifty_one_ids)%nat) by (vm_compute; lia).
  assert (Hcps : _api_calls_per_second (__init__ (PStr "key")) <> 0%Z) by discriminate.
  destruct (report_calendar_unchecked (quiet_env not_found) fifty_one_ids
              (__init__ (PStr "key")) (world0 0) Hcps Hlen) as (H1 & H2 & _).
  split; [exact Hlen|]. split; [exact H1|].
  rewrite H2. reflexivity.
Defined.

(** C4.  What the code does when the status is not 200: [_call_api] hands
    the response object back, and every operation that reached the API
    raises [TypeError] on subscripting it; one request was sent. *)
Theorem non_200_raises_TypeError (E : Env) (o : op) (s : Session) (w : World) :
  _api_calls_per_second s <> 0%Z ->
  rejected o = false ->
  status_code (response_to E (prepared o s) w (op_url o) (op_kwargs o)) <> 200%Z ->
  outcome_of (run_op E o s w) = Raise TypeError
  /\ wire (world_of (run_op E o s w)) =
     wire w ++ [(request_start E (prepared o s) w,
                 request_for (prepared o s) (op_url o) (op_kwargs o))].
Proof.
  intros Hcps Hrej Hstatus.
  pose proof (op_run E o s w Hcps) as H. rewrite Hrej in H. cbv zeta in H.
  destruct H as (_ & _ & Hw & Ho). split; auto.
Qed.

Lemma non_200_raises_TypeError_witness :
  outcome_of (get_branches (quiet_env not_found) (__init__ (PStr "key")) (world0 0))
  = Raise TypeError
  /\ length (wire (world_of (get_branches (quiet_env not_found)
                               (__init__ (PStr "key")) (world0 0)))) = 1%nat.
Proof.
  assert (Hcps : _api_calls_per_second (__init__ (PStr "key")) <> 0%Z) by discriminate.
  assert (Hst : status_code
                  (response_to (quiet_env not_found)
                     (prepared GetBranches (__init__ (PStr "key"))) (world0 0)
                     (op_url GetBranches) (op_kwargs GetBranches)) <> 200%Z)
    by discriminate.
  destruct (non_200_raises_TypeError (quiet_env not_found) GetBranches
              (__init__ (PStr "key")) (world0 0) Hcps eq_refl Hst) as (H1 & H2).
  split; [exact H1|].
  change (run_op (quiet_env not_found) GetBranches) with (get_branches (quiet_env not_found)) in H2.
  rewrite H2. reflexivity.
Defined.

(** C10.  [get_kpi_history] does the same for any two values of
    [max_count]: the same request with the same parameters, the same
    result, the same session and world afterwards.  The parameters it
    builds from [max_count] never reach the request. *)
Theorem kpi_history_ignores_max_count
        (E : Env) (ins_id kpi_id report_type price_type m1 m2 : pyval)
        (s : Session) (w : World) :
  get_kpi_history E ins_id kpi_id report_type price_type m1 s w
  = get_kpi_history E ins_id kpi_id report_type price_type m2 s w.
Proof.
  unfold get_kpi_history. cbv zeta.
  unfold bind at 1. unfold bind at 3.
  unfold _get_base_params, bind, self, ret. reflexivity.
Qed.

(* ------------------------------------------------------------------ *)
(** ** Order of the rows *)

Lemma cell_eqb_sym (a b : cell) : cell_eqb a b = cell_eqb b a.
Proof.
  destruct a, b; simpl; auto using Qeq_bool_comm, String.eqb_sym, Z.eqb_sym;
    repeat match goal with |- context [if ?b then _ else _] => destruct b end;
    auto using Qeq_bool_comm.
Qed.

Lemma Qle_bool_total (x y : Q) : Qle_bool x y = false -> Qle_bool y x = true.
Proof.
  intros H. apply Qle_bool_iff.
  destruct (Qlt_le_dec x y) as [Hlt|Hle]; auto.
  apply Qlt_le_weak in Hlt. apply Qle_bool_iff in Hlt. congruence.
Qed.

Lemma string_leb_total (x y : string) : String.leb x y = false -> String.leb y x = true.
Proof.
  unfold String.leb. rewrite (String.compare_antisym y x).
  destruct (String.compare x y); simpl; congruence.
Qed.

Lemma cell_leb_total (ascending : bool) (a b : cell) :
  cell_leb ascending a b = false -> cell_leb ascending b a = true.
Proof.
  destruct a, b, ascending; simpl; try congruence;
    repeat match goal with |- context [if ?b then _ else _] => destruct b end;
    auto using Qle_bool_total, string_leb_total;
    intros H; apply Z.leb_gt in H; apply Z.leb_le; lia.
Qed.

Lemma key_leb_total (ascending : bool) (k1 k2 : list cell) :
  key_leb ascending k1 k2 = false -> key_leb ascending k2 k1 = true.
Proof.
  revert k2. induction k1 as [|a k1 IH]; intros [|b k2]; simpl; try congruence.
  rewrite (cell_eqb_sym b a).
  destruct (cell_eqb a b); auto using cell_leb_total.
Qed.

Lemma insert_row_perm (ascending : bool) (r : row) (l : list row) :
  Permutation (insert_row ascending r l) (r :: l).
Proof.
  induction l as [|x l IH]; simpl; auto.
  destruct (key_leb ascending (fst r) (fst x)); auto.
  rewrite IH. apply perm_swap.
Qed.

Lemma sort_rows_perm (ascending : bool) (l : list row) :
  Permutation (sort_rows ascending l) l.
Proof.
  induction l as [|r l IH]; simpl; auto.
  rewrite insert_row_perm. now constructor.
Qed.

Lemma insert_row_sorted (ascending : bool) (r : row) (l : list row) :
  Sorted (row_le ascending) l -> Sorted (row_le ascending) (insert_row ascending r l).
Proof.
  induction 1 as [|x l Hl IH Hhd]; simpl.
  - repeat constructor.
  - destruct (key_leb ascending (fst r) (fst x)) eqn:Hrx.
    + constructor; [constructor; auto|]. constructor. exact Hrx.
    + constructor; auto.
      apply key_leb_total in Hrx.
      destruct l as [|y l]; simpl.
      * constructor. exact Hrx.
      * destruct (key_leb ascending (fst r) (fst y)); constructor; auto.
        now inversion Hhd.
Qed.

Lemma sort_rows_sorted (ascending : bool) (l : list row) :
  Sorted (row_le ascending) (sort_rows ascending l).
Proof.
  induction l as [|r l IH]; simpl; [constructor|].
  now apply insert_row_sorted.
Qed.

Lemma sort_rows_length (ascending : bool) (l : list row) :
  length (sort_rows ascending l) = length l.
Proof. apply Permutation_length, sort_rows_perm. Qed.

(* ------------------------------------------------------------------ *)
(** ** Setting the index *)

Lemma forallb_absent (names : list string) (cols : list cell) (name : string) :
  In name names -> has_label (CStr name) cols = false ->
  forallb (fun idx => has_label (CStr idx) cols) names = false.
Proof.
  intros Hin Habs. induction names as [|n names IH]; [destruct Hin|].
  simpl. destruct Hin as [->|Hin].
  - now rewrite Habs.
  - rewrite (IH Hin). apply andb_false_r.
Qed.

(** C8.  For every table, every index specification (one column or a list
    of columns) and either sort direction: if some declared index column is
    not a column of the table, [_set_index] returns the table as it was
    given (same index, same columns, same rows) and raises nothing. *)
Theorem set_index_absent_noop (df : DataFrame) (index : index_spec) (ascending : bool) :
  absent index df ->
  _set_index df index ascending = Ret df.
Proof.
  intros (name & Hin & Habs). destruct index as [n|names]; simpl in *.
  - destruct Hin as [->|[]]. now rewrite Habs.
  - now rewrite (forallb_absent names (columns df) name Hin Habs).
Qed.

(* ------------------------------------------------------------------ *)
(** ** Columns with string labels *)

Lemma position_strings (k : string) (ks : list string) :
  position (CStr k) (map CStr ks) = find_key k ks.
Proof.
  induction ks as [|k' ks IH]; simpl; auto.
  now rewrite IH.
Qed.

Lemma has_label_position (c : cell) (cols : list cell) :
  has_label c cols = match position c cols with Some _ => true | None => false end.
Proof.
  induction cols as [|c' cols IH]; simpl; auto.
  destruct (cell_eqb c c'); simpl; auto.
  rewrite IH. now destruct (position c cols).
Qed.

Lemma find_key_None (k : string) (ks : list string) :
  find_key k ks = None <-> ~ In k ks.
Proof.
  induction ks as [|k' ks IH]; simpl; [tauto|].
  destruct (String.eqb_spec k k') as [->|Hne].
  - split; [discriminate|]. intros H; exfalso; apply H; now left.
  - destruct (find_key k ks) as [j|]; simpl.
    + split; [discriminate|]. intros H. exfalso.
      assert (Hnot : ~ In k ks) by tauto.
      apply IH in Hnot. discriminate.
    + split; auto. intros _ [H|H]; [congruence|]. now apply (proj1 IH eq_refl).
Qed.

Lemma find_key_In (k : string) (ks : list string) :
  In k ks -> exists i, find_key k ks = Some i.
Proof.
  intros Hin. destruct (find_key k ks) as [i|] eqn:H; eauto.
  apply find_key_None in H. contradiction.
Qed.

Lemma find_key_lt (k : string) (ks : list string) (i : nat) :
  find_key k ks = Some i -> (i < length ks)%nat.
Proof.
  revert i. induction ks as [|k' ks IH]; simpl; intros i; [discriminate|].
  destruct (String.eqb k k').
  - intros [= <-]. lia.
  - destruct (find_key k ks) as [j|]; simpl; [|discriminate].
    intros [= <-]. specialize (IH j eq_refl). lia.
Qed.

Lemma nth_find_key {B} (f : string -> B) (d : B) (k : string) (ks : list string) (i : nat) :
  find_key k ks = Some i -> nth i (map f ks) d = f k.
Proof.
  revert i. induction ks as [|k' ks IH]; simpl; intros i; [discriminate|].
  destruct (String.eqb_spec k k') as [->|Hne].
  - now intros [= <-].
  - destruct (find_key k ks) as [j|]; simpl; [|discriminate].
    intros [= <-]. now apply IH.
Qed.

Lemma unique_strings (ks : list string) :
  NoDup ks -> unique_labels (map CStr ks) = true.
Proof.
  induction 1 as [|k ks Hk Hks IH]; simpl; auto.
  rewrite IH, andb_true_r, has_label_position, position_strings.
  apply find_key_None in Hk. now rewrite Hk.
Qed.

Lemma rename_strings (m : list (string * string)) (ks : list string) :
  map (rename_label m) (map CStr ks) = map CStr (map (rn m) ks).
Proof.
  rewrite !map_map. apply map_ext. intros k. unfold rename_label, rn.
  now destruct (Dict.get k m).
Qed.

Lemma rename_run (m : list (string * string)) (idx : list string)
      (ks : list string) (rs : list row) :
  NoDup (map (rn m) ks) ->
  rename m {| index_names := idx; columns := map CStr ks; rows := rs |}
  = Ret {| index_names := idx; columns := map CStr (map (rn m) ks); rows := rs |}.
Proof.
  intros Hnd. unfold rename, set_columns; simpl.
  rewrite rename_strings, unique_strings by assumption. reflexivity.
Qed.

Lemma dict_get_In {V} (k : string) (v : V) (d : dict V) :
  Dict.get k d = Some v -> In (k, v) d.
Proof.
  induction d as [|[k' v'] d IH]; simpl; [discriminate|].
  destruct (String.eqb_spec k k') as [->|Hne].
  - intros [= ->]. now left.
  - intros H. right. auto.
Qed.

Lemma targets_distinct (m : list (string * string)) (k1 k2 t : string) :
  NoDup (map snd m) -> In (k1, t) m -> In (k2, t) m -> k1 = k2.
Proof.
  induction m as [|[k0 t0] m IH]; simpl; intros Hnd H1 H2; [destruct H1|].
  inversion Hnd as [|? ? Hnot Hnd']; subst.
  destruct H1 as [H1|H1], H2 as [H2|H2].
  - congruence.
  - inversion H1; subst. exfalso. apply Hnot.
    change t with (snd (k2, t)). now apply in_map.
  - inversion H2; subst. exfalso. apply Hnot.
    change t with (snd (k1, t)). now apply in_map.
  - auto.
Qed.

(** A renaming with pairwise distinct targets, none of which is already a
    column, keeps the columns apart. *)
Lemma rn_injective (m : list (string * string)) (ks : list string) :
  NoDup (map snd m) ->
  (forall k, In k ks -> ~ In k (map snd m)) ->
  forall x y, In x ks -> In y ks -> rn m x = rn m y -> x = y.
Proof.
  intros Hnd Hfresh x y Hx Hy. unfold rn.
  destruct (Dict.get x m) as [tx|] eqn:Ex, (Dict.get y m) as [ty|] eqn:Ey.
  - intros ->. apply dict_get_In in Ex, Ey.
    exact (targets_distinct m x y ty Hnd Ex Ey).
  - intros ->. apply dict_get_In in Ex. exfalso. apply (Hfresh y Hy).
    change y with (snd (x, y)). now apply in_map.
  - intros <-. apply dict_get_In in Ey. exfalso. apply (Hfresh x Hx).
    change x with (snd (y, x)). now apply in_map.
  - auto.
Qed.

Lemma rn_NoDup (m : list (string * string)) (ks : list string) :
  NoDup ks ->
  NoDup (map snd m) ->
  (forall k, In k ks -> ~ In k (map snd m)) ->
  NoDup (map (rn m) ks).
Proof.
  intros Hks Hnd Hfresh. apply NoDup_map_NoDup_ForallPairs; auto.
  intros x y Hx Hy. now apply (rn_injective m ks).
Qed.

Lemma find_key_map (f : string -> string) (k : string) (ks : list string) :
  (forall x y, In x ks -> In y ks -> f x = f y -> x = y) ->
  In k ks ->
  find_key (f k) (map f ks) = find_key k ks.
Proof.
  intros Hinj Hin. induction ks as [|k' ks IH]; [destruct Hin|].
  simpl. destruct (String.eqb_spec k k') as [->|Hne].
  - now rewrite String.eqb_refl.
  - destruct Hin as [->|Hin]; [congruence|].
    destruct (String.eqb_spec (f k) (f k')) as [Heq|_].
    + exfalso. apply Hne. apply Hinj; simpl; auto.
    + rewrite IH; auto. intros x y Hx Hy. apply Hinj; simpl; auto.
Qed.

Lemma dedup_spec (ks seen : list string) :
  NoDup (dedup seen ks)
  /\ (forall k, In k (dedup seen ks) <-> In k ks /\ ~ In k seen).
Proof.
  revert seen. induction ks as [|k ks IH]; intros seen; simpl.
  - split; [constructor|]. tauto.
  - destruct (existsb (String.eqb k) seen) eqn:Hs.
    + apply existsb_exists in Hs. destruct Hs as (k' & Hk' & Heq).
      apply String.eqb_eq in Heq. subst k'.
      destruct (IH seen) as [Hnd Hin]. split; auto.
      intros k0. rewrite Hin. split; [tauto|].
      intros [[->|H] Hn]; tauto.
    + assert (Hk : ~ In k seen).
      { intros Hin. apply Bool.not_true_iff_false in Hs. apply Hs.
        apply existsb_exists. exists k. split; auto. apply String.eqb_refl. }
      destruct (IH (k :: seen)) as [Hnd Hin]. split.
      * constructor; auto. rewrite Hin. simpl. tauto.
      * intros k0. simpl. rewrite Hin. simpl.
        destruct (string_dec k k0) as [->|Hne]; tauto.
Qed.

Lemma union_keys_NoDup (recs : list record) : NoDup (union_keys recs).
Proof. apply dedup_spec. Qed.

Lemma union_keys_In (recs : list record) (k : string) :
  In k (union_keys recs) <-> exists r, In r recs /\ In k (map fst r).
Proof.
  unfold union_keys. rewrite (proj2 (dedup_spec _ [])). simpl.
  rewrite in_concat. split.
  - intros [(l & Hl & Hk) _]. apply in_map_iff in Hl. destruct Hl as (r & <- & Hr). eauto.
  - intros (r & Hr & Hk). split; auto. exists (map fst r). split; auto.
    now apply in_map.
Qed.

(* ------------------------------------------------------------------ *)
(** ** Cells of a row *)

Lemma drop_from_past (j : nat) (ps : list nat) (v : list cell) :
  (forall p, In p ps -> (p < j)%nat) -> drop_from j ps v = v.
Proof.
  revert j. induction v as [|c v IH]; intros j Hps; simpl; auto.
  destruct (existsb (Nat.eqb j) ps) eqn:He.
  - apply existsb_exists in He. destruct He as (p & Hp & Heq).
    apply Nat.eqb_eq in Heq. subst p. apply Hps in Hp. lia.
  - f_equal. apply IH. intros p Hp. apply Hps in Hp. lia.
Qed.

Lemma remove_key_absent (k : string) (ks : list string) :
  ~ In k ks -> remove_key k ks = ks.
Proof.
  induction ks as [|k' ks IH]; simpl; auto. intros H.
  destruct (String.eqb_spec k' k) as [->|_]; simpl.
  - exfalso. apply H. now left.
  - f_equal. apply IH. tauto.
Qed.

Lemma drop_from_key (f : string -> cell) (k : string) (ks : list string) :
  NoDup ks ->
  forall i j, find_key k ks = Some i ->
  drop_from j [(j + i)%nat] (map f ks) = map f (remove_key k ks).
Proof.
  induction 1 as [|k' ks Hk' Hks IH]; intros i j; simpl; [discriminate|].
  destruct (String.eqb_spec k k') as [->|Hne].
  - intros [= <-]. rewrite Nat.add_0_r, Nat.eqb_refl. simpl.
    rewrite String.eqb_refl. simpl.
    rewrite remove_key_absent by assumption.
    apply drop_from_past. intros p [<-|[]]. lia.
  - destruct (find_key k ks) as [i'|] eqn:Hi; simpl; [|discriminate].
    intros [= <-].
    destruct (Nat.eqb_spec j (j + S i')) as [Heq|_]; [lia|]. simpl.
    destruct (String.eqb_spec k' k) as [Heq|_]; [congruence|]. simpl.
    f_equal. rewrite <- (IH i' (S j) eq_refl). f_equal. f_equal. lia.
Qed.

Lemma drop_at_key (f : string -> cell) (k : string) (ks : list string) (i : nat) :
  NoDup ks -> find_key k ks = Some i ->
  drop_at [i] (map f ks) = map f (remove_key k ks).
Proof. intros Hnd Hi. unfold drop_at. now apply (drop_from_key f k ks Hnd i 0%nat). Qed.

Lemma drop_from_update (g : cell -> cell) (v : list cell) :
  forall i j, drop_from j [(j + i)%nat] (update_at i g v) = drop_from j [(j + i)%nat] v.
Proof.
  induction v as [|c v IH]; intros i j; [now destruct i|].
  destruct i as [|i]; simpl.
  - now rewrite Nat.add_0_r, Nat.eqb_refl.
  - destruct (Nat.eqb_spec j (j + S i)) as [Heq|_]; [lia|]. simpl.
    f_equal. replace (j + S i)%nat with (S j + i)%nat by lia. apply IH.
Qed.

Lemma drop_at_update (g : cell -> cell) (i : nat) (v : list cell) :
  drop_at [i] (update_at i g v) = drop_at [i] v.
Proof. unfold drop_at. apply (drop_from_update g v i 0%nat). Qed.

Lemma nth_update_at (g : cell -> cell) (i : nat) (v : list cell) :
  (i < length v)%nat -> nth i (update_at i g v) NA = g (nth i v NA).
Proof.
  revert i. induction v as [|c v IH]; intros i; simpl; [lia|].
  destruct i as [|i]; simpl; auto. intros H. apply IH. lia.
Qed.

Lemma nth_update_other (g : cell -> cell) (i j : nat) (v : list cell) :
  i <> j -> nth j (update_at i g v) NA = nth j v NA.
Proof.
  revert i j. induction v as [|c v IH]; intros i j Hne.
  - now destruct i, j.
  - destruct i as [|i], j as [|j]; simpl; auto; try congruence.
Qed.

Lemma length_update_at (g : cell -> cell) (i : nat) (v : list cell) :
  length (update_at i g v) = length v.
Proof.
  revert i. induction v as [|c v IH]; intros i; [now destruct i|].
  destruct i; simpl; auto.
Qed.

Lemma map_at_run (f : cell -> outcome cell) (g : cell -> cell) (v : list cell) :
  forall i,
    ((i < length v)%nat -> f (nth i v NA) = Ret (g (nth i v NA))) ->
    map_at f i v = Ret (update_at i g v).
Proof.
  induction v as [|c v IH]; intros i H; [now destruct i|].
  destruct i as [|i]; simpl in *.
  - rewrite H by lia. reflexivity.
  - rewrite (IH i); auto. intros Hlt. apply H. lia.
Qed.

Lemma omap_run {A B} (f : A -> outcome B) (g : A -> B) (l : list A) :
  (forall a, In a l -> f a = Ret (g a)) -> omap f l = Ret (map g l).
Proof.
  induction l as [|a l IH]; intros H; simpl; auto.
  rewrite (H a) by now left. simpl. rewrite IH; auto.
  intros a' Ha'. apply H. now right.
Qed.

Lemma map_column_run (f : cell -> outcome cell) (g : cell -> cell) (i : nat)
      (df : DataFrame) :
  (forall r, In r (rows df) -> (i < length (snd r))%nat ->
             f (nth i (snd r) NA) = Ret (g (nth i (snd r) NA))) ->
  map_column f i df
  = Ret {| index_names := index_names df;
           columns := columns df;
           rows := map (fun r : row => (fst r, update_at i g (snd r))) (rows df) |}.
Proof.
  intros H. unfold map_column.
  rewrite (omap_run _ (fun r : row => (fst r, update_at i g (snd r)))); auto.
  intros r Hr. rewrite (map_at_run f g); auto.
Qed.

Lemma convert_run (conv : cell -> option Z) (c : cell) :
  convertible conv c -> convert conv c = Ret (converted conv c).
Proof.
  intros [->|(t & Ht)]; auto.
  unfold convert, converted. rewrite Ht. now destruct c.
Qed.

Lemma replace_underscores_run (c : cell) :
  is_string c -> replace_underscores c = Ret (stripped c).
Proof. destruct c; simpl; tauto. Qed.

(* ------------------------------------------------------------------ *)
(** ** Index of one column *)

Lemma set_index_one (k : string) (i : nat) (df : DataFrame) :
  position (CStr k) (columns df) = Some i ->
  set_index [k] df
  = Ret {| index_names := [k];
           columns := drop_at [i] (columns df);
           rows := map (fun r : row => ([nth i (snd r) NA], drop_at [i] (snd r)))
                       (rows df) |}.
Proof. intros H. unfold set_index, locate; simpl. now rewrite H. Qed.

Lemma homogeneous_kind (K : kind) (cs : list cell) :
  Forall (fun c => kind_of c = None \/ kind_of c = Some K) cs ->
  homogeneous (Some K) cs = true /\ homogeneous None cs = true.
Proof.
  induction 1 as [|c cs Hc Hcs [IH1 IH2]]; simpl; auto.
  destruct Hc as [-> | ->]; auto.
  rewrite IH1. split; auto. now destruct K.
Qed.

Lemma comparable_one (K : kind) (ks : list (list cell)) :
  Forall (fun k => kind_of (nth 0 k NA) = None \/ kind_of (nth 0 k NA) = Some K) ks ->
  comparable 1 ks = true.
Proof.
  intros H. unfold comparable; simpl. rewrite andb_true_r.
  apply (homogeneous_kind K). apply Forall_map. exact H.
Qed.

Lemma sort_index_one (ascending : bool) (K : kind) (df : DataFrame) :
  length (index_names df) = 1%nat ->
  Forall (fun r : row => kind_of (nth 0 (fst r) NA) = None
                         \/ kind_of (nth 0 (fst r) NA) = Some K) (rows df) ->
  sort_index ascending df
  = Ret {| index_names := index_names df;
           columns := columns df;
           rows := sort_rows ascending (rows df) |}.
Proof.
  intros Hlen Hk. unfold sort_index. rewrite Hlen.
  rewrite (comparable_one K); [reflexivity|].
  apply Forall_map. exact Hk.
Qed.

(** [_set_index] on one column that is there, with values of one kind. *)
Lemma set_index_run (k : string) (i : nat) (ascending : bool) (K : kind) (df : DataFrame) :
  position (CStr k) (columns df) = Some i ->
  Forall (fun r : row => kind_of (nth i (snd r) NA) = None
                         \/ kind_of (nth i (snd r) NA) = Some K) (rows df) ->
  _set_index df (One k) ascending
  = Ret {| index_names := [k];
           columns := drop_at [i] (columns df);
           rows := sort_rows ascending
                     (map (fun r : row => ([nth i (snd r) NA], drop_at [i] (snd r)))
                          (rows df)) |}.
Proof.
  intros Hpos Hk. unfold _set_index.
  rewrite has_label_position, Hpos, (set_index_one k i df Hpos). simpl obind.
  rewrite (sort_index_one ascending K); auto.
  simpl. apply Forall_map. simpl. exact Hk.
Qed.

(* ------------------------------------------------------------------ *)
(** ** Reshaping a payload of flat records *)

Lemma frame_of_records_table (recs : list record) :
  frame_of_records recs = table_of (union_keys recs) (union_keys recs) field recs.
Proof. reflexivity. Qed.

Lemma rename_table (m : list (string * string)) (ks : list string)
      (cellf : record -> string -> cell) (recs : list record) :
  NoDup ks ->
  NoDup (map snd m) ->
  (forall k, In k ks -> ~ In k (map snd m)) ->
  rename m (table_of ks ks cellf recs) = Ret (table_of (map (rn m) ks) ks cellf recs).
Proof.
  intros Hks Hnd Hfresh. unfold table_of. apply rename_run.
  now apply rn_NoDup.
Qed.

Lemma position_renamed (m : list (string * string)) (ks : list string) (k : string) :
  NoDup (map snd m) ->
  (forall k, In k ks -> ~ In k (map snd m)) ->
  In k ks ->
  position (CStr (rn m k)) (map CStr (map (rn m) ks)) = find_key k ks.
Proof.
  intros Hnd Hfresh Hin. rewrite position_strings.
  apply find_key_map; auto. now apply rn_injective.
Qed.

Lemma update_at_key (g : cell -> cell) (f : string -> cell) (k : string) (ks : list string) :
  NoDup ks ->
  forall i, find_key k ks = Some i ->
  update_at i g (map f ks)
  = map (fun k' => if (k' =? k)%string then g (f k') else f k') ks.
Proof.
  induction 1 as [|k' ks Hk' Hks IH]; intros i; simpl; [discriminate|].
  destruct (String.eqb_spec k k') as [->|Hne].
  - intros [= <-]. simpl. rewrite String.eqb_refl. f_equal.
    apply map_ext_in. intros a Ha.
    destruct (String.eqb_spec a k') as [->|_]; [contradiction|reflexivity].
  - destruct (find_key k ks) as [j|] eqn:Hj; simpl; [|discriminate].
    intros [= <-]. simpl.
    destruct (String.eqb_spec k' k) as [Heq|_]; [congruence|].
    f_equal. now apply IH.
Qed.

Lemma map_column_table (f : cell -> outcome cell) (g : cell -> cell)
      (labels ks : list string) (cellf : record -> string -> cell)
      (recs : list record) (kt : string) (i : nat) :
  NoDup ks ->
  find_key kt ks = Some i ->
  (forall r, In r recs -> f (cellf r kt) = Ret (g (cellf r kt))) ->
  map_column f i (table_of labels ks cellf recs)
  = Ret (table_of labels ks (in_column kt g cellf) recs).
Proof.
  intros Hks Hi Hf.
  rewrite (map_column_run f g).
  - unfold table_of. simpl. f_equal. f_equal.
    rewrite map_map. apply map_ext. intros r. simpl. f_equal.
    now apply update_at_key.
  - intros r0 Hr0 _. simpl in Hr0. apply in_map_iff in Hr0.
    destruct Hr0 as (r & <- & Hr). simpl.
    rewrite (nth_find_key (cellf r) NA kt ks i Hi). now apply Hf.
Qed.

Lemma set_index_table (m : list (string * string)) (ks : list string)
      (cellf : record -> string -> cell) (recs : list record)
      (ki : string) (ascending : bool) (K : kind) :
  NoDup ks ->
  NoDup (map snd m) ->
  (forall k, In k ks -> ~ In k (map snd m)) ->
  In ki ks ->
  (forall r, In r recs ->
             kind_of (cellf r ki) = None \/ kind_of (cellf r ki) = Some K) ->
  _set_index (table_of (map (rn m) ks) ks cellf recs) (One (rn m ki)) ascending
  = Ret {| index_names := [rn m ki];
           columns := map CStr (map (rn m) (remove_key ki ks));
           rows := sort_rows ascending (keyed_rows ki ks cellf recs) |}.
Proof.
  intros Hks Hnd Hfresh Hin Hkind.
  destruct (find_key_In ki ks Hin) as (i & Hi).
  rewrite (set_index_run (rn m ki) i ascending K).
  - unfold table_of, keyed_rows. cbn [columns rows]. f_equal. f_equal.
    + rewrite !map_map. now apply (drop_at_key (fun k => CStr (rn m k))).
    + f_equal. rewrite map_map. apply map_ext. intros r. cbn [snd].
      rewrite (nth_find_key (cellf r) NA ki ks i Hi).
      now rewrite (drop_at_key (cellf r) ki ks i Hks Hi).
  - cbn [table_of columns]. rewrite position_renamed; auto.
  - cbn [table_of rows]. apply Forall_map. apply Forall_forall. intros r Hr. cbn [snd].
    rewrite (nth_find_key (cellf r) NA ki ks i Hi). now apply Hkind.
Qed.

(* ------------------------------------------------------------------ *)
(** ** Operations on a payload that was served *)

Lemma bind_call_api_json {A} (E : Env) (url : string) (kw : kwargs)
      (k : apiresult -> M A) (s : Session) (w : World) (j : json) :
  _api_calls_per_second s <> 0%Z ->
  well_typed kw ->
  status_code (response_to E s w url kw) = 200%Z ->
  resp_json (response_to E s w url kw) = Some j ->
  bind (_call_api E url kw) k s w
  = k (Json j) (stamp s (request_end E s w)) (after_call E s w url kw).
Proof.
  intros Hcps Hty Hst Hj. unfold bind.
  rewrite call_api_run by assumption.
  unfold answer. now rewrite Hst, Hj.
Qed.

Lemma json_normalize_records (items : list json) (recs : list record) :
  traverse flat_record items = Some recs ->
  json_normalize (JArr items) = Ret (frame_of_records recs).
Proof. intros H. simpl. now rewrite H. Qed.

(** What is left of an operation after the call: the pure reshaping of the
    records of the envelope. *)
Lemma served_continuation {A} (E : Env) (url : string) (kw : kwargs)
      (envelope : string) (recs : list record)
      (k : DataFrame -> M A) (s : Session) (w : World) :
  _api_calls_per_second s <> 0%Z ->
  well_typed kw ->
  served E s w url kw envelope recs ->
  bind (_call_api E url kw)
       (fun json_data =>
          bind (lift (subscript json_data envelope)) (fun data =>
          bind (lift (json_normalize data)) k)) s w
  = k (frame_of_records recs) (stamp s (request_end E s w)) (after_call E s w url kw).
Proof.
  intros Hcps Hty (Hst & fields & items & Hj & Hget & Hrecs).
  rewrite (bind_call_api_json E url kw _ s w (JObj fields)) by assumption.
  unfold bind at 1, lift at 1. simpl subscript. rewrite Hget.
  unfold bind at 1, lift at 1. now rewrite (json_normalize_records items recs Hrecs).
Qed.

Lemma row_le_date_desc (r1 r2 : row) :
  (exists c, fst r1 = [c] /\ is_date c) ->
  (exists c, fst r2 = [c] /\ is_date c) ->
  row_le false r1 r2 -> date_desc r1 r2.
Proof.
  intros (c1 & H1 & D1) (c2 & H2 & D2). unfold row_le, date_desc.
  rewrite H1, H2. destruct c1, c2; simpl in *; try tauto; try discriminate.
  destruct (Z.eqb_spec t t0) as [->|Hne]; [lia|].
  intros H. apply Z.leb_le in H. lia.
Qed.

Lemma Sorted_within {A} (P : A -> Prop) (R R' : A -> A -> Prop) (l : list A) :
  (forall x y, P x -> P y -> R x y -> R' x y) ->
  Forall P l -> Sorted R l -> Sorted R' l.
Proof.
  intros HR HP HS. induction HS as [|x l HS IH Hhd]; [constructor|].
  inversion HP as [|? ? Px Pl]; subst. constructor; auto.
  destruct Hhd as [|y l' Hxy]; constructor.
  inversion Pl; subst. auto.
Qed.

Lemma converted_is_date (conv : cell -> option Z) (c : cell) :
  convertible conv c -> is_date (converted conv c).
Proof.
  intros [->|(t & Ht)]; simpl; auto.
  unfold converted. rewrite Ht. now destruct c.
Qed.

Lemma is_date_kind (c : cell) :
  is_date c -> kind_of c = None \/ kind_of c = Some KTime.
Proof. destruct c; simpl; tauto. Qed.

(** The pipeline of the two operations that index prices by date. *)
Lemma date_index_run (E : Env) (m : list (string * string)) (recs : list record) :
  NoDup (map snd m) ->
  Dict.get "d" m = Some "date" ->
  In "d" (union_keys recs) ->
  fresh_for m recs ->
  dated E recs ->
  exists df,
    obind (rename m (frame_of_records recs)) (fun df =>
    obind (parse_date E df "date") (fun df =>
    _set_index df (One "date") false)) = Ret df
    /\ date_indexed E m recs df.
Proof.
  intros Hnd Hd Hin Hfresh Hdated.
  set (ks := union_keys recs) in *.
  assert (Hks : NoDup ks) by apply union_keys_NoDup.
  assert (Hrn : rn m "d" = "date") by (unfold rn; now rewrite Hd).
  destruct (find_key_In "d" ks Hin) as (i & Hi).
  eexists. split.
  - rewrite frame_of_records_table. fold ks.
    rewrite (rename_table m ks field recs Hks Hnd Hfresh). cbn [obind].
    unfold parse_date, _parse_date. cbn [table_of columns].
    rewrite <- Hrn at 1. rewrite (position_renamed m ks "d" Hnd Hfresh Hin), Hi.
    change {| index_names := []; columns := map CStr (map (rn m) ks);
              rows := map (fun r => ([], map (field r) ks)) recs |}
      with (table_of (map (rn m) ks) ks field recs).
    rewrite (map_column_table (convert (to_datetime E)) (converted (to_datetime E))
               (map (rn m) ks) ks field recs "d" i Hks Hi).
    2:{ intros r Hr. apply convert_run. now apply Hdated. }
    cbn [obind]. rewrite <- Hrn.
    apply (set_index_table m ks (in_column "d" (converted (to_datetime E)) field)
             recs "d" false KTime Hks Hnd Hfresh Hin).
    intros r Hr. apply is_date_kind. unfold in_column. rewrite String.eqb_refl.
    apply converted_is_date. now apply Hdated.
  - assert (Hdates : Forall (fun r : row => exists c, fst r = [c] /\ is_date c)
                       (sort_rows false (keyed_rows "d" ks (price_cell E) recs))).
    { apply Forall_forall. intros r Hr.
      apply (Permutation_in _ (sort_rows_perm false _)) in Hr.
      unfold keyed_rows in Hr. apply in_map_iff in Hr. destruct Hr as (r0 & <- & Hr0).
      eexists. split; [reflexivity|]. unfold price_cell, in_column.
      rewrite String.eqb_refl. apply converted_is_date. now apply Hdated. }
    constructor; cbn [index_names columns rows].
    + now rewrite Hrn.
    + reflexivity.
    + apply sort_rows_perm.
    + eapply Sorted_within; [|exact Hdates|apply sort_rows_sorted].
      intros x y Hx Hy. now apply row_le_date_desc.
Qed.

Lemma bind_lift {A B} (x : outcome A) (k : A -> M B) (s : Session) (w : World) :
  bind (lift x) k s w
  = match x with
    | Ret a => k a s w
    | Raise e => (Raise e, s, w)
    | Unmodelled => (Unmodelled, s, w)
    end.
Proof. unfold bind, lift. now destruct x. Qed.

(** Three pure steps in a row, and the frame handed back. *)
Lemma lift_three (x : outcome DataFrame) (f g : DataFrame -> outcome DataFrame)
      (s : Session) (w : World) (df : DataFrame) :
  obind x (fun a => obind (f a) g) = Ret df ->
  (a <- lift x ;; b <- lift (f a) ;; c <- lift (g b) ;; ret (RFrame c)) s w
  = (Ret (RFrame df), s, w).
Proof.
  intros H. rewrite bind_lift. destruct x as [a| |]; try discriminate. simpl in H.
  rewrite bind_lift. destruct (f a) as [b| |]; try discriminate. simpl in H.
  rewrite bind_lift. now rewrite H.
Qed.

Lemma price_names_targets : NoDup (map snd price_names).
Proof.
  unfold price_names; simpl.
  repeat (constructor; [simpl; intuition discriminate|]).
  constructor.
Qed.

Lemma all_price_names_targets : NoDup (map snd all_price_names).
Proof.
  unfold all_price_names; simpl.
  repeat (constructor; [simpl; intuition discriminate|]).
  constructor.
Qed.

Lemma list_price_names_targets : NoDup (map snd list_price_names).
Proof.
  unfold list_price_names; simpl.
  repeat (constructor; [simpl; intuition discriminate|]).
  constructor.
Qed.

(** Prices of one instrument. *)
Lemma stock_prices_run (E : Env) (ins_id from_date to_date max_count : pyval)
      (s : Session) (w : World) (recs : list record) :
  _api_calls_per_second s <> 0%Z ->
  served E s w (op_url (GetInstrumentStockPrices ins_id from_date to_date max_count))
         (op_kwargs (GetInstrumentStockPrices ins_id from_date to_date max_count))
         "stockPricesList" recs ->
  In "d" (union_keys recs) ->
  fresh_for price_names recs ->
  dated E recs ->
  exists df,
    outcome_of (get_instrument_stock_prices E ins_id from_date to_date max_count s w)
    = Ret (RFrame df)
    /\ date_indexed E price_names recs df.
Proof.
  intros Hcps Hserved Hd Hfresh Hdated.
  destruct (date_index_run E price_names recs price_names_targets eq_refl
              Hd Hfresh Hdated) as (df & Hrun & Hdf).
  exists df. split; auto.
  unfold get_instrument_stock_prices. cbv zeta.
  rewrite (served_continuation E _ _ "stockPricesList" recs _ s w Hcps
             (op_kwargs_well_typed _) Hserved).
  now rewrite (lift_three _ _ _ _ _ df Hrun).
Qed.

(** Last prices of all instruments. *)
Lemma stock_prices_last_run (E : Env) (s : Session) (w : World) (recs : list record) :
  _api_calls_per_second s <> 0%Z ->
  served E s w (op_url GetInstrumentsStockPricesLast)
         (op_kwargs GetInstrumentsStockPricesLast) "stockPricesList" recs ->
  In "d" (union_keys recs) ->
  fresh_for all_price_names recs ->
  dated E recs ->
  exists df,
    outcome_of (get_instruments_stock_prices_last E s w) = Ret (RFrame df)
    /\ date_indexed E all_price_names recs df.
Proof.
  intros Hcps Hserved Hd Hfresh Hdated.
  destruct (date_index_run E all_price_names recs all_price_names_targets eq_refl
              Hd Hfresh Hdated) as (df & Hrun & Hdf).
  exists df. split; auto.
  unfold get_instruments_stock_prices_last. cbv zeta.
  rewrite (served_continuation E _ _ "stockPricesList" recs _ s w Hcps
             (op_kwargs_well_typed _) Hserved).
  now rewrite (lift_three _ _ _ _ _ df Hrun).
Qed.

(** The pipeline of the prices of one date. *)
Lemma instrument_index_run (E : Env) (recs : list record) :
  In "d" (union_keys recs) ->
  In "i" (union_keys recs) ->
  fresh_for all_price_names recs ->
  dated E recs ->
  numbered recs ->
  exists df,
    obind (rename all_price_names (frame_of_records recs)) (fun df =>
    obind (parse_date E df "date") (fun df =>
    _set_index df (One "insId") true)) = Ret df
    /\ instrument_indexed E all_price_names recs df.
Proof.
  intros Hd Hi Hfresh Hdated Hnum.
  set (m := all_price_names) in *.
  set (ks := union_keys recs) in *.
  assert (Hks : NoDup ks) by apply union_keys_NoDup.
  pose proof all_price_names_targets as Hnd. fold m in Hnd.
  destruct (find_key_In "d" ks Hd) as (i & Hpos).
  eexists. split.
  - rewrite frame_of_records_table. fold ks.
    rewrite (rename_table m ks field recs Hks Hnd Hfresh). cbn [obind].
    unfold parse_date, _parse_date. cbn [table_of columns].
    change "date" with (rn m "d").
    rewrite (position_renamed m ks "d" Hnd Hfresh Hd), Hpos.
    change {| index_names := []; columns := map CStr (map (rn m) ks);
              rows := map (fun r => ([], map (field r) ks)) recs |}
      with (table_of (map (rn m) ks) ks field recs).
    rewrite (map_column_table (convert (to_datetime E)) (converted (to_datetime E))
               (map (rn m) ks) ks field recs "d" i Hks Hpos).
    2:{ intros r Hr. apply convert_run. now apply Hdated. }
    cbn [obind]. change "insId" with (rn m "i").
    apply (set_index_table m ks (in_column "d" (converted (to_datetime E)) field)
             recs "i" true KNum Hks Hnd Hfresh Hi).
    intros r Hr. right. unfold in_column.
    change ("i" =? "d")%string with false. cbv iota.
    specialize (Hnum r Hr). now destruct (field r "i").
  - constructor; cbn [index_names columns rows]; auto.
    + apply sort_rows_perm.
    + apply sort_rows_sorted.
Qed.

(** Prices of all instruments on one date. *)
Lemma stock_prices_date_run (E : Env) (date : pyval) (s : Session) (w : World)
      (recs : list record) :
  _api_calls_per_second s <> 0%Z ->
  served E s w (op_url (GetStockPricesDate date)) (op_kwargs (GetStockPricesDate date))
         "stockPricesList" recs ->
  In "d" (union_keys recs) ->
  In "i" (union_keys recs) ->
  fresh_for all_price_names recs ->
  dated E recs ->
  numbered recs ->
  exists df,
    outcome_of (get_stock_prices_date E date s w) = Ret (RFrame df)
    /\ instrument_indexed E all_price_names recs df.
Proof.
  intros Hcps Hserved Hd Hi Hfresh Hdated Hnum.
  destruct (instrument_index_run E recs Hd Hi Hfresh Hdated Hnum) as (df & Hrun & Hdf).
  exists df. split; auto.
  unfold get_stock_prices_date. cbv zeta.
  rewrite (served_continuation E _ _ "stockPricesList" recs _ s w Hcps
             (op_kwargs_well_typed _) Hserved).
  now rewrite (lift_three _ _ _ _ _ df Hrun).
Qed.

Lemma combine_repeat {A B} (l1 : list A) (c : B) (rest1 : list A) (rest2 : list B) :
  combine (l1 ++ rest1) (repeat c (length l1) ++ rest2)
  = map (fun r => (r, c)) l1 ++ combine rest1 rest2.
Proof. induction l1 as [|a l1 IH]; simpl; auto. now rewrite IH. Qed.

Lemma combine_tagged (pulled : list (list record * cell)) :
  combine (concat (map fst pulled))
          (concat (map (fun p => repeat (snd p) (length (fst p))) pulled))
  = tagged pulled.
Proof.
  unfold tagged. induction pulled as [|[l c] pulled IH]; simpl; auto.
  now rewrite combine_repeat, IH.
Qed.

Lemma combine_map_l {A B C} (f : A -> C) (l : list A) (l' : list B) :
  combine (map f l) l' = map (fun ab => (f (fst ab), snd ab)) (combine l l').
Proof.
  revert l'. induction l as [|a l IH]; intros [|b l']; simpl; auto.
  now rewrite IH.
Qed.

(** [json_normalize] with a record path, on parents that were pulled. *)
Lemma json_normalize_path_run (items : list json) (record_path meta : string)
      (pulled : list (list record * cell)) :
  items <> [] ->
  omap (pull record_path meta) items = Ret pulled ->
  ~ In meta (union_keys (concat (map fst pulled))) ->
  json_normalize_path (JArr items) record_path meta
  = Ret {| index_names := [];
           columns := map CStr (union_keys (concat (map fst pulled)) ++ [meta]);
           rows := map (fun rm : record * cell =>
                          ([], map (field (fst rm))
                                   (union_keys (concat (map fst pulled)))
                               ++ [snd rm]))
                       (tagged pulled) |}.
Proof.
  intros Hne Hpull Hmeta. unfold json_normalize_path.
  destruct items as [|item items]; [congruence|].
  rewrite Hpull. cbn [obind].
  cbn [frame_of_records columns rows].
  rewrite has_label_position, position_strings.
  apply find_key_None in Hmeta. rewrite Hmeta.
  f_equal. f_equal.
  - now rewrite map_app.
  - rewrite combine_map_l, combine_tagged, map_map. reflexivity.
Qed.

(** Prices of several instruments. *)
Lemma stock_prices_list_run (E : Env) (stock_id_list : list Z) (from_date to_date : pyval)
      (s : Session) (w : World) (pulled : list (list record * cell)) :
  _api_calls_per_second s <> 0%Z ->
  served_nested E s w
    (op_url (GetInstrumentStockPricesList stock_id_list from_date to_date))
    (op_kwargs (GetInstrumentStockPricesList stock_id_list from_date to_date))
    "stockPricesArrayList" "stockPricesList" "instrument" pulled ->
  ~ In "instrument" (union_keys (concat (map fst pulled))) ->
  fresh_for list_price_names (concat (map fst pulled)) ->
  exists df,
    outcome_of (get_instrument_stock_prices_list E stock_id_list from_date to_date s w)
    = Ret (RFrame df)
    /\ listed pulled df.
Proof.
  intros Hcps (Hst & fields & items & Hj & Hget & Hne & Hpull) Hmeta Hfresh.
  set (ks := union_keys (concat (map fst pulled))) in *.
  assert (Hks : NoDup (ks ++ ["instrument"])).
  { apply NoDup_app; [apply union_keys_NoDup | repeat constructor; simpl; tauto |].
    intros k Hk [<-|[]]. contradiction. }
  assert (Hnd : NoDup (map (rn list_price_names) (ks ++ ["instrument"]))).
  { apply rn_NoDup; auto using list_price_names_targets.
    intros k Hk. apply in_app_or in Hk. destruct Hk as [Hk|[<-|[]]].
    - now apply Hfresh.
    - simpl. intuition discriminate. }
  eexists. split.
  - unfold get_instrument_stock_prices_list. cbv zeta.
    rewrite (bind_call_api_json E _ _ _ s w (JObj fields) Hcps
               (op_kwargs_well_typed _) Hst Hj).
    rewrite bind_lift. cbn [subscript]. rewrite Hget.
    rewrite bind_lift.
    rewrite (json_normalize_path_run items _ _ pulled Hne Hpull Hmeta). fold ks.
    rewrite bind_lift.
    rewrite (rename_run list_price_names [] (ks ++ ["instrument"]) _ Hnd).
    reflexivity.
  - constructor; cbn [fillna0 index_names columns rows]; auto.
    + now rewrite map_app.
    + rewrite map_map. reflexivity.
Qed.

(* ------------------------------------------------------------------ *)
(** ** Metadata *)

Lemma metadata_names_targets : NoDup (map snd metadata_names).
Proof. repeat constructor. simpl. tauto. Qed.

Lemma rn_metadata_other (ks : list string) :
  map (rn metadata_names) (remove_key "reportPropery" ks)
  = remove_key "reportPropery" ks.
Proof.
  rewrite <- (map_id (remove_key "reportPropery" ks)) at 2.
  apply map_ext_in. intros k Hk. apply filter_In in Hk. destruct Hk as [_ Hk].
  unfold rn, metadata_names. simpl.
  destruct (k =? "reportPropery")%string; [discriminate Hk|reflexivity].
Qed.

Lemma stripped_kind (c : cell) :
  is_string c -> kind_of (stripped c) = None \/ kind_of (stripped c) = Some KStr.
Proof. destruct c; simpl; tauto. Qed.

(** The pipeline of the report metadata. *)
Lemma property_index_run (recs : list record) :
  In "reportPropery" (union_keys recs) ->
  fresh_for metadata_names recs ->
  propertied recs ->
  exists df,
    obind (rename metadata_names (frame_of_records recs)) (fun df =>
    obind (apply_replace "reportProperty" df) (fun df =>
    _set_index df (One "reportProperty") true)) = Ret df
    /\ property_indexed recs df.
Proof.
  intros Hin Hfresh Hprop.
  set (m := metadata_names) in *.
  set (ks := union_keys recs) in *.
  assert (Hks : NoDup ks) by apply union_keys_NoDup.
  pose proof metadata_names_targets as Hnd. fold m in Hnd.
  destruct (find_key_In "reportPropery" ks Hin) as (i & Hi).
  eexists. split.
  - rewrite frame_of_records_table. fold ks.
    rewrite (rename_table m ks field recs Hks Hnd Hfresh). cbn [obind].
    unfold apply_replace. cbn [table_of columns].
    change "reportProperty" with (rn m "reportPropery").
    rewrite (position_renamed m ks "reportPropery" Hnd Hfresh Hin), Hi.
    change {| index_names := []; columns := map CStr (map (rn m) ks);
              rows := map (fun r => ([], map (field r) ks)) recs |}
      with (table_of (map (rn m) ks) ks field recs).
    rewrite (map_column_table replace_underscores stripped
               (map (rn m) ks) ks field recs "reportPropery" i Hks Hi).
    2:{ intros r Hr. apply replace_underscores_run. now apply Hprop. }
    cbn [obind].
    apply (set_index_table m ks (in_column "reportPropery" stripped field)
             recs "reportPropery" true KStr Hks Hnd Hfresh Hin).
    intros r Hr. unfold in_column. rewrite String.eqb_refl.
    apply stripped_kind. now apply Hprop.
  - constructor; cbn [index_names columns rows]; auto.
    + unfold m. now rewrite rn_metadata_other.
    + apply sort_rows_perm.
    + apply sort_rows_sorted.
Qed.

Lemma rn_nil (ks : list string) : map (rn []) ks = ks.
Proof. rewrite <- (map_id ks) at 2. now apply map_ext. Qed.

(** The pipeline of the KPI metadata. *)
Lemma kpi_index_run (recs : list record) :
  In "kpiId" (union_keys recs) ->
  kpi_numbered recs ->
  exists df,
    _set_index (frame_of_records recs) (One "kpiId") true = Ret df
    /\ kpi_indexed recs df.
Proof.
  intros Hin Hnum.
  set (ks := union_keys recs) in *.
  assert (Hks : NoDup ks) by apply union_keys_NoDup.
  eexists. split.
  - rewrite frame_of_records_table. fold ks.
    rewrite <- (rn_nil ks) at 1.
    change "kpiId" with (rn [] "kpiId").
    apply (set_index_table [] ks field recs "kpiId" true KNum Hks).
    + constructor.
    + intros k _ [].
    + exact Hin.
    + intros r Hr. right. specialize (Hnum r Hr). now destruct (field r "kpiId").
  - constructor; cbn [index_names columns rows]; auto.
    + now rewrite rn_nil.
    + apply sort_rows_perm.
    + apply sort_rows_sorted.
Qed.

Lemma lift_one (x : outcome DataFrame) (s : Session) (w : World) (df : DataFrame) :
  x = Ret df ->
  (c <- lift x ;; ret (RFrame c)) s w = (Ret (RFrame df), s, w).
Proof. intros ->. reflexivity. Qed.

(** C7, as amended.  For every report-metadata payload whose rows carry a
    string [reportPropery] (and no [reportProperty] yet), the operation
    renames the column to [reportProperty], strips the underscores from its
    values and indexes the table by it, in ascending order.  For every
    KPI-metadata payload with numeric [kpiId]s the operation indexes the
    payload by [kpiId] as it came: no column is renamed and no value is
    changed. *)
Theorem metadata_tables (E : Env) (s : Session) (w : World) (recs : list record) :
  _api_calls_per_second s <> 0%Z ->
  (served E s w (op_url GetReportsMetadata) (op_kwargs GetReportsMetadata)
          "reportMetadatas" recs ->
   In "reportPropery" (union_keys recs) ->
   fresh_for metadata_names recs ->
   propertied recs ->
   exists df,
     outcome_of (get_reports_metadata E s w) = Ret (RFrame df)
     /\ property_indexed recs df)
  /\ (served E s w (op_url GetKpiMetadata) (op_kwargs GetKpiMetadata)
             "kpiHistoryMetadatas" recs ->
      In "kpiId" (union_keys recs) ->
      kpi_numbered recs ->
      exists df,
        outcome_of (get_kpi_metadata E s w) = Ret (RFrame df)
        /\ kpi_indexed recs df).
Proof.
  intros Hcps. split.
  - intros Hserved Hin Hfresh Hprop.
    destruct (property_index_run recs Hin Hfresh Hprop) as (df & Hrun & Hdf).
    exists df. split; auto.
    unfold get_reports_metadata. cbv zeta.
    rewrite (served_continuation E _ _ "reportMetadatas" recs _ s w Hcps
               (op_kwargs_well_typed _) Hserved).
    now rewrite (lift_three _ _ _ _ _ df Hrun).
  - intros Hserved Hin Hnum.
    destruct (kpi_index_run recs Hin Hnum) as (df & Hrun & Hdf).
    exists df. split; auto.
    unfold get_kpi_metadata. cbv zeta.
    rewrite (served_continuation E _ _ "kpiHistoryMetadatas" recs _ s w Hcps
               (op_kwargs_well_typed _) Hserved).
    now rewrite (lift_one _ _ _ df Hrun).
Qed.

(* ------------------------------------------------------------------ *)
(** ** Stock prices *)

(** C5, as amended.  For every stock price payload whose fields do not
    already carry the long names: all four stock-price operations rename
    [d], [c], [h], [l], [o], [v] to [date], [close], [high], [low], [open],
    [volume].  The operations for one instrument and for the last prices
    convert the dates and index the table by [date], latest first.  The
    operation for one date converts the dates and indexes the table by
    [insId], in ascending order.  The operation for a list of instruments
    returns the combined table without an index, the missing values filled
    with 0 and the dates as they came. *)
Theorem stock_price_tables (E : Env) (s : Session) (w : World) :
  _api_calls_per_second s <> 0%Z ->
  (forall ins_id from_date to_date max_count recs,
      served E s w (op_url (GetInstrumentStockPrices ins_id from_date to_date max_count))
             (op_kwargs (GetInstrumentStockPrices ins_id from_date to_date max_count))
             "stockPricesList" recs ->
      In "d" (union_keys recs) -> fresh_for price_names recs -> dated E recs ->
      exists df,
        outcome_of (get_instrument_stock_prices E ins_id from_date to_date max_count s w)
        = Ret (RFrame df)
        /\ date_indexed E price_names recs df)
  /\ (forall recs,
         served E s w (op_url GetInstrumentsStockPricesLast)
                (op_kwargs GetInstrumentsStockPricesLast) "stockPricesList" recs ->
         In "d" (union_keys recs) -> fresh_for all_price_names recs -> dated E recs ->
         exists df,
           outcome_of (get_instruments_stock_prices_last E s w) = Ret (RFrame df)
           /\ date_indexed E all_price_names recs df)
  /\ (forall date recs,
         served E s w (op_url (GetStockPricesDate date))
                (op_kwargs (GetStockPricesDate date)) "stockPricesList" recs ->
         In "d" (union_keys recs) -> In "i" (union_keys recs) ->
         fresh_for all_price_names recs -> dated E recs -> numbered recs ->
         exists df,
           outcome_of (get_stock_prices_date E date s w) = Ret (RFrame df)
           /\ instrument_indexed E all_price_names recs df)
  /\ (forall stock_id_list from_date to_date pulled,
         served_nested E s w
           (op_url (GetInstrumentStockPricesList stock_id_list from_date to_date))
           (op_kwargs (GetInstrumentStockPricesList stock_id_list from_date to_date))
           "stockPricesArrayList" "stockPricesList" "instrument" pulled ->
         ~ In "instrument" (union_keys (concat (map fst pulled))) ->
         fresh_for list_price_names (concat (map fst pulled)) ->
         exists df,
           outcome_of (get_instrument_stock_prices_list E stock_id_list
                         from_date to_date s w) = Ret (RFrame df)
           /\ listed pulled df).
Proof.
  intros Hcps. repeat split.
  - intros. now apply stock_prices_run.
  - intros. now apply stock_prices_last_run.
  - intros. now apply stock_prices_date_run.
  - intros. now apply stock_prices_list_run.
Qed.

Ltac fresh_names :=
  let k := fresh "k" in
  let Hk := fresh "Hk" in
  let Ht := fresh "Ht" in
  intros k Hk Ht; vm_compute in Hk; vm_compute in Ht;
  intuition (subst; discriminate).

Ltac served_sample :=
  split; [reflexivity|];
  eexists; eexists; repeat split; reflexivity.

Lemma sample_prices_dated : dated (serving sample_prices) sample_price_records.
Proof.
  intros r Hr. unfold sample_price_records in Hr. simpl in Hr.
  destruct Hr as [<-|[<-|[]]]; right; eexists; vm_compute; reflexivity.
Qed.

Lemma stock_price_tables_witness :
  (exists df,
      outcome_of (get_instrument_stock_prices (serving sample_prices)
                    (PInt 2) (PStr "2020-09-01") PNone PNone fresh_session (world0 0))
      = Ret (RFrame df)
      /\ date_indexed (serving sample_prices) price_names sample_price_records df)
  /\ (exists df,
         outcome_of (get_instruments_stock_prices_last (serving sample_prices)
                       fresh_session (world0 0))
         = Ret (RFrame df)
         /\ date_indexed (serving sample_prices) all_price_names
                         sample_price_records df)
  /\ (exists df,
         outcome_of (get_stock_prices_date (serving sample_prices)
                       (PStr "2020-09-25") fresh_session (world0 0))
         = Ret (RFrame df)
         /\ instrument_indexed (serving sample_prices) all_price_names
                               sample_price_records df)
  /\ (exists df,
         outcome_of (get_instrument_stock_prices_list (serving sample_price_list)
                       [2%Z] PNone PNone fresh_session (world0 0))
         = Ret (RFrame df)
         /\ listed sample_pulled df).
Proof.
  assert (Hcps : _api_calls_per_second fresh_session <> 0%Z) by discriminate.
  destruct (stock_price_tables (serving sample_prices) fresh_session (world0 0) Hcps)
    as (Hone & Hlast & Hdate & _).
  destruct (stock_price_tables (serving sample_price_list) fresh_session (world0 0) Hcps)
    as (_ & _ & _ & Hlist).
  split; [|split; [|split]].
  - apply Hone.
    + served_sample.
    + vm_compute. tauto.
    + fresh_names.
    + exact sample_prices_dated.
  - apply Hlast.
    + served_sample.
    + vm_compute. tauto.
    + fresh_names.
    + exact sample_prices_dated.
  - apply Hdate.
    + served_sample.
    + vm_compute. tauto.
    + vm_compute. tauto.
    + fresh_names.
    + exact sample_prices_dated.
    + intros r Hr. unfold sample_price_records in Hr. simpl in Hr.
      destruct Hr as [<-|[<-|[]]]; exact I.
  - apply Hlist.
    + split; [reflexivity|].
      eexists; eexists. split; [reflexivity|]. split; [reflexivity|].
      split; [discriminate|reflexivity].
    + vm_compute. intuition discriminate.
    + fresh_names.
Defined.

(** C5, as stated, fails.  The prices of one date come back indexed by
    [insId], not by [date]; the prices of a list of instruments come back
    without an index and with the date still a string. *)
Lemma stock_prices_counterexample :
  (exists df,
      outcome_of (get_stock_prices_date (serving sample_prices)
                    (PStr "2020-09-25") fresh_session (world0 0))
      = Ret (RFrame df)
      /\ index_names df = ["insId"]
      /\ ~ date_indexed (serving sample_prices) all_price_names
                        sample_price_records df)
  /\ (exists df,
         outcome_of (get_instrument_stock_prices_list (serving sample_price_list)
                       [2%Z] PNone PNone fresh_session (world0 0))
         = Ret (RFrame df)
         /\ index_names df = []
         /\ columns df = [CStr "date"; CStr "close"; CStr "high"; CStr "stock_id"]
         /\ rows df = [([], [CStr "2020-09-24"; CNum 10; CNum 0; CNum 2]);
                       ([], [CStr "2020-09-25"; CNum 0; CNum 12; CNum 2])]).
Proof.
  split.
  - eexists. split; [vm_compute; reflexivity|].
    split; [reflexivity|]. intros [H _ _ _]. discriminate H.
  - eexists. split; [vm_compute; reflexivity|]. repeat split.
Qed.

Lemma metadata_tables_witness :
  (exists df,
      outcome_of (get_reports_metadata (serving sample_report_metadata)
                    fresh_session (world0 0)) = Ret (RFrame df)
      /\ index_names df = ["reportProperty"]
      /\ rows df = [([CStr "netincome"], [CStr "Net income"])])
  /\ (exists df,
         outcome_of (get_kpi_metadata (serving sample_kpi_metadata)
                       fresh_session (world0 0)) = Ret (RFrame df)
         /\ kpi_indexed sample_kpi_records df).
Proof.
  assert (Hcps : _api_calls_per_second fresh_session <> 0%Z) by discriminate.
  split.
  - destruct (metadata_tables (serving sample_report_metadata) fresh_session (world0 0)
                sample_metadata_records Hcps) as (Hreports & _).
    destruct Hreports as (df & Hrun & Hdf).
    + served_sample.
    + vm_compute. tauto.
    + fresh_names.
    + intros r Hr. unfold sample_metadata_records in Hr. simpl in Hr.
      destruct Hr as [<-|[]]. exact I.
    + exists df. split; [exact Hrun|]. split; [apply Hdf|].
      destruct Hdf as [_ _ Hperm _].
      apply Permutation_sym, Permutation_length_1_inv in Hperm. exact Hperm.
  - destruct (metadata_tables (serving sample_kpi_metadata) fresh_session (world0 0)
                sample_kpi_records Hcps) as (_ & Hkpi).
    apply Hkpi.
    + served_sample.
    + vm_compute. tauto.
    + intros r Hr. unfold sample_kpi_records in Hr. simpl in Hr.
      destruct Hr as [<-|[]]. exact I.
Defined.

(** C7, as stated, fails for the KPI metadata: a row with [reportPropery]
    "net_income" keeps the misspelt column and the underscore; the table
    is indexed by [kpiId]. *)
Lemma kpi_metadata_counterexample :
  outcome_of (get_kpi_metadata (serving sample_kpi_metadata) fresh_session (world0 0))
  = Ret (RFrame {| index_names := ["kpiId"];
                   columns := [CStr "reportPropery"];
                   rows := [([CNum 1], [CStr "net_income"])] |})
  /\ forall df,
       outcome_of (get_kpi_metadata (serving sample_kpi_metadata)
                     fresh_session (world0 0)) = Ret (RFrame df) ->
       ~ property_indexed sample_kpi_records df.
Proof.
  split; [vm_compute; reflexivity|].
  intros df H. vm_compute in H. inversion H; subst.
  intros [Hidx _ _ _]. discriminate Hidx.
Qed.

(* ------------------------------------------------------------------ *)
(** ** KPI summary *)

(** C6.  What the code returns for a KPI summary: the pivot, with its rows
    in ascending order of (year, period).  After [pivot_table] the names
    [year] and [period] are index levels, not columns, so the call of
    [_set_index] with [ascending=False] returns at once.  On the example of
    the specification (one period) the table is as the claim says. *)
Theorem kpi_summary_rows_ascending :
  outcome_of (get_kpi_summary (serving summary_two_periods)
                (PInt 3) (PStr "year") PNone fresh_session (world0 0))
  = Ret (RFrame {| index_names := ["year"; "period"];
                   columns := [CNum 10];
                   rows := [([CNum 2019; CNum 1], [CNum 1]);
                            ([CNum 2020; CNum 1], [CNum 5])] |})
  /\ outcome_of (get_kpi_summary (serving summary_one_period)
                   (PInt 3) (PStr "year") PNone fresh_session (world0 0))
     = Ret (RFrame {| index_names := ["year"; "period"];
                      columns := [CNum 10; CNum 11];
                      rows := [([CNum 2020; CNum 1], [CNum 5; CNum 7])] |}).
Proof. split; vm_compute; reflexivity. Qed.

Lemma set_index_absent_noop_witness :
  absent (Many ["year"; "period"]) sample_frame
  /\ _set_index sample_frame (Many ["year"; "period"]) false = Ret sample_frame.
Proof.
  assert (H : absent (Many ["year"; "period"]) sample_frame).
  { exists "period". split; [simpl; tauto | reflexivity]. }
  split; [exact H|].
  exact (set_index_absent_noop sample_frame (Many ["year"; "period"]) false H).
Defined.

(* ------------------------------------------------------------------ *)
(** * Further properties of the client *)

(** ** [_call_api] *)

(** Whatever the answer, [_call_api] has sent exactly one request and has
    stamped the session with the clock.  Any status other than 200, also
    another 2xx, makes it print the error line and hand back the response
    object; status 200 hands back the decoded body, or raises
    [JSONDecodeError] when the body is no JSON document. *)
Theorem call_api_outcomes (E : Env) (url : string) (kw : kwargs) (s : Session) (w : World) :
  _api_calls_per_second s <> 0%Z ->
  well_typed kw ->
  let r := response_to E s w url kw in
  let x := _call_api E url kw s w in
  length (wire (world_of x)) = S (length (wire w))
  /\ _last_api_call (session_of x) = clock (world_of x)
  /\ (status_code r <> 200%Z ->
      outcome_of x = Ret (Resp r)
      /\ In (OutStr ("API-Error, status code: " ++ str_of_Z (status_code r))%string)
            (stdout (world_of x)))
  /\ (status_code r = 200%Z ->
      outcome_of x = match resp_json r with
                     | Some j => Ret (Json j)
                     | None => Raise JSONDecodeError
                     end).
Proof.
  intros Hcps Hty. cbv zeta. rewrite call_api_run by assumption.
  unfold outcome_of, session_of, world_of, after_call, answer, api_error_lines.
  cbn [fst snd wire stdout clock stamp _last_api_call].
  split; [rewrite length_app; simpl; lia|]. split; [reflexivity|]. split.
  - intros Hst. destruct (Z.eqb_spec (status_code (response_to E s w url kw)) 200);
      [contradiction|]. simpl. split; [reflexivity|].
    rewrite !in_app_iff. right. right. right. now left.
  - intros ->. reflexivity.
Qed.

Lemma call_api_outcomes_witness :
  outcome_of (_call_api (quiet_env {| status_code := 204; resp_text := "";
                                      resp_json := None |})
                "branches" [] fresh_session (world0 0))
  = Ret (Resp {| status_code := 204; resp_text := ""; resp_json := None |})
  /\ length (wire (world_of (_call_api (quiet_env {| status_code := 204;
                                                    resp_text := "";
                                                    resp_json := None |})
                              "branches" [] fresh_session (world0 0)))) = 1%nat.
Proof.
  assert (Hcps : _api_calls_per_second fresh_session <> 0%Z) by discriminate.
  assert (Hty : well_typed []) by (intros v []).
  destruct (call_api_outcomes
              (quiet_env {| status_code := 204; resp_text := ""; resp_json := None |})
              "branches" [] fresh_session (world0 0) Hcps Hty)
    as (Hlen & _ & Hbad & _).
  split; [|exact Hlen].
  apply Hbad. discriminate.
Defined.

(** ** [_get_params] *)

Lemma get_params_loop_app (kw1 kw2 : kwargs) :
  forall (params : dict pyval) (s : Session) (w : World),
    get_params_loop (kw1 ++ kw2) params s w
    = bind (get_params_loop kw1 params) (get_params_loop kw2) s w.
Proof.
  induction kw1 as [|kv kw1 IH]; intros params s w; [reflexivity|].
  cbn [app get_params_loop]. unfold bind.
  destruct (get_params_step params kv s w) as [[[p| |] s1] w1]; auto.
Qed.

Lemma get_params_step_int (params : dict pyval) (n : Z) (s : Session) (w : World) :
  get_params_step params ("instList", PInt n) s w = (Raise TypeError, s, w).
Proof. reflexivity. Qed.

Lemma call_api_bad_run (E : Env) (url : string) (kw1 kw2 : kwargs) (n : Z)
      (s : Session) (w : World) :
  _api_calls_per_second s <> 0%Z ->
  well_typed kw1 ->
  _call_api E url (kw1 ++ ("instList", PInt n) :: kw2) s w
  = (Raise TypeError, s,
     say {| clock := throttle_until s w; wire := wire w; stdout := stdout w |}
         (diagnostics kw1)).
Proof.
  intros Hcps Hty.
  unfold _call_api, throttle_until.
  unfold bind at 1. unfold time_time at 1.
  unfold bind at 1. unfold self at 1.
  destruct (Z.eqb_spec (_api_calls_per_second s) 0) as [H0|_]; [contradiction|].
  unfold bind at 1.
  destruct (Qlt_le_dec (clock w - _last_api_call s)
                       (1 / inject_Z (_api_calls_per_second s))) as [Hlt|Hge].
  - unfold time_sleep. unfold bind at 1.
    unfold _get_params. unfold bind at 1, self at 1.
    rewrite get_params_loop_app. unfold bind at 1.
    rewrite get_params_loop_run by assumption.
    cbn [get_params_loop]. unfold bind at 1.
    rewrite get_params_step_int. reflexivity.
  - unfold ret at 1. unfold bind at 1.
    unfold _get_params. unfold bind at 1, self at 1.
    rewrite get_params_loop_app. unfold bind at 1.
    rewrite get_params_loop_run by assumption.
    cbn [get_params_loop]. unfold bind at 1.
    rewrite get_params_step_int. destruct w; reflexivity.
Qed.

(** An [instList] that is an integer cannot be iterated: [_call_api] raises
    [TypeError] after it has waited, sends no request and leaves the
    session, timestamp included, as it was. *)
Theorem call_api_bad_instList (E : Env) (url : string) (kw1 kw2 : kwargs) (n : Z)
        (s : Session) (w : World) :
  _api_calls_per_second s <> 0%Z ->
  well_typed kw1 ->
  let x := _call_api E url (kw1 ++ ("instList", PInt n) :: kw2) s w in
  outcome_of x = Raise TypeError
  /\ session_of x = s
  /\ wire (world_of x) = wire w
  /\ clock (world_of x) = throttle_until s w.
Proof.
  intros Hcps Hty. cbv zeta.
  rewrite call_api_bad_run by assumption. repeat split.
Qed.

Lemma call_api_bad_instList_witness :
  let x := _call_api (quiet_env not_found) "instruments/description"
             ([] ++ [("instList", PInt 3)]) fresh_session (world0 0) in
  outcome_of x = Raise TypeError /\ session_of x = fresh_session /\ wire (world_of x) = [].
Proof.
  assert (Hcps : _api_calls_per_second fresh_session <> 0%Z) by discriminate.
  assert (Hty : well_typed []) by (intros v []).
  destruct (call_api_bad_instList (quiet_env not_found) "instruments/description"
              [] [] 3 fresh_session (world0 0) Hcps Hty) as (H1 & H2 & H3 & _).
  cbv zeta. split; [exact H1|]. split; [exact H2|exact H3].
Defined.

Lemma local_get_params_step (params : dict pyval) (kv : string * pyval) :
  local (get_params_step params kv).
Proof.
  destruct kv as [key value]. unfold get_params_step.
  destruct (is_None value); [apply local_ret|].
  destruct (key =? "from_date")%string; [apply local_ret|].
  destruct ((key =? "to") || (key =? "date"))%string; [apply local_ret|].
  destruct (key =? "instList")%string; local_steps.
Qed.

Lemma local_get_params_loop (kw : kwargs) :
  forall params, local (get_params_loop kw params).
Proof.
  induction kw as [|kv kw IH]; intros params; simpl.
  - apply local_ret.
  - apply local_bind; auto. apply local_get_params_step.
Qed.

(** Whatever the keyword arguments, also ill-typed ones, [_get_params]
    changes nothing of the session (the base parameters are copied, not
    updated), sends nothing and lets no time pass; it only prints. *)
Theorem get_params_frame (kw : kwargs) (s : Session) (w : World) :
  let x := _get_params kw s w in
  session_of x = s
  /\ clock (world_of x) = clock w
  /\ wire (world_of x) = wire w
  /\ exists lines, stdout (world_of x) = stdout w ++ lines.
Proof.
  cbv zeta.
  assert (H : local (_get_params kw)).
  { unfold _get_params. apply local_bind.
    - intros s0 w0. exists []. now rewrite say_nil.
    - intros s0. apply local_get_params_loop. }
  destruct (H s w) as (lines & Hs & Hw). rewrite Hs, Hw.
  repeat split. now exists lines.
Qed.

(** Keyword arguments that are all [None] are all omitted: the result is the
    base parameter set itself and nothing is printed, whatever the keys. *)
Theorem get_params_all_None (kw : kwargs) (s : Session) (w : World) :
  all_None kw ->
  _get_params kw s w = (Ret (_params s), s, w).
Proof.
  intros Hnone. unfold _get_params, bind, self.
  generalize (_params s) as params.
  induction kw as [|[k v] kw IH]; intros params; [reflexivity|].
  assert (Hv : v = PNone) by (apply (Hnone k); now left). subst v.
  cbn [get_params_loop]. unfold bind, get_params_step. cbn [is_None ret].
  apply IH. intros k' v' Hin. apply (Hnone k'). now right.
Qed.

Lemma get_params_all_None_witness :
  _get_params [("from_date", PNone); ("to", PNone); ("limit", PNone)]
              fresh_session (world0 0)
  = (Ret (_params fresh_session), fresh_session, world0 0).
Proof.
  apply get_params_all_None.
  intros k v Hin. simpl in Hin.
  repeat (destruct Hin as [Hin|Hin]; [now inversion Hin|]). destruct Hin.
Defined.

Lemma override_keys (params : dict pyval) (kv : string * pyval) :
  exists extra,
    Dict.keys (override params kv) = Dict.keys params ++ extra
    /\ incl extra server_keys.
Proof.
  destruct kv as [k v]. unfold override.
  assert (Hnil : exists extra, Dict.keys params = Dict.keys params ++ extra
                               /\ incl extra server_keys).
  { exists []. rewrite app_nil_r. split; auto. intros a []. }
  assert (Hset : forall k' v', In k' server_keys ->
             exists extra, Dict.keys (Dict.set k' v' params) = Dict.keys params ++ extra
                           /\ incl extra server_keys).
  { intros k' v' Hk'. rewrite dict_keys_set. destruct (Dict.mem k' params); auto.
    exists [k']. split; auto. intros a [<-|[]]. exact Hk'. }
  destruct (is_None v); auto.
  destruct (String.eqb_spec k "from_date") as [->|_].
  { apply Hset. simpl. tauto. }
  destruct (String.eqb_spec k "to") as [->|_]; simpl.
  { apply Hset. simpl. tauto. }
  destruct (String.eqb_spec k "date") as [->|_]; simpl.
  { apply Hset. simpl. tauto. }
  destruct (String.eqb_spec k "instList") as [->|_]; simpl; auto.
  apply Hset. simpl. tauto.
Qed.

Lemma overrides_keys (kw : kwargs) :
  forall params, exists extra,
    Dict.keys (fold_left override kw params) = Dict.keys params ++ extra
    /\ incl extra server_keys.
Proof.
  induction kw as [|kv kw IH]; intros params; simpl.
  - exists []. rewrite app_nil_r. split; auto. intros a [].
  - destruct (override_keys params kv) as (e1 & H1 & I1).
    destruct (IH (override params kv)) as (e2 & H2 & I2).
    exists (e1 ++ e2). rewrite H2, H1, app_assoc. split; auto.
    now apply incl_app.
Qed.

(** The built parameters keep the base parameters first, in their order;
    the keys added after them are among [from], [to], [date] and
    [instList]. *)
Theorem get_params_keys (kw : kwargs) (s : Session) (w : World) :
  well_typed kw ->
  exists params extra,
    outcome_of (_get_params kw s w) = Ret params
    /\ Dict.keys params = Dict.keys (_params s) ++ extra
    /\ incl extra server_keys.
Proof.
  intros Hty. rewrite get_params_run by assumption.
  destruct (overrides_keys kw (_params s)) as (extra & Hk & Hi).
  exists (fold_left override kw (_params s)), extra. auto.
Qed.

Lemma get_params_keys_witness :
  exists params extra,
    outcome_of (_get_params sample_kwargs fresh_session (world0 0)) = Ret params
    /\ Dict.keys params = ["authKey"; "maxYearCount"; "maxR12QCount"; "maxCount"] ++ extra
    /\ incl extra server_keys.
Proof.
  exact (get_params_keys sample_kwargs fresh_session (world0 0) sample_kwargs_well_typed).
Defined.

(** ** [_set_index] and [_parse_date] *)

Lemma set_then_sort (keys : list string) (ascending : bool) (df df' : DataFrame) :
  obind (set_index keys df) (sort_index ascending) = Ret df' ->
  exists ps,
    omap (locate (columns df)) keys = Ret ps
    /\ index_names df' = keys
    /\ columns df' = drop_at ps (columns df)
    /\ Permutation (rows df') (rekeyed ps df)
    /\ Sorted (row_le ascending) (rows df').
Proof.
  unfold set_index. destruct (omap (locate (columns df)) keys) as [ps| |];
    simpl; try discriminate.
  destruct keys as [|k keys]; simpl; try discriminate.
  unfold sort_index. cbn [rows index_names columns].
  destruct (negb (comparable _ _)); try discriminate.
  destruct (_ && _); try discriminate.
  intros [= <-]. exists ps. cbn [rows index_names columns].
  repeat split; auto using sort_rows_perm, sort_rows_sorted.
Qed.

(** When every declared index column is there and [_set_index] returns, the
    frame is indexed by exactly the declared columns: they left the
    columns, each row kept its cells, no row was lost or added, and the
    rows are in the order of the index, in the direction asked for. *)
Theorem set_index_present (df df' : DataFrame) (index : index_spec) (ascending : bool) :
  present index df ->
  _set_index df index ascending = Ret df' ->
  exists ps,
    omap (locate (columns df)) (declared index) = Ret ps
    /\ index_names df' = declared index
    /\ columns df' = drop_at ps (columns df)
    /\ Permutation (rows df') (rekeyed ps df)
    /\ Sorted (row_le ascending) (rows df').
Proof.
  intros Hpresent. destruct index as [name|names]; unfold _set_index; simpl declared.
  - rewrite (Hpresent name) by (simpl; auto). apply set_then_sort.
  - replace (forallb (fun idx => has_label (CStr idx) (columns df)) names) with true.
    + apply set_then_sort.
    + symmetry. apply forallb_forall. intros n Hn. now apply Hpresent.
Qed.

Lemma set_index_present_witness :
  exists df',
    _set_index sample_frame (One "year") true = Ret df'
    /\ index_names df' = ["year"]
    /\ columns df' = [CStr "kpiValue"]
    /\ rows df' = [([CNum 2019], [CNum 1]); ([CNum 2020], [CNum 5])].
Proof.
  assert (Hp : present (One "year") sample_frame).
  { intros name [<-|[]]. reflexivity. }
  assert (Hrun : _set_index sample_frame (One "year") true
                 = Ret {| index_names := ["year"]; columns := [CStr "kpiValue"];
                          rows := [([CNum 2019], [CNum 1]); ([CNum 2020], [CNum 5])] |})
    by (vm_compute; reflexivity).
  destruct (set_index_present sample_frame _ (One "year") true Hp Hrun)
    as (ps & _ & Hidx & _).
  eexists. split; [exact Hrun|]. split; [exact Hidx|]. split; reflexivity.
Defined.

Lemma map_at_inv (f : cell -> outcome cell) (v : list cell) :
  forall i v',
    map_at f i v = Ret v' ->
    length v' = length v
    /\ (forall j, j <> i -> nth j v' NA = nth j v NA)
    /\ ((i < length v)%nat -> f (nth i v NA) = Ret (nth i v' NA)).
Proof.
  induction v as [|c v IH]; intros i v'.
  - destruct i; simpl; intros [= <-]; repeat split; auto; simpl; lia.
  - destruct i as [|i]; simpl.
    + destruct (f c) as [c'| |] eqn:Hc; simpl; try discriminate.
      intros [= <-]. repeat split; auto.
      intros [|j] Hj; simpl; congruence.
    + destruct (map_at f i v) as [v0| |] eqn:Hv; simpl; try discriminate.
      intros [= <-]. destruct (IH i v0 Hv) as (Hlen & Hother & Hat).
      simpl. repeat split; auto.
      * intros [|j] Hj; simpl; auto.
      * intros Hlt. apply Hat. lia.
Qed.

Lemma omap_Forall2 {A B} (f : A -> outcome B) (l : list A) :
  forall l', omap f l = Ret l' -> Forall2 (fun a b => f a = Ret b) l l'.
Proof.
  induction l as [|a l IH]; simpl; intros l'.
  - intros [= <-]. constructor.
  - destruct (f a) as [b| |] eqn:Ha; simpl; try discriminate.
    destruct (omap f l) as [bs| |] eqn:Hl; simpl; try discriminate.
    intros [= <-]. constructor; auto.
Qed.

Lemma convert_is_date (conv : cell -> option Z) (c c' : cell) :
  convert conv c = Ret c' -> is_date c'.
Proof.
  unfold convert. destruct c; try (intros [= <-]; exact I);
    destruct (conv _); intros [= <-]; exact I.
Qed.

(** Whenever [_parse_date] returns, the frame has the same index, the same
    columns and the same rows but for the cells of the column [key], which
    are dates or missing; without such a column the frame is returned as it
    was. *)
Theorem parse_date_shape (conv : cell -> option Z) (df df' : DataFrame) (key : string) :
  _parse_date conv df key = Ret df' ->
  index_names df' = index_names df
  /\ columns df' = columns df
  /\ (has_label (CStr key) (columns df) = false -> df' = df)
  /\ (forall i, position (CStr key) (columns df) = Some i ->
        Forall2 (fun r r' => same_but i r r'
                             /\ ((i < length (snd r))%nat -> is_date (nth i (snd r') NA)))
                (rows df) (rows df')).
Proof.
  unfold _parse_date. rewrite has_label_position.
  destruct (position (CStr key) (columns df)) as [i|] eqn:Hpos.
  - unfold map_column.
    destruct (omap _ (rows df)) as [rs| |] eqn:Hrows; simpl; try discriminate.
    intros [= <-]. cbn [index_names columns rows].
    repeat split; auto; try discriminate.
    intros i' [= <-]. apply omap_Forall2 in Hrows.
    eapply Forall2_impl; [|exact Hrows]. intros r r' Hr. cbv beta in Hr.
    destruct (map_at (convert conv) i (snd r)) as [v| |] eqn:Hv; simpl in Hr;
      try discriminate.
    injection Hr as <-. destruct (map_at_inv _ _ _ _ Hv) as (Hlen & Hother & Hat).
    unfold same_but. cbn [fst snd]. repeat split; auto.
    intros Hlt. eapply convert_is_date. now apply Hat.
  - intros [= <-]. repeat split; auto. discriminate.
Qed.





Lemma parse_date_shape_witness :
  exists df',
    _parse_date iso_day mixed_frame "date" = Ret df'
    /\ columns df' = columns mixed_frame
    /\ rows df' = [([], [CTime 20200924; CNum 10]); ([], [NA; CNum 11]);
                   ([], [CTime 20200925; CNum 12])].
Proof.
  assert (Hrun : _parse_date iso_day mixed_frame "date"
                 = Ret {| index_names := []; columns := [CStr "date"; CStr "close"];
                          rows := [([], [CTime 20200924; CNum 10]); ([], [NA; CNum 11]);
                                   ([], [CTime 20200925; CNum 12])] |})
    by (vm_compute; reflexivity).
  destruct (parse_date_shape iso_day mixed_frame _ "date" Hrun) as (_ & Hcols & _).
  eexists. split; [exact Hrun|]. split; [exact Hcols|reflexivity].
Defined.

(** ** Waiting *)

(** [_call_api] waits no longer than needed: when at least 1/10 second has
    passed since the timestamp of the session it does not sleep, and the
    request leaves at once; otherwise it sleeps just until 1/10 second
    after the timestamp. *)
Theorem call_api_waits (E : Env) (url : string) (kw : kwargs) (s : Session) (w : World) :
  _api_calls_per_second s = 10%Z ->
  well_typed kw ->
  exists t r,
    wire (world_of (_call_api E url kw s w)) = wire w ++ [(t, r)]
    /\ (1 # 10 <= clock w - _last_api_call s ->
        t = clock w + jitter E (length (wire w)))
    /\ (clock w - _last_api_call s < 1 # 10 ->
        t == _last_api_call s + (1 # 10) + jitter E (length (wire w))).
Proof.
  intros Hrate Hty.
  assert (Hcps : _api_calls_per_second s <> 0%Z) by (rewrite Hrate; discriminate).
  rewrite call_api_run by assumption.
  exists (request_start E s w), (request_for s url kw).
  split; [reflexivity|].
  unfold request_start, throttle_until. rewrite Hrate.
  change (1 / inject_Z 10) with (1 # 10).
  destruct (Qlt_le_dec (clock w - _last_api_call s) (1 # 10)) as [Hlt|Hge]; split.
  - intros H. exfalso. apply (Qlt_not_le _ _ Hlt H).
  - intros _. lra.
  - reflexivity.
  - intros H. exfalso. apply (Qlt_not_le _ _ H Hge).
Qed.

Lemma call_api_waits_witness :
  exists t r,
    wire (world_of (_call_api (quiet_env not_found) "branches" []
                      fresh_session (world0 5))) = [(t, r)]
    /\ t = 5 + 0.
Proof.
  assert (Hty : well_typed []) by (intros v []).
  destruct (call_api_waits (quiet_env not_found) "branches" [] fresh_session (world0 5)
              eq_refl Hty) as (t & r & Hw & Hnow & _).
  exists t, r. split; [exact Hw|]. apply Hnow. simpl. lra.
Defined.

(** ** The operations, one by one *)

(** A batch of descriptions over the limit returns [None] and touches
    nothing.  Every other operation sends exactly one request, to the root
    URL followed by the path of the operation, with the parameters built
    from its keyword arguments, and leaves the clock as the timestamp of
    the session, whatever comes back and whatever it raises afterwards. *)
Theorem operations_send_one_request (E : Env) (o : op) (s : Session) (w : World) :
  _api_calls_per_second s <> 0%Z ->
  let x := run_op E o s w in
  (rejected o = true -> x = (Ret RNone, s, w))
  /\ (rejected o = false ->
      exists t params,
        wire (world_of x)
        = wire w ++ [(t, {| req_url := (_url_root s ++ op_url o)%string;
                            req_params := params |})]
        /\ outcome_of (_get_params (op_kwargs o) (prepared o s) w) = Ret params
        /\ _last_api_call (session_of x) = clock (world_of x)).
Proof.
  intros Hcps. cbv zeta. pose proof (op_run E o s w Hcps) as H.
  destruct (rejected o); split; try discriminate; auto.
  intros _. cbv zeta in H. destruct H as (Hs & Hc & Hw & _).
  exists (request_start E (prepared o s) w),
         (fold_left override (op_kwargs o) (_params (prepared o s))).
  split; [|split].
  - rewrite Hw. unfold request_for.
    replace (_url_root (prepared o s)) with (_url_root s); [reflexivity|].
    destruct o; simpl; auto; destruct (negb (is_None max_count)); auto.
  - rewrite get_params_run by apply op_kwargs_well_typed. reflexivity.
  - rewrite Hs, Hc. reflexivity.
Qed.

Lemma operations_send_one_request_witness :
  exists t params,
    wire (world_of (run_op (quiet_env not_found) (GetStockPricesDate (PStr "2020-09-25"))
                      fresh_session (world0 0)))
    = [(t, {| req_url := "https://apiservice.borsdata.se/v1/instruments/stockprices/date";
              req_params := params |})]
    /\ outcome_of (_get_params [("date", PStr "2020-09-25")] fresh_session (world0 0))
       = Ret params.
Proof.
  assert (Hcps : _api_calls_per_second fresh_session <> 0%Z) by discriminate.
  destruct (operations_send_one_request (quiet_env not_found)
              (GetStockPricesDate (PStr "2020-09-25")) fresh_session (world0 0) Hcps)
    as (_ & H).
  destruct (H eq_refl) as (t & params & Hw & Hp & _).
  exists t, params. split; [exact Hw|exact Hp].
Defined.

(** No operation changes the API key, the root URL or the rate of the
    session; the base parameters change only where [get_kpi_summary] or
    [get_instrument_report] is given a [max_count], and then only in their
    [maxCount] entry. *)
Theorem operations_frame (E : Env) (o : op) (s : Session) (w : World) :
  _api_calls_per_second s <> 0%Z ->
  let s' := session_of (run_op E o s w) in
  _api_key s' = _api_key s
  /\ _url_root s' = _url_root s
  /\ _api_calls_per_second s' = _api_calls_per_second s
  /\ _params s' = match own_max_count o with
                  | Some v => Dict.set "maxCount" v (_params s)
                  | None => _params s
                  end.
Proof.
  intros Hcps. destruct (op_frame E o s w Hcps) as (H1 & H2 & H3 & H4).
  cbv zeta in *. repeat split; auto. rewrite H4.
  destruct o; simpl; auto;
    try (destruct (negb (is_None max_count)); reflexivity).
  now destruct (50 <? length ins_ids)%nat.
Qed.

Lemma operations_frame_witness :
  _params (session_of (run_op (quiet_env not_found)
                         (GetKpiHistory (PInt 3) (PInt 10) (PStr "year") (PStr "mean")
                                        (PInt 5))
                         fresh_session (world0 0)))
  = _params fresh_session.
Proof.
  assert (Hcps : _api_calls_per_second fresh_session <> 0%Z) by discriminate.
  destruct (operations_frame (quiet_env not_found)
              (GetKpiHistory (PInt 3) (PInt 10) (PStr "year") (PStr "mean") (PInt 5))
              fresh_session (world0 0) Hcps) as (_ & _ & _ & H).
  exact H.
Defined.

Ltac reach_json Hcps Hst Hj :=
  match goal with
  | |- context [bind (_call_api ?E ?url ?kw) ?k ?s ?w] =>
      let Hty := fresh "Hty" in
      assert (Hty : well_typed kw) by well_typed_literal;
      rewrite (bind_call_api_json E url kw k s w _ Hcps Hty Hst Hj)
  end.

Ltac unfold_operation :=
  unfold get_branches, get_countries, get_markets, get_sectors,
    get_translation_metadata, get_instruments, get_instruments_updated,
    get_instrument_descriptions, get_kpi_history, get_kpi_summary,
    get_kpi_data_instrument, get_kpi_data_all_instruments,
    get_updated_kpis, get_kpi_metadata, get_instrument_report,
    get_instrument_reports,
    get_instrument_report_list, get_reports_metadata, get_report_calendar,
    get_instrument_stock_prices, get_instrument_stock_prices_list,
    get_instruments_stock_prices_last, get_stock_prices_date,
    get_stock_splits;
  cbv zeta.


(** What is left of an operation once the API has answered 200 with the
    document [j]: the goal is brought to the continuation applied to [j]. *)
Ltac answered Hcps Hrej Hst Hj :=
  cbn [run_op rejected prepared op_url op_kwargs op_envelope] in *;
  unfold_operation;
  try (rewrite Hrej);
  try (unfold bind at 1; unfold _get_base_params at 1;
       unfold bind at 1, self at 1, ret at 1);
  try (match goal with
       | |- context [negb (is_None ?m)] =>
           unfold bind at 1;
           destruct (negb (is_None m)); unfold set_param, ret at 1
       end);
  reach_json Hcps Hst Hj.

Lemma envelope_cases (E : Env) (o : op) (s : Session) (w : World) (j : json) :
  _api_calls_per_second s <> 0%Z ->
  rejected o = false ->
  status_code (response_to E (prepared o s) w (op_url o) (op_kwargs o)) = 200%Z ->
  resp_json (response_to E (prepared o s) w (op_url o) (op_kwargs o)) = Some j ->
  outcome_of (run_op E o s w)
  = match j with
    | JObj fields =>
        match Dict.get (op_envelope o) fields with
        | None => Raise (KeyError (op_envelope o))
        | Some _ => outcome_of (run_op E o s w)
        end
    | _ => Raise TypeError
    end.
Proof.
  intros Hcps Hrej Hst Hj.
  destruct j as [| | | | |fields];
    try (destruct o; answered Hcps Hrej Hst Hj;
         unfold outcome_of;
         try (unfold bind at 1, print at 1);
         rewrite ?bind_lift; reflexivity).
  destruct (Dict.get (op_envelope o) fields) eqn:Hget; [reflexivity|].
  destruct o; answered Hcps Hrej Hst Hj;
    unfold outcome_of;
    try (unfold bind at 1, print at 1);
    rewrite ?bind_lift; cbn [report_frames subscript obind];
    rewrite Hget; reflexivity.
Qed.

(** When the decoded document is an object without the key the operation
    reads first, the operation raises [KeyError] for that key; when the
    document is no object at all (an array, a string, a number, null), it
    raises [TypeError]. *)
Theorem missing_envelope (E : Env) (o : op) (s : Session) (w : World) (j : json) :
  _api_calls_per_second s <> 0%Z ->
  rejected o = false ->
  status_code (response_to E (prepared o s) w (op_url o) (op_kwargs o)) = 200%Z ->
  resp_json (response_to E (prepared o s) w (op_url o) (op_kwargs o)) = Some j ->
  (forall fields, j = JObj fields -> Dict.get (op_envelope o) fields = None ->
                  outcome_of (run_op E o s w) = Raise (KeyError (op_envelope o)))
  /\ ((forall fields, j <> JObj fields) ->
      outcome_of (run_op E o s w) = Raise TypeError).
Proof.
  intros Hcps Hrej Hst Hj.
  pose proof (envelope_cases E o s w j Hcps Hrej Hst Hj) as H.
  split.
  - intros fields -> Hget. rewrite Hget in H. exact H.
  - intros Hno. destruct j; auto. exfalso. now apply (Hno fields).
Qed.

Lemma missing_envelope_witness :
  outcome_of (get_branches (serving (JObj [("countries", JArr [])]))
                fresh_session (world0 0))
  = Raise (KeyError "branches")
  /\ outcome_of (get_branches (serving (JArr [])) fresh_session (world0 0))
     = Raise TypeError.
Proof.
  assert (Hcps : _api_calls_per_second fresh_session <> 0%Z) by discriminate.
  split.
  - destruct (missing_envelope (serving (JObj [("countries", JArr [])])) GetBranches
                fresh_session (world0 0) (JObj [("countries", JArr [])])
                Hcps eq_refl eq_refl eq_refl) as (H & _).
    exact (H [("countries", JArr [])] eq_refl eq_refl).
  - destruct (missing_envelope (serving (JArr [])) GetBranches
                fresh_session (world0 0) (JArr [])
                Hcps eq_refl eq_refl eq_refl) as (_ & H).
    apply H. discriminate.
Defined.

(** An empty array under the envelope key is no error for the operations
    that hand back one table of it: they return the empty frame, without
    columns and without an index. *)
Theorem empty_payload_empty_frame (E : Env) (o : op) (s : Session) (w : World)
        (fields : list (string * json)) :
  _api_calls_per_second s <> 0%Z ->
  tabular o = true ->
  rejected o = false ->
  status_code (response_to E (prepared o s) w (op_url o) (op_kwargs o)) = 200%Z ->
  resp_json (response_to E (prepared o s) w (op_url o) (op_kwargs o))
  = Some (JObj fields) ->
  Dict.get (op_envelope o) fields = Some (JArr []) ->
  outcome_of (run_op E o s w) = Ret (RFrame empty_frame).
Proof.
  intros Hcps Htab Hrej Hst Hj Hget.
  destruct o; try discriminate Htab; answered Hcps Hrej Hst Hj;
    unfold outcome_of;
    try (unfold bind at 1, print at 1);
    rewrite ?bind_lift; cbn [subscript];
    rewrite Hget; try (unfold bind at 1, print at 1); reflexivity.
Qed.

Lemma empty_payload_empty_frame_witness :
  outcome_of (get_instrument_stock_prices (serving (empty_payload "stockPricesList"))
                (PInt 2) PNone PNone PNone fresh_session (world0 0))
  = Ret (RFrame empty_frame).
Proof.
  assert (Hcps : _api_calls_per_second fresh_session <> 0%Z) by discriminate.
  exact (empty_payload_empty_frame (serving (empty_payload "stockPricesList"))
           (GetInstrumentStockPrices (PInt 2) PNone PNone PNone)
           fresh_session (world0 0) [("stockPricesList", JArr [])]
           Hcps eq_refl eq_refl eq_refl eq_refl eq_refl).
Defined.

(** ** What the requests carry *)

(** The request for the prices of one instrument carries [from_date] under
    [from] and [to_date] under [to], each only when it is not [None]; every
    other parameter is the one of the session: [from_date] is never a key
    of the request, and [max_count] does not reach it. *)
Theorem stock_prices_request (E : Env) (ins_id from_date to_date max_count : pyval)
        (s : Session) (w : World) :
  _api_calls_per_second s <> 0%Z ->
  exists t r,
    wire (world_of (get_instrument_stock_prices E ins_id from_date to_date max_count s w))
    = wire w ++ [(t, r)]
    /\ req_url r = (_url_root s ++ "instruments/" ++ py_str ins_id ++ "/stockprices")%string
    /\ Dict.get "from" (req_params r)
       = (if is_None from_date then Dict.get "from" (_params s) else Some from_date)
    /\ Dict.get "to" (req_params r)
       = (if is_None to_date then Dict.get "to" (_params s) else Some to_date)
    /\ (forall k, k <> "from" -> k <> "to" -> k <> "date" -> k <> "instList" ->
                  Dict.get k (req_params r) = Dict.get k (_params s)).
Proof.
  intros Hcps.
  pose proof (op_run E (GetInstrumentStockPrices ins_id from_date to_date max_count)
                s w Hcps) as H.
  cbn [rejected run_op prepared op_url op_kwargs] in H. cbv zeta in H.
  destruct H as (_ & _ & Hw & _).
  eexists. eexists. split; [exact Hw|].
  unfold request_for. cbn [req_url req_params].
  destruct (overrides_get [("from_date", from_date); ("to", to_date)] (_params s))
    as (Hfrom & Htd & _ & Hother).
  cbv zeta in Hfrom, Htd, Hother. unfold overlay in Htd.
  split; [reflexivity|]. split; [|split].
  - rewrite Hfrom. cbn [given]. string_cases.
    destruct (is_None from_date); reflexivity.
  - rewrite (Htd "to") by auto. cbn [given]. string_cases.
    destruct (is_None to_date); reflexivity.
  - exact Hother.
Qed.

(** A batch of at most 50 ids passes the check of
    [get_instrument_descriptions]: one request is sent, with all the ids,
    in their order, joined by commas under [instList]. *)
Theorem descriptions_within_limit (E : Env) (ins_ids : list Z) (s : Session) (w : World) :
  _api_calls_per_second s <> 0%Z ->
  (length ins_ids <= 50)%nat ->
  exists t r,
    wire (world_of (get_instrument_descriptions E ins_ids s w)) = wire w ++ [(t, r)]
    /\ req_url r = (_url_root s ++ "instruments/description")%string
    /\ Dict.get "instList" (req_params r)
       = Some (PStr (String.concat "," (map str_of_Z ins_ids))).
Proof.
  intros Hcps Hlen.
  pose proof (op_run E (GetInstrumentDescriptions ins_ids) s w Hcps) as H.
  cbn [rejected run_op prepared op_url op_kwargs] in H.
  destruct (Nat.ltb_spec 50 (length ins_ids)) as [Hgt|_]; [lia|].
  cbv zeta in H. destruct H as (_ & _ & Hw & _).
  eexists. eexists. split; [exact Hw|].
  unfold request_for. cbn [req_url req_params fold_left override is_None].
  split; [reflexivity|]. string_cases. apply dict_get_set_eq.
Qed.

Lemma descriptions_within_limit_witness :
  length fifty_ids = 50%nat
  /\ exists t r,
       wire (world_of (get_instrument_descriptions (quiet_env not_found) fifty_ids
                         fresh_session (world0 0))) = [(t, r)]
       /\ req_url r = "https://apiservice.borsdata.se/v1/instruments/description".
Proof.
  assert (Hcps : _api_calls_per_second fresh_session <> 0%Z) by discriminate.
  assert (Hlen : (length fifty_ids <= 50)%nat) by (vm_compute; lia).
  destruct (descriptions_within_limit (quiet_env not_found) fifty_ids
              fresh_session (world0 0) Hcps Hlen) as (t & r & Hw & Hu & _).
  split; [reflexivity|]. exists t, r. split; [exact Hw|exact Hu].
Defined.

(** A [max_count] given to [get_kpi_summary] goes out with that very
    request and with the request of every operation called afterwards that
    writes no [max_count] of its own: their [maxCount] is the one given
    earlier, not 20. *)
Theorem max_count_reaches_later_requests
        (E : Env) (ins_id report_type : pyval) (n : Z) (o : op) (s : Session) (w : World) :
  _api_calls_per_second s <> 0%Z ->
  rejected o = false ->
  own_max_count o = None ->
  let x1 := get_kpi_summary E ins_id report_type (PInt n) s w in
  let x2 := run_op E o (session_of x1) (world_of x1) in
  exists t1 r1 t2 r2,
    wire (world_of x2) = wire w ++ [(t1, r1)] ++ [(t2, r2)]
    /\ Dict.get "maxCount" (req_params r1) = Some (PInt n)
    /\ Dict.get "maxCount" (req_params r2) = Some (PInt n).
Proof.
  intros Hcps Hrej Hown. cbv zeta.
  pose proof (op_run E (GetKpiSummary ins_id report_type (PInt n)) s w Hcps) as H1.
  cbn [rejected run_op] in H1. cbv zeta in H1. destruct H1 as (Hs1 & _ & Hw1 & _).
  set (x1 := get_kpi_summary E ins_id report_type (PInt n) s w) in *.
  set (s1 := prepared (GetKpiSummary ins_id report_type (PInt n)) s) in *.
  assert (Hp1 : Dict.get "maxCount" (_params s1) = Some (PInt n)).
  { subst s1. simpl. apply dict_get_set_eq. }
  assert (Hcps1 : _api_calls_per_second (session_of x1) <> 0%Z).
  { rewrite Hs1. subst s1. exact Hcps. }
  pose proof (op_run E o (session_of x1) (world_of x1) Hcps1) as H2.
  rewrite Hrej in H2. cbv zeta in H2. destruct H2 as (_ & _ & Hw2 & _).
  assert (Hprep : _params (prepared o (session_of x1)) = _params s1).
  { rewrite Hs1.
    destruct o; simpl in *; auto; destruct (negb (is_None max_count)); auto;
      discriminate. }
  do 4 eexists. split; [|split].
  - rewrite Hw2, Hw1, <- app_assoc. reflexivity.
  - unfold request_for. cbn [req_params op_kwargs fold_left]. exact Hp1.
  - unfold request_for. cbn [req_params].
    destruct (overrides_get (op_kwargs o) (_params (prepared o (session_of x1))))
      as (_ & _ & _ & Hother).
    cbv zeta in Hother. rewrite Hother by discriminate.
    now rewrite Hprep.
Qed.

Lemma max_count_reaches_later_requests_witness :
  exists t1 r1 t2 r2,
    wire (world_of (get_branches (quiet_env not_found)
                      (session_of (get_kpi_summary (quiet_env not_found) (PInt 3)
                                     (PStr "year") (PInt 5) fresh_session (world0 0)))
                      (world_of (get_kpi_summary (quiet_env not_found) (PInt 3)
                                   (PStr "year") (PInt 5) fresh_session (world0 0)))))
    = [] ++ [(t1, r1)] ++ [(t2, r2)]
    /\ Dict.get "maxCount" (req_params r1) = Some (PInt 5)
    /\ Dict.get "maxCount" (req_params r2) = Some (PInt 5).
Proof.
  assert (Hcps : _api_calls_per_second fresh_session <> 0%Z) by discriminate.
  exact (max_count_reaches_later_requests (quiet_env not_found) (PInt 3) (PStr "year") 5
           GetBranches fresh_session (world0 0) Hcps eq_refl eq_refl).
Defined.

Lemma stock_prices_request_witness :
  exists t r,
    wire (world_of (get_instrument_stock_prices (quiet_env not_found) (PInt 2)
                      (PStr "2022-01-01") PNone (PInt 7) fresh_session (world0 0)))
    = [(t, r)]
    /\ Dict.get "from" (req_params r) = Some (PStr "2022-01-01")
    /\ Dict.get "to" (req_params r) = None
    /\ Dict.get "maxCount" (req_params r) = Some (PInt 20)
    /\ Dict.get "from_date" (req_params r) = None.
Proof.
  assert (Hcps : _api_calls_per_second fresh_session <> 0%Z) by discriminate.
  destruct (stock_prices_request (quiet_env not_found) (PInt 2) (PStr "2022-01-01")
              PNone (PInt 7) fresh_session (world0 0) Hcps)
    as (t & r & Hw & _ & Hfrom & Hto & Hother).
  exists t, r. split; [exact Hw|]. split; [exact Hfrom|]. split; [exact Hto|].
  split; rewrite Hother by discriminate; reflexivity.
Defined.

(** ** Sequences of operations *)

Lemma prepared_last (o : op) (s : Session) :
  _last_api_call (prepared o s) = _last_api_call s.
Proof. destruct o; simpl; auto; destruct (negb (is_None max_count)); auto. Qed.

Lemma throttle_until_prepared (o : op) (s : Session) (w : World) :
  throttle_until (prepared o s) w = throttle_until s w.
Proof. unfold throttle_until. now rewrite prepared_rate, prepared_last. Qed.

Lemma sleep_then (E : Env) (d : Q) (o : op) (s : Session) (w : World) :
  (time_sleep d ;;; run_op E o) s w = run_op E o s (pause d w).
Proof. reflexivity. Qed.

Lemma invocation_keeps_throttled (E : Env) (i : invocation) (s : Session) (w : World) :
  physical E -> 0 <= before i -> throttled s w ->
  let x := (time_sleep (before i) ;;; run_op E (operation i)) s w in
  throttled (session_of x) (world_of x)
  /\ length (wire (world_of x)) = (length (wire w) + sent (operation i))%nat.
Proof.
  intros [Hj Hl] Hidle [Hrate Hsp Hpast]. cbv zeta.
  rewrite sleep_then.
  assert (Hcps : _api_calls_per_second s <> 0%Z) by (rewrite Hrate; discriminate).
  pose proof (op_run E (operation i) s (pause (before i) w) Hcps) as H.
  unfold sent. destruct (rejected (operation i)).
  - rewrite H. unfold session_of, world_of. simpl. split; [|lia].
    constructor; auto.
  - cbv zeta in H. destruct H as (Hs & Hc & Hw & _).
    set (x := run_op E (operation i) s (pause (before i) w)) in *.
    set (s1 := prepared (operation i) s) in *.
    assert (Hrate1 : _api_calls_per_second s1 = 10%Z)
      by (subst s1; now rewrite prepared_rate).
    pose proof (throttle_until_last s1 (pause (before i) w) Hrate1) as H2.
    pose proof (Hj (length (wire (pause (before i) w)))) as H3.
    pose proof (Hl (length (wire (pause (before i) w)))) as H4.
    assert (Hlast1 : _last_api_call s1 = _last_api_call s)
      by (subst s1; apply prepared_last).
    rewrite Hlast1 in H2. simpl in H3, H4.
    split.
    + constructor.
      * rewrite Hs. exact Hrate1.
      * unfold starts. rewrite Hw, map_app. simpl.
        apply spaced_snoc; auto.
        eapply Forall_impl; [|exact Hpast]. simpl. intros t Ht.
        unfold request_start. simpl. lra.
      * unfold starts. rewrite Hw, map_app, Hs. simpl.
        unfold request_end, request_start. simpl.
        apply Forall_app; split.
        -- eapply Forall_impl; [|exact Hpast]. simpl. intros t Ht. lra.
        -- constructor; [simpl; lra|constructor].
    + rewrite Hw, length_app. simpl. lia.
Qed.

Lemma run_ops_throttled (E : Env) (l : list invocation) :
  physical E -> Forall (fun i => 0 <= before i) l ->
  forall (s : Session) (w : World),
    throttled s w ->
    throttled (fst (run_ops E l s w)) (snd (run_ops E l s w))
    /\ length (wire (snd (run_ops E l s w))) = (length (wire w) + requests_of l)%nat.
Proof.
  intros HE. induction 1 as [|i l Hi Hl IH]; intros s w Hth.
  - simpl. split; [exact Hth|lia].
  - cbn [run_ops requests_of fold_right].
    destruct (invocation_keeps_throttled E i s w HE Hi Hth) as (Hth1 & Hlen1).
    cbv zeta in Hth1, Hlen1.
    destruct (IH _ _ Hth1) as (Hth2 & Hlen2).
    split; [exact Hth2|]. rewrite Hlen2, Hlen1. unfold requests_of. lia.
Qed.

(** For every sequence of operations on a session with 10 calls per second,
    whatever their arguments and whatever they return or raise: no two
    requests begin less than 1/10 second apart, and as many requests are
    sent as there are operations other than rejected batches. *)
Theorem operations_are_throttled (E : Env) (l : list invocation) (s : Session) (w : World) :
  physical E ->
  Forall (fun i => 0 <= before i) l ->
  _api_calls_per_second s = 10%Z ->
  wire w = [] ->
  spaced (1 # 10) (starts (snd (run_ops E l s w)))
  /\ length (wire (snd (run_ops E l s w))) = requests_of l.
Proof.
  intros HE Hl Hrate Hwire.
  assert (Hth : throttled s w).
  { constructor; auto; unfold starts; rewrite Hwire; simpl; constructor. }
  destruct (run_ops_throttled E l HE Hl s w Hth) as (Hth' & Hlen).
  split; [apply Hth'|]. now rewrite Hlen, Hwire.
Qed.

Lemma operations_are_throttled_witness :
  spaced (1 # 10) (starts (snd (run_ops (quiet_env not_found) two_ops
                                  fresh_session (world0 0))))
  /\ length (wire (snd (run_ops (quiet_env not_found) two_ops
                          fresh_session (world0 0)))) = 2%nat.
Proof.
  apply (operations_are_throttled (quiet_env not_found) two_ops fresh_session (world0 0)).
  - split; intros n; simpl; lra.
  - unfold two_ops. repeat constructor; simpl; lra.
  - reflexivity.
  - reflexivity.
Defined.

(** ** Tables of the operations *)

(** Without a [reportPropery] (or [reportProperty]) field in the payload,
    an empty payload included, [get_reports_metadata] raises [KeyError] for
    [reportProperty]: it reads that column unconditionally. *)
Theorem reports_metadata_without_property (E : Env) (s : Session) (w : World)
        (recs : list record) :
  _api_calls_per_second s <> 0%Z ->
  served E s w (op_url GetReportsMetadata) (op_kwargs GetReportsMetadata)
         "reportMetadatas" recs ->
  ~ In "reportPropery" (union_keys recs) ->
  ~ In "reportProperty" (union_keys recs) ->
  outcome_of (get_reports_metadata E s w) = Raise (KeyError "reportProperty").
Proof.
  intros Hcps Hserved Hno1 Hno2.
  unfold get_reports_metadata. cbv zeta.
  rewrite (served_continuation E _ _ "reportMetadatas" recs _ s w Hcps
             (op_kwargs_well_typed _) Hserved).
  rewrite bind_lift, frame_of_records_table.
  change [("reportPropery", "reportProperty")] with metadata_names.
  rewrite (rename_table metadata_names (union_keys recs) field recs
             (union_keys_NoDup recs) metadata_names_targets).
  2:{ intros k Hk [<-|[]]. contradiction. }
  rewrite bind_lift. unfold apply_replace. cbn [table_of columns].
  rewrite position_strings.
  replace (find_key "reportProperty" (map (rn metadata_names) (union_keys recs)))
    with (@None nat); [reflexivity|].
  symmetry. apply find_key_None. intros Hin. apply in_map_iff in Hin.
  destruct Hin as (k & Hk & Hin). unfold rn, metadata_names in Hk. simpl in Hk.
  destruct (String.eqb_spec k "reportPropery") as [Heq|_].
  - subst k. contradiction.
  - subst k. contradiction.
Qed.

Lemma reports_metadata_without_property_witness :
  outcome_of (get_reports_metadata (serving (empty_payload "reportMetadatas"))
                fresh_session (world0 0))
  = Raise (KeyError "reportProperty").
Proof.
  assert (Hcps : _api_calls_per_second fresh_session <> 0%Z) by discriminate.
  apply (reports_metadata_without_property (serving (empty_payload "reportMetadatas"))
           fresh_session (world0 0) [] Hcps).
  - split; [reflexivity|]. eexists; eexists. repeat split; reflexivity.
  - simpl. tauto.
  - simpl. tauto.
Defined.

Lemma bind_Ret_inv {A B} (m : M A) (k : A -> M B) (s : Session) (w : World) (b : B) :
  outcome_of (bind m k s w) = Ret b ->
  exists a s' w', m s w = (Ret a, s', w') /\ outcome_of (k a s' w') = Ret b.
Proof.
  unfold bind, outcome_of. destruct (m s w) as [[[a| |] s'] w']; simpl;
    try discriminate.
  intros H. exists a, s', w'. auto.
Qed.

Lemma lift_Ret_inv {A} (x : outcome A) (s s' : Session) (w w' : World) (a : A) :
  lift x s w = (Ret a, s', w') -> x = Ret a.
Proof. unfold lift. congruence. Qed.

Lemma json_normalize_path_index (data : json) (record_path meta : string)
      (df : DataFrame) :
  json_normalize_path data record_path meta = Ret df -> index_names df = [].
Proof.
  unfold json_normalize_path.
  destruct data as [| | | |items|fields]; try discriminate.
  - destruct items as [|item items]; [now intros [= <-]|].
    destruct (omap _ _) as [pulled| |]; simpl; try discriminate.
    destruct (has_label _ _); try discriminate. now intros [= <-].
  - destruct (omap _ _) as [pulled| |]; simpl; try discriminate.
    destruct (has_label _ _); try discriminate. now intros [= <-].
Qed.

Lemma rename_index (m : list (string * string)) (df df' : DataFrame) :
  rename m df = Ret df' -> index_names df' = index_names df /\ rows df' = rows df.
Proof.
  unfold rename, set_columns. destruct (unique_labels _); try discriminate.
  now intros [= <-].
Qed.

Lemma fillna0_no_missing (df : DataFrame) : no_missing (fillna0 df).
Proof.
  intros r c Hr Hc. unfold fillna0 in Hr. cbn [rows] in Hr.
  apply in_map_iff in Hr. destruct Hr as (r0 & <- & _). cbn [snd] in Hc.
  apply in_map_iff in Hc. destruct Hc as (c0 & <- & _).
  destruct c0; simpl; discriminate.
Qed.

(** Whenever [get_instrument_stock_prices_list] returns, it returns one
    table that has no index and in which no value is missing: the values
    that were missing are 0. *)
Theorem stock_prices_list_filled (E : Env) (stock_id_list : list Z)
        (from_date to_date : pyval) (s : Session) (w : World) (r : result) :
  outcome_of (get_instrument_stock_prices_list E stock_id_list from_date to_date s w)
  = Ret r ->
  exists df, r = RFrame df /\ index_names df = [] /\ no_missing df.
Proof.
  unfold get_instrument_stock_prices_list. cbv zeta. intros H.
  apply bind_Ret_inv in H. destruct H as (json_data & s1 & w1 & _ & H).
  apply bind_Ret_inv in H. destruct H as (data & s2 & w2 & _ & H).
  apply bind_Ret_inv in H. destruct H as (sp0 & s3 & w3 & H0 & H).
  apply bind_Ret_inv in H. destruct H as (sp & s4 & w4 & H1 & H).
  apply lift_Ret_inv in H0, H1.
  unfold ret, outcome_of in H. simpl in H. injection H as <-.
  exists (fillna0 sp). split; [reflexivity|]. split.
  - cbn [fillna0 index_names].
    destruct (rename_index _ _ _ H1) as [-> _].
    now apply (json_normalize_path_index _ _ _ _ H0).
  - apply fillna0_no_missing.
Qed.

Lemma stock_prices_list_filled_witness :
  exists df,
    outcome_of (get_instrument_stock_prices_list (serving sample_price_list)
                  [2%Z] PNone PNone fresh_session (world0 0)) = Ret (RFrame df)
    /\ index_names df = [] /\ no_missing df.
Proof.
  assert (Hrun : outcome_of (get_instrument_stock_prices_list (serving sample_price_list)
                               [2%Z] PNone PNone fresh_session (world0 0))
                 = Ret (RFrame
                          {| index_names := [];
                             columns := [CStr "date"; CStr "close"; CStr "high";
                                         CStr "stock_id"];
                             rows := [([], [CStr "2020-09-24"; CNum 10; CNum 0; CNum 2]);
                                      ([], [CStr "2020-09-25"; CNum 0; CNum 12; CNum 2])]
                          |}))
    by (vm_compute; reflexivity).
  destruct (stock_prices_list_filled (serving sample_price_list) [2%Z] PNone PNone
              fresh_session (world0 0) _ Hrun) as (df & Heq & Hidx & Hno).
  exists df. injection Heq as <-. split; [exact Hrun|]. split; [exact Hidx|exact Hno].
Defined.

(** ** The index of the tables *)

Lemma obind_Ret_inv {A B} (x : outcome A) (f : A -> outcome B) (b : B) :
  obind x f = Ret b -> exists a, x = Ret a /\ f a = Ret b.
Proof. destruct x as [a| |]; simpl; try discriminate. eauto. Qed.

Lemma json_normalize_index (data : json) (df : DataFrame) :
  json_normalize data = Ret df -> index_names df = [].
Proof.
  unfold json_normalize. destruct data; try discriminate.
  - destruct (traverse flat_record items); try discriminate. now intros [= <-].
  - destruct (flat_record (JObj fields)); try discriminate. now intros [= <-].
Qed.

Lemma set_columns_index (cols : list cell) (df df' : DataFrame) :
  set_columns cols df = Ret df' -> index_names df' = index_names df.
Proof.
  unfold set_columns. destruct (unique_labels cols); try discriminate.
  now intros [= <-].
Qed.

Lemma strip_column_names_index (df df' : DataFrame) :
  strip_column_names df = Ret df' -> index_names df' = index_names df.
Proof.
  unfold strip_column_names. intros H. apply obind_Ret_inv in H.
  destruct H as (cols & _ & H). now apply set_columns_index in H.
Qed.

Lemma map_column_index (f : cell -> outcome cell) (i : nat) (df df' : DataFrame) :
  map_column f i df = Ret df' -> index_names df' = index_names df.
Proof.
  unfold map_column. intros H. apply obind_Ret_inv in H.
  destruct H as (rs & _ & H). now injection H as <-.
Qed.

Lemma parse_date_index (E : Env) (df df' : DataFrame) (key : string) :
  parse_date E df key = Ret df' -> index_names df' = index_names df.
Proof.
  unfold parse_date, _parse_date. destruct (position _ _).
  - apply map_column_index.
  - now intros [= <-].
Qed.

Lemma apply_replace_index (df df' : DataFrame) (key : string) :
  apply_replace key df = Ret df' -> index_names df' = index_names df.
Proof.
  unfold apply_replace. destruct (position _ _); try discriminate.
  apply map_column_index.
Qed.



Ltac invert_binds H :=
  repeat (apply bind_Ret_inv in H;
          let a := fresh "a" in
          let s := fresh "s" in
          let w := fresh "w" in
          let Hm := fresh "Hm" in
          destruct H as (a & s & w & Hm & H);
          try apply lift_Ret_inv in Hm).

Ltac index_facts :=
  repeat match goal with
         | H : json_normalize _ = Ret _ |- _ => apply json_normalize_index in H
         | H : rename _ _ = Ret _ |- _ => apply rename_index in H; destruct H as [H _]
         | H : parse_date _ _ _ = Ret _ |- _ => apply parse_date_index in H
         | H : apply_replace _ _ = Ret _ |- _ => apply apply_replace_index in H
         | H : strip_column_names _ = Ret _ |- _ => apply strip_column_names_index in H
         end.







Lemma rename_lower_index (df df' : DataFrame) :
  rename_lower df = Ret df' -> index_names df' = index_names df.
Proof.
  unfold rename_lower. intros H. apply obind_Ret_inv in H.
  destruct H as (cols & _ & H). now apply set_columns_index in H.
Qed.

Lemma report_list_frame_index (E : Env) (report_list : json) (record_path : string)
      (df : DataFrame) :
  report_list_frame E report_list record_path = Ret df -> index_names df = [].
Proof.
  unfold report_list_frame. intros H.
  apply obind_Ret_inv in H. destruct H as (d0 & H0 & H).
  apply obind_Ret_inv in H. destruct H as (d1 & H1 & H).
  apply obind_Ret_inv in H. destruct H as (d2 & H2 & H).
  apply obind_Ret_inv in H. destruct H as (d3 & H3 & H).
  apply obind_Ret_inv in H. destruct H as (d4 & H4 & H).
  apply json_normalize_path_index in H0. apply rename_lower_index in H1.
  index_facts. congruence.
Qed.

(** Whenever [get_instrument_report_list] returns, it returns three tables,
    quarter, year and R12 in that order, and unlike the tables of
    [get_instrument_reports] none of them is indexed. *)
Theorem report_list_not_indexed (E : Env) (stock_id_list : list Z)
        (s : Session) (w : World) (r : result) :
  outcome_of (get_instrument_report_list E stock_id_list s w) = Ret r ->
  exists quarter year r12,
    r = RFrames [quarter; year; r12]
    /\ Forall (fun df => index_names df = []) [quarter; year; r12].
Proof.
  unfold get_instrument_report_list. cbv zeta. intros H.
  invert_binds H.
  unfold ret, outcome_of in H. simpl in H. injection H as <-.
  do 3 eexists. split; [reflexivity|].
  repeat constructor; eapply report_list_frame_index; eassumption.
Qed.

Lemma report_list_not_indexed_witness :
  exists quarter year r12,
    outcome_of (get_instrument_report_list (serving sample_report_list) [3%Z]
                  fresh_session (world0 0))
    = Ret (RFrames [quarter; year; r12])
    /\ index_names year = []
    /\ columns year = [CStr "year"; CStr "period"; CStr "revenues"; CStr "stock_id"].
Proof.
  assert (Hrun : outcome_of (get_instrument_report_list (serving sample_report_list)
                               [3%Z] fresh_session (world0 0))
                 = Ret (RFrames
                          [ {| index_names := [];
                               columns := [CStr "year"; CStr "period"; CStr "revenues";
                                           CStr "stock_id"];
                               rows := [([], [CNum 2020; CNum 1; CNum 2; CNum 3])] |};
                            {| index_names := [];
                               columns := [CStr "year"; CStr "period"; CStr "revenues";
                                           CStr "stock_id"];
                               rows := [([], [CNum 2019; CNum 5; CNum 7; CNum 3]);
                                        ([], [CNum 2020; CNum 5; CNum 9; CNum 3])] |};
                            {| index_names := [];
                               columns := [CStr "year"; CStr "period"; CStr "revenues";
                                           CStr "stock_id"];
                               rows := [([], [CNum 2020; CNum 1; CNum 8; CNum 3])] |} ]))
    by (vm_compute; reflexivity).
  destruct (report_list_not_indexed _ _ _ _ _ Hrun) as (q & y & r12 & Heq & Hall).
  exists q, y, r12. injection Heq as <- <- <-.
  split; [exact Hrun|]. split; [|reflexivity].
  inversion Hall as [|? ? _ Hrest]. inversion Hrest as [|? ? Hy _]. exact Hy.
Defined.
